(** * Monthly CSM report: threshold evaluation, synchronized writes,
      configuration validation and report data assembly

    A shallow embedding of [src/app.py] (the Flask handlers that write the
    PostgreSQL tables) and [src/ppt_generator.py] (the report data
    assembler and the colour ladders of the deck generator), with the
    properties stated by the specification proved about it.

    Conventions. Python strings are lists of code points; Python numbers
    (int, float, Decimal) are rationals, NaN and SQL NULL are [None]; the
    arithmetic of the report on floats rounds to binary64 ([float64]).
    Library calls whose code is not in the repository (json, int, float,
    strptime, the server's casts) are the fields of a record [python] and
    every theorem holds for all of them. A handler is a computation on a
    database connection that may raise; which statements the server
    rejects is an input of the run. *)

From Stdlib Require Import QArith Qround Qpower.
From stdpp Require Import base tactics option list sorting strings numbers gmap.

Local Open Scope Z_scope.
Local Set Warnings "-register-all".

(** ** Python values *)

(** A Python [str] is a sequence of Unicode code points. *)
Abbreviation char := N (only parsing).
Abbreviation str := (list N) (only parsing).

Definition lit (s : string) : str :=
  map Ascii.N_of_ascii (String.list_ascii_of_string s).
Arguments lit : simpl never.

(** Python [float] as the code uses it: a rational, or NaN ([None]).
    pandas reads an SQL NULL of a numeric column as NaN. *)
Definition float := option Q.

Definition float_ge (a : float) (b : Q) : bool :=
  match a with
  | Some x => Qle_bool b x
  | None => false
  end.

Definition Qmax (a b : Q) : Q := if Qle_bool a b then b else a.

Definition Qgtb (a b : Q) : bool := negb (Qle_bool a b).

(** ** Threshold evaluator ([ppt_generator.py], [generate_presentation]) *)

Inductive color_key := Color1 | Color2 | Color3 | Invalid.

Global Instance color_key_eq_dec : EqDecision color_key.
Proof. solve_decision. Defined.

(** A 3-tier rule set: the decoded [Colour_Rules] mapping, indexed by
    ["Color1"], ["Color2"], ["Color3"]. *)
Record rules := Rules {
  rule_Color1 : Q;
  rule_Color2 : Q;
  rule_Color3 : Q
}.

Definition cutoff (r : rules) (k : color_key) : option Q :=
  match k with
  | Color1 => Some (rule_Color1 r)
  | Color2 => Some (rule_Color2 r)
  | Color3 => Some (rule_Color3 r)
  | Invalid => None
  end.

(** Slide 2 (availability), lines 321-328. *)
Definition availability_color_key (actual_val : float) (color_rules : rules)
  : color_key :=
  if float_ge actual_val (rule_Color1 color_rules) then Color1
  else if float_ge actual_val (rule_Color2 color_rules) then Color2
  else if float_ge actual_val (rule_Color3 color_rules) then Color3
  else Invalid.

(** Slides 3 and 4 (licenses, storage), lines 449-456 and 647-654. *)
Definition usage_color_key (used_val used_test : float) (rules0 : rules)
  : color_key :=
  if float_ge used_val (rule_Color3 rules0)
     || float_ge used_test (rule_Color3 rules0)
  then Color3
  else if float_ge used_val (rule_Color2 rules0)
          || float_ge used_test (rule_Color2 rules0)
  then Color2
  else if float_ge used_val (rule_Color1 rules0)
          || float_ge used_test (rule_Color1 rules0)
  then Color1
  else Invalid.

(** The specification's wording: walk the tiers in the given order and
    return the first one whose cutoff the value meets or exceeds. *)
Definition meets (v : Q) (r : rules) (k : color_key) : bool :=
  match cutoff r k with
  | Some c => Qle_bool c v
  | None => false
  end.

Definition first_tier_met (order : list color_key) (v : Q) (r : rules)
  : color_key :=
  default Invalid (find (meets v r) order).

(** ** Python strings *)

(** Code points for which [str.isspace] holds; [str.strip] removes them
    from both ends. *)
Definition isspace (c : char) : bool :=
  ((9 <=? c) && (c <=? 13) || (28 <=? c) && (c <=? 32)
   || (c =? 133) || (c =? 160) || (c =? 5760)
   || (8192 <=? c) && (c <=? 8202)
   || (c =? 8232) || (c =? 8233) || (c =? 8239) || (c =? 8287)
   || (c =? 12288))%N.

Fixpoint lstrip (s : str) : str :=
  match s with
  | c :: s' => if isspace c then lstrip s' else s
  | [] => []
  end.

Definition strip (s : str) : str := rev (lstrip (rev (lstrip s))).

Fixpoint startswith (s p : str) : bool :=
  match p, s with
  | [], _ => true
  | c :: p', d :: s' => (c =? d)%N && startswith s' p'
  | _ :: _, [] => false
  end.

(** [c in s] for a one-character needle. *)
Definition contains (c : char) (s : str) : bool := existsb (N.eqb c) s.

(** [s.replace(old, new)] for a non-empty [old]: leftmost, non-overlapping
    occurrences. [skip] counts the characters of a match still to drop. *)
Fixpoint replace_from (old new : str) (skip : nat) (s : str) : str :=
  match s with
  | [] => []
  | c :: s' =>
      match skip with
      | S k => replace_from old new k s'
      | O =>
          if startswith s old
          then new ++ replace_from old new (pred (length old)) s'
          else c :: replace_from old new O s'
      end
  end.

Definition replace (old new s : str) : str := replace_from old new O s.

(** Line boundaries of [str.splitlines]: LF, VT, FF, CR, FS, GS, RS, NEL,
    LS, PS; CR LF counts as one boundary. *)
Definition is_linebreak (c : char) : bool :=
  ((10 <=? c) && (c <=? 13) || (28 <=? c) && (c <=? 30)
   || (c =? 133) || (c =? 8232) || (c =? 8233))%N.

(** [cur] is the current line, reversed. No empty last line is produced. *)
Fixpoint splitlines_from (cur : str) (s : str) : list str :=
  match s with
  | [] => match cur with [] => [] | _ => [rev cur] end
  | c :: s' =>
      if is_linebreak c then
        rev cur ::
          match s' with
          | d :: s'' =>
              if (c =? 13)%N && (d =? 10)%N
              then splitlines_from [] s''
              else splitlines_from [] s'
          | [] => splitlines_from [] s'
          end
      else splitlines_from (c :: cur) s'
  end.

Definition splitlines (s : str) : list str := splitlines_from [] s.

(** Decimal rendering of a length, as an f-string prints an [int]. *)
Fixpoint digits_fuel (fuel : nat) (n : N) (acc : str) : str :=
  match fuel with
  | O => acc
  | S f =>
      let acc' := (48 + n mod 10)%N :: acc in
      if (n <? 10)%N then acc' else digits_fuel f (n / 10)%N acc'
  end.

Definition str_of_N (n : N) : str := digits_fuel (S (N.size_nat n)) n [].

Definition str_of_nat (n : nat) : str := str_of_N (N.of_nat n).

Definition str_of_Z (z : Z) : str :=
  if z <? 0 then 45%N :: str_of_N (Z.to_N (- z)) else str_of_N (Z.to_N z).

(** ** JSON values and Python exceptions *)

Inductive json :=
  | JNull
  | JBool (b : bool)
  | JNum (q : Q)
  | JStr (s : str)
  | JArr (l : list json)
  | JObj (l : list (str * json)).

(** Python truthiness ([if not value]). *)
Definition truthy (j : json) : bool :=
  match j with
  | JNull => false
  | JBool b => b
  | JNum q => negb (Qeq_bool q 0)
  | JStr s => match s with [] => false | _ => true end
  | JArr l => match l with [] => false | _ => true end
  | JObj l => match l with [] => false | _ => true end
  end.

Inductive exn_class :=
  | DatabaseError | ValueError | TypeError | AttributeError | JSONDecodeError.

Record exn := Exn { exn_class_of : exn_class; exn_text : str }.

Inductive result (A : Type) :=
  | Ok (a : A)
  | Raise (e : exn).
Arguments Ok {A} a.
Arguments Raise {A} e.

(** A calendar date. *)
Record date := Date { year : Z; month : Z; day : Z }.

Global Instance date_eq_dec : EqDecision date.
Proof. solve_decision. Defined.

Definition date_ltb (a b : date) : bool :=
  (year a <? year b)
  || (year a =? year b)
     && ((month a <? month b)
         || (month a =? month b) && (day a <? day b)).

Definition date_leb (a b : date) : bool := negb (date_ltb b a).

(** The library functions the handlers call and whose code is not part of
    the repository. A Python object passed to one of them is given as a
    [json] value ([None] is [JNull], a [str] is [JStr]); a call that raises
    returns the exception. [py_float] and [py_decimal] return the number
    a text stands for; the texts of an infinity and of NaN, which they
    accept too, are outside the model. *)
Record python := Python {
  json_loads : str -> result json;        (* json.loads(s) *)
  json_dumps : json -> str;               (* json.dumps(v) *)
  py_str : json -> str;                   (* str(v), v not a string *)
  py_int : json -> result Z;              (* int(v) *)
  py_float : json -> result Q;            (* float(v) *)
  py_decimal : str -> result Q;           (* Decimal(s) *)
  float_str : Q -> str;                   (* str(x) of a float x *)
  strptime : json -> str -> result date;  (* strptime(v, fmt).date() *)
  fromisoformat : str -> result date;     (* fromisoformat(s).date() *)
  pg_date : str -> result date;           (* PostgreSQL's text to date cast *)
  pg_lower : str -> str;                  (* PostgreSQL's LOWER *)
  isdecimal : char -> bool                (* a decimal digit: \d of re *)
}.

Global Instance result_ret : MRet result := @Ok.
Global Instance result_bind : MBind result := fun A B f r =>
  match r with
  | Ok a => f a
  | Raise e => Raise e
  end.

(** ** Notes limits ([app.py], [validate_notes_limits]) *)

(** [f"'{key}' has {len(lines)} lines (max 3 allowed)."] *)
Definition too_many_lines (key : str) (n : nat) : str :=
  lit "'" ++ key ++ lit "' has " ++ str_of_nat n
  ++ lit " lines (max 3 allowed).".

(** [f"'{key}' line {idx} is {len(line)} chars (max 70)."] *)
Definition line_too_long (key : str) (idx n : nat) : str :=
  lit "'" ++ key ++ lit "' line " ++ str_of_nat idx ++ lit " is "
  ++ str_of_nat n ++ lit " chars (max 70).".

(** The inner [for idx, line in enumerate(lines, start=1)] loop. *)
Fixpoint check_lines (key : str) (idx : nat) (lines : list str)
  : option str :=
  match lines with
  | [] => None
  | line :: rest =>
      if (70 <? length line)%nat
      then Some (line_too_long key idx (length line))
      else check_lines key (S idx) rest
  end.

(** The text whose lines are counted: [val], or [str(val)] when [val] is
    not a string. *)
Definition note_text (py : python) (val : json) : str :=
  match val with JStr s => s | _ => py_str py val end.

(** The body of [for key, val in data.items()] for one item: [None] when
    the item passes, the error message otherwise. *)
Definition check_note (py : python) (key : str) (val : json) : option str :=
  match val with
  | JNull => None
  | _ =>
      let lines := splitlines (note_text py val) in
      if (3 <? length lines)%nat
      then Some (too_many_lines key (length lines))
      else check_lines key 1 lines
  end.

Fixpoint check_notes (py : python) (items : list (str * json))
  : bool * option str :=
  match items with
  | [] => (true, None)
  | (key, val) :: rest =>
      match check_note py key val with
      | Some msg => (false, Some msg)
      | None => check_notes py rest
      end
  end.

Definition normalize_quotes (notes_json_text : str) : str :=
  let normalized := strip notes_json_text in
  if startswith normalized (lit "'")
     || contains 39%N normalized && negb (contains 34%N normalized)
  then replace (lit "'") [34%N] normalized
  else normalized.

(** [notes_json_text] is [None] or a string. A parsed value that is not a
    mapping has no [items()]: the [AttributeError] escapes the function. *)
Definition validate_notes_limits (py : python) (notes_json_text : option str)
  : result (bool * option str) :=
  match notes_json_text with
  | None | Some [] => Ok (true, None)
  | Some text =>
      match json_loads py (normalize_quotes text) with
      | Raise e =>
          Ok (false, Some (lit "Notes JSON parse error: " ++ exn_text e))
      | Ok (JObj items) => Ok (check_notes py items)
      | Ok _ =>
          Raise (Exn AttributeError (lit "object has no attribute 'items'"))
      end
  end.

(** The specification's wording of the limits. *)
Definition within_limits (py : python) (val : json) : Prop :=
  val <> JNull ->
  (length (splitlines (note_text py val)) <= 3)%nat
  /\ Forall (fun line => (length line <= 70)%nat)
       (splitlines (note_text py val)).

(** ** The tables *)

(** A numeric column: NULL ([None]) or a number. *)
Definition num := option Q.

(** The six value columns of [users_table]; in the group [updated] of a
    row they are the columns [updated_prod_limit], [updated_prod_used],
    ..., in the group [base] the columns without the prefix. *)
Record users_cols := UsersCols {
  prod_limit : num; prod_used : num;
  test_limit : num; test_used : num;
  dev_limit : num; dev_used : num
}.

(** [storage_table]: [updated_prod_target_storage_gb],
    [updated_prod_storage_gb], ... *)
Record storage_cols := StorageCols {
  prod_target_storage_gb : num; prod_storage_gb : num;
  test_target_storage_gb : num; test_storage_gb : num;
  dev_target_storage_gb : num; dev_storage_gb : num
}.

(** [availability_table]: [updated_availability], [updated_target]; the
    base columns are [total_availability] and [target]. *)
Record availability_cols := AvailabilityCols {
  availability : num;
  target : num
}.

(** [tickets_computed_table]: [updated_tickets_opened], ...,
    [updated_p4_backlog]. *)
Record tickets_cols := TicketsCols {
  tickets_opened : num; tickets_closed : num; tickets_backlog : num;
  current_opened_tickets : num; current_closed_tickets : num;
  current_backlog_tickets : num;
  p1_opened : num; p1_closed : num; p1_backlog : num;
  p2_opened : num; p2_closed : num; p2_backlog : num;
  p3_opened : num; p3_closed : num; p3_backlog : num;
  p4_opened : num; p4_closed : num; p4_backlog : num
}.

(** A row of one of the four domain tables. *)
Record domain_row (C : Type) := DomainRow {
  d_customer_name : str;
  d_month_year : date;
  base : C;
  updated : C
}.
Arguments DomainRow {C} _ _ _ _.
Arguments d_customer_name {C} _.
Arguments d_month_year {C} _.
Arguments base {C} _.
Arguments updated {C} _.

(** A row of [final_computed_table], the aggregate. *)
Record final_row := FinalRow {
  customer_name : str;
  month_year : date;
  csm_primary : json;
  csm_secondary : json;
  updated_availability_cols : availability_cols;
  updated_users_cols : users_cols;
  updated_storage_cols : storage_cols;
  updated_tickets_cols : tickets_cols;
  customer_full_name : json;
  customer_uid : option (list str)
}.

(** A row of [customer_mapping_table]. The scalar columns hold the value
    the handler hands to the driver; a jsonb column holds the JSON text
    given to the [::jsonb] cast, or NULL. *)
Record mapping_row := MappingRow {
  m_customer_name : str;
  m_month_year : date;
  m_customer_full_name : json;
  m_csm_primary : json;
  m_csm_secondary : json;
  m_customer_uid : option (list str);
  no_of_environments : json;
  no_of_months : json;
  color_map_thresholds_availability : option str;
  color_map_thresholds_users : option str;
  color_map_thresholds_storage : option str;
  indicator_color_code_rules : option str;
  circle_color_code_rules : option str;
  notes_availability : option str;
  notes_users : option str;
  notes_storage : option str;
  customer_note : json
}.

Record db := Db {
  final_computed_table : list final_row;
  availability_table : list (domain_row availability_cols);
  users_table : list (domain_row users_cols);
  storage_table : list (domain_row storage_cols);
  tickets_computed_table : list (domain_row tickets_cols);
  customer_mapping_table : list mapping_row
}.

Definition with_final (f : list final_row -> list final_row) (d : db) : db :=
  Db (f (final_computed_table d)) (availability_table d) (users_table d)
     (storage_table d) (tickets_computed_table d) (customer_mapping_table d).

Definition with_availability
  (f : list (domain_row availability_cols) ->
       list (domain_row availability_cols))
  (d : db) : db :=
  Db (final_computed_table d) (f (availability_table d)) (users_table d)
     (storage_table d) (tickets_computed_table d) (customer_mapping_table d).

Definition with_users
  (f : list (domain_row users_cols) -> list (domain_row users_cols))
  (d : db) : db :=
  Db (final_computed_table d) (availability_table d) (f (users_table d))
     (storage_table d) (tickets_computed_table d) (customer_mapping_table d).

Definition with_storage
  (f : list (domain_row storage_cols) -> list (domain_row storage_cols))
  (d : db) : db :=
  Db (final_computed_table d) (availability_table d) (users_table d)
     (f (storage_table d)) (tickets_computed_table d)
     (customer_mapping_table d).

Definition with_tickets
  (f : list (domain_row tickets_cols) -> list (domain_row tickets_cols))
  (d : db) : db :=
  Db (final_computed_table d) (availability_table d) (users_table d)
     (storage_table d) (f (tickets_computed_table d))
     (customer_mapping_table d).

Definition with_mapping (f : list mapping_row -> list mapping_row) (d : db)
  : db :=
  Db (final_computed_table d) (availability_table d) (users_table d)
     (storage_table d) (tickets_computed_table d)
     (f (customer_mapping_table d)).

(** ** SQL statements on one table *)

(** [UPDATE t SET ... WHERE ...]. *)
Definition sql_update {R : Type} (where_ : R -> bool) (set : R -> R)
  (t : list R) : list R :=
  map (fun r => if where_ r then set r else r) t.

(** [DELETE FROM t WHERE ...]. *)
Definition sql_delete {R : Type} (where_ : R -> bool) (t : list R) : list R :=
  List.filter (fun r => negb (where_ r)) t.

(** [SELECT ... FROM t WHERE ...]. *)
Definition sql_select {R : Type} (where_ : R -> bool) (t : list R) : list R :=
  List.filter where_ t.

(** The number of rows a statement touches: the cursor's [rowcount]. *)
Definition rowcount {R : Type} (where_ : R -> bool) (t : list R) : Z :=
  Z.of_nat (length (List.filter where_ t)).

(** A text parameter compared with a text column: NULL matches no row. *)
Definition text_is (param : option str) (column : str) : bool :=
  match param with
  | Some s => bool_decide (s = column)
  | None => false
  end.

Definition date_is (param : option date) (column : date) : bool :=
  match param with
  | Some d => bool_decide (d = column)
  | None => false
  end.

Definition date_after (param : option date) (column : date) : bool :=
  match param with
  | Some d => date_ltb d column
  | None => false
  end.

(** [WHERE customer_name = %s AND month_year = %s] on each kind of row. *)
Definition final_at (c : option str) (m : option date) (r : final_row) : bool :=
  text_is c (customer_name r) && date_is m (month_year r).

Definition domain_at {C : Type} (c : option str) (m : option date)
  (r : domain_row C) : bool :=
  text_is c (d_customer_name r) && date_is m (d_month_year r).

Definition mapping_at (c : option str) (m : option date) (r : mapping_row)
  : bool :=
  text_is c (m_customer_name r) && date_is m (m_month_year r).

(** [WHERE customer_name = %s AND month_year > %s]. *)
Definition final_after (c : option str) (m : option date) (r : final_row)
  : bool :=
  text_is c (customer_name r) && date_after m (month_year r).

Definition domain_after {C : Type} (c : option str) (m : option date)
  (r : domain_row C) : bool :=
  text_is c (d_customer_name r) && date_after m (d_month_year r).

Arguments sql_update : simpl never.
Arguments sql_delete : simpl never.
Arguments sql_select : simpl never.
Arguments rowcount : simpl never.
Arguments final_at : simpl never.
Arguments domain_at : simpl never.
Arguments mapping_at : simpl never.
Arguments final_after : simpl never.
Arguments domain_after : simpl never.

(** ** Connections and transactions (psycopg2 on PostgreSQL) *)

(** [committed] is what the server has stored, [work] what the open
    transaction sees. A statement the server rejects aborts the
    transaction: every later statement is refused until the transaction
    ends, and COMMIT then ends it as a rollback. [faults] says, for the
    statements and commits still to come, which ones the server rejects
    (constraint, type or permission error, lost connection) and with what
    message. [up] is false when [get_db_connection] returns [None].
    [rejected] counts the statements and commits that were rejected so
    far; the handlers cannot read it. *)
Record conn := Conn {
  committed : db;
  work : db;
  aborted : bool;
  faults : list (option str);
  up : bool;
  rejected : nat
}.

Definition open_conn (d : db) (fs : list (option str)) (is_up : bool) : conn :=
  Conn d d false fs is_up 0.

(** Handler code: it may raise, and it acts on the connection. *)
Definition M (A : Type) : Type := conn -> result A * conn.

Definition ret {A : Type} (a : A) : M A := fun c => (Ok a, c).

Definition bind {A B : Type} (m : M A) (f : A -> M B) : M B :=
  fun c =>
    match m c with
    | (Ok a, c') => f a c'
    | (Raise e, c') => (Raise e, c')
    end.

Definition raise {A : Type} (e : exn) : M A := fun c => (Raise e, c).

(** [try: m except Exception as e: h e]. *)
Definition try_except {A : Type} (m : M A) (h : exn -> M A) : M A :=
  fun c =>
    match m c with
    | (Ok a, c') => (Ok a, c')
    | (Raise e, c') => h e c'
    end.

Definition lift {A : Type} (r : result A) : M A := fun c => (r, c).

Global Instance M_ret : MRet M := @ret.
Global Instance M_bind : MBind M := fun A B f m => bind m f.

Definition in_failed_transaction : exn :=
  Exn DatabaseError
    (lit "current transaction is aborted, commands ignored until end of transaction block").

(** [cur.execute(stmt, params)]. The statement computes its result and the
    new contents of the tables; it raises when the server rejects it. *)
Definition execute {A : Type} (stmt : db -> result (A * db)) : M A :=
  fun c =>
    if aborted c then (Raise in_failed_transaction, c)
    else
      match faults c with
      | Some msg :: fs =>
          (Raise (Exn DatabaseError msg),
           Conn (committed c) (work c) true fs (up c) (S (rejected c)))
      | fs =>
          match stmt (work c) with
          | Ok (a, d') =>
              (Ok a, Conn (committed c) d' false (tail fs) (up c)
                       (rejected c))
          | Raise e =>
              (Raise e,
               Conn (committed c) (work c) true (tail fs) (up c)
                 (S (rejected c)))
          end
      end.

(** [conn.commit()]. *)
Definition commit : M unit :=
  fun c =>
    if aborted c
    then (Ok tt,
          Conn (committed c) (committed c) false (faults c) (up c)
            (rejected c))
    else
      match faults c with
      | Some msg :: fs =>
          (Raise (Exn DatabaseError msg),
           Conn (committed c) (committed c) false fs (up c)
             (S (rejected c)))
      | fs =>
          (Ok tt, Conn (work c) (work c) false (tail fs) (up c) (rejected c))
      end.

(** [conn.rollback()]. *)
Definition rollback : M unit :=
  fun c =>
    (Ok tt,
     Conn (committed c) (committed c) false (faults c) (up c) (rejected c)).

(** [get_db_connection()]: whether a connection was obtained. *)
Definition get_db_connection : M bool := fun c => (Ok (up c), c).

(** [conn.cursor()] on the value [get_db_connection] returned. *)
Definition cursor : M unit :=
  fun c =>
    if up c then (Ok tt, c)
    else (Raise (Exn AttributeError
                   (lit "'NoneType' object has no attribute 'cursor'")), c).

(** Closing or dropping the connection discards the open transaction: what
    a request leaves behind is the committed state. *)
Definition run {A : Type} (m : M A) (d : db) (fs : list (option str))
  (is_up : bool) : result A * db :=
  let '(r, c) := m (open_conn d fs is_up) in (r, committed c).

(** ** Requests and responses *)

(** [request.form]. *)
Definition form := list (str * str).

Fixpoint form_get (f : form) (k : str) : option str :=
  match f with
  | [] => None
  | (k', v) :: f' => if decide (k' = k) then Some v else form_get f' k
  end.

(** A form value as the Python object it is. *)
Definition obj (x : option str) : json :=
  match x with
  | Some s => JStr s
  | None => JNull
  end.

(** One entry of [deleted_counts]: a row count or an error text. *)
Inductive count :=
  | Deleted (n : Z)
  | DeleteError (msg : str).

(** The JSON body of a response and its HTTP status. *)
Record response := Response {
  status : Z;
  success : bool;
  message : option str;
  warnings : option (list str);
  deleted_counts : option (list (str * count))
}.

Definition reply (ok : bool) (msg : str) : response :=
  Response 200 ok (Some msg) None None.

(** [sep.join(l)]. *)
Fixpoint join (sep : str) (l : list str) : str :=
  match l with
  | [] => []
  | [x] => x
  | x :: rest => x ++ sep ++ join sep rest
  end.

(** A month given as text in a statement: the server casts it to a date. *)
Definition date_param (py : python) (month0 : option str)
  : result (option date) :=
  match month0 with
  | None => Ok None
  | Some s => d ← pg_date py s; Ok (Some d)
  end.

Definition Qz (z : Z) : num := Some (inject_Z z).

(** ** Row updates *)

Definition set_availability (a : availability_cols) (r : final_row)
  : final_row :=
  FinalRow (customer_name r) (month_year r) (csm_primary r) (csm_secondary r)
    a (updated_users_cols r) (updated_storage_cols r)
    (updated_tickets_cols r) (customer_full_name r) (customer_uid r).

Definition set_users (f : users_cols -> users_cols) (r : final_row)
  : final_row :=
  FinalRow (customer_name r) (month_year r) (csm_primary r) (csm_secondary r)
    (updated_availability_cols r) (f (updated_users_cols r))
    (updated_storage_cols r) (updated_tickets_cols r)
    (customer_full_name r) (customer_uid r).

Definition set_storage (f : storage_cols -> storage_cols) (r : final_row)
  : final_row :=
  FinalRow (customer_name r) (month_year r) (csm_primary r) (csm_secondary r)
    (updated_availability_cols r) (updated_users_cols r)
    (f (updated_storage_cols r)) (updated_tickets_cols r)
    (customer_full_name r) (customer_uid r).

Definition set_tickets (f : tickets_cols -> tickets_cols) (r : final_row)
  : final_row :=
  FinalRow (customer_name r) (month_year r) (csm_primary r) (csm_secondary r)
    (updated_availability_cols r) (updated_users_cols r)
    (updated_storage_cols r) (f (updated_tickets_cols r))
    (customer_full_name r) (customer_uid r).

Definition set_csm (p s : json) (r : final_row) : final_row :=
  FinalRow (customer_name r) (month_year r) p s
    (updated_availability_cols r) (updated_users_cols r)
    (updated_storage_cols r) (updated_tickets_cols r)
    (customer_full_name r) (customer_uid r).

Definition set_updated {C : Type} (f : C -> C) (r : domain_row C)
  : domain_row C :=
  DomainRow (d_customer_name r) (d_month_year r) (base r) (f (updated r)).

(** [SET updated_prod_limit = %s, updated_test_limit = %s,
    updated_dev_limit = %s]. *)
Definition set_user_limits (pl tl dl : num) (u : users_cols) : users_cols :=
  UsersCols pl (prod_used u) tl (test_used u) dl (dev_used u).

(** [SET updated_prod_target_storage_gb = %s,
    updated_test_target_storage_gb = %s,
    updated_dev_target_storage_gb = %s]. *)
Definition set_storage_targets (pt tt dt : num) (s : storage_cols)
  : storage_cols :=
  StorageCols pt (prod_storage_gb s) tt (test_storage_gb s) dt
    (dev_storage_gb s).

(** [SET updated_current_opened_tickets = %s,
    updated_current_closed_tickets = %s,
    updated_current_backlog_tickets = %s, updated_tickets_backlog = %s]. *)
Definition set_current_tickets (o c b ob : num) (t : tickets_cols)
  : tickets_cols :=
  TicketsCols (tickets_opened t) (tickets_closed t) ob o c b
    (p1_opened t) (p1_closed t) (p1_backlog t)
    (p2_opened t) (p2_closed t) (p2_backlog t)
    (p3_opened t) (p3_closed t) (p3_backlog t)
    (p4_opened t) (p4_closed t) (p4_backlog t).

(** ** The edit handlers ([app.py]) *)

(** [except Exception as e: return jsonify({'success': False,
    'message': str(e)})]. *)
Definition failure_of (e : exn) : M response :=
  mret (reply false (exn_text e)).

(** [save_availability]. *)
Definition save_availability (py : python) (f : form) : M response :=
  try_except
    (let customer := form_get f (lit "customer") in
     let month0 := form_get f (lit "month") in
     availability0 ← lift (py_float py (obj (form_get f (lit "availability"))));
     target0 ← lift (py_float py (obj (form_get f (lit "target"))));
     if Qgtb availability0 100 || Qgtb target0 100 then
       mret (reply false (lit "Values must be " ++ [8804%N] ++ lit " 100"))
     else
       let availability_decimal := (availability0 / 100)%Q in
       let target_decimal := (target0 / 100)%Q in
       let cols :=
         AvailabilityCols (Some availability_decimal) (Some target_decimal) in
       cursor;;
       execute (fun d =>
         m ← date_param py month0;
         Ok (tt, with_final
                   (sql_update (final_at customer m) (set_availability cols))
                   d));;
       execute (fun d =>
         m ← date_param py month0;
         Ok (tt, with_availability
                   (sql_update (domain_at customer m)
                      (set_updated (fun _ => cols)))
                   d));;
       commit;;
       mret (reply true
               (lit "Availability updated to " ++ float_str py availability0
                ++ lit "% and Target to " ++ float_str py target0
                ++ lit "%")))
    failure_of.

(** [int(request.form.get(name, 0))]: the default is the integer 0. *)
Definition int_or_zero (py : python) (x : option str) : result Z :=
  match x with
  | Some s => py_int py (JStr s)
  | None => py_int py (JNum 0)
  end.

Definition users_warnings
  (prod_limit0 prod_used0 test_limit0 test_used0 dev_limit0 dev_used0 : Z)
  : list str :=
  (if prod_limit0 <? prod_used0 then [lit "Prod Used > Prod Limit"] else [])
  ++ (if test_limit0 <? test_used0 then [lit "Test Used > Test Limit"] else [])
  ++ (if (dev_limit0 <? dev_used0) && (0 <? dev_limit0)
      then [lit "Dev Used > Dev Limit"] else []).

(** [save_users]. *)
Definition save_users (py : python) (f : form) : M response :=
  try_except
    (let customer := form_get f (lit "customer") in
     let month0 := form_get f (lit "month") in
     prod_limit0 ← lift (py_int py (obj (form_get f (lit "prod_limit"))));
     prod_used0 ← lift (py_int py (obj (form_get f (lit "prod_used"))));
     test_limit0 ← lift (py_int py (obj (form_get f (lit "test_limit"))));
     test_used0 ← lift (py_int py (obj (form_get f (lit "test_used"))));
     dev_limit0 ← lift (int_or_zero py (form_get f (lit "dev_limit")));
     dev_used0 ← lift (int_or_zero py (form_get f (lit "dev_used")));
     let warnings0 :=
       users_warnings prod_limit0 prod_used0 test_limit0 test_used0
         dev_limit0 dev_used0 in
     let all_cols :=
       UsersCols (Qz prod_limit0) (Qz prod_used0) (Qz test_limit0)
         (Qz test_used0) (Qz dev_limit0) (Qz dev_used0) in
     let limits :=
       set_user_limits (Qz prod_limit0) (Qz test_limit0) (Qz dev_limit0) in
     cursor;;
     execute (fun d =>
       m ← date_param py month0;
       Ok (tt, with_final
                 (sql_update (final_at customer m)
                    (set_users (fun _ => all_cols))) d));;
     execute (fun d =>
       m ← date_param py month0;
       Ok (tt, with_final
                 (sql_update (final_after customer m) (set_users limits)) d));;
     execute (fun d =>
       m ← date_param py month0;
       Ok (tt, with_users
                 (sql_update (domain_at customer m)
                    (set_updated (fun _ => all_cols))) d));;
     execute (fun d =>
       m ← date_param py month0;
       Ok (tt, with_users
                 (sql_update (domain_after customer m) (set_updated limits))
                 d));;
     commit;;
     let message0 := lit "Users data updated successfully" in
     let message1 :=
       match warnings0 with
       | [] => message0
       | _ => message0 ++ lit " (Warning: " ++ join (lit ", ") warnings0
              ++ lit ")"
       end in
     mret (Response 200 true (Some message1) (Some warnings0) None))
    failure_of.

(** [to_decimal] of [save_storage]; [val] is a form value, or the integer
    default 0 of [request.form.get(name, 0)] given as its text. *)
Definition to_decimal (py : python) (val : option str) : Q :=
  match val with
  | None | Some [] => 0%Q
  | Some s =>
      match py_decimal py s with
      | Ok q => q
      | Raise _ =>
          match py_float py (JStr s) with
          | Ok x =>
              match py_decimal py (float_str py x) with
              | Ok q => q
              | Raise _ => 0%Q
              end
          | Raise _ => 0%Q
          end
      end
  end.

Definition form_get_default (f : form) (k : str) (dflt : str) : option str :=
  match form_get f k with
  | Some s => Some s
  | None => Some dflt
  end.

(** [save_storage]. *)
Definition save_storage (py : python) (f : form) : M response :=
  try_except
    (let customer := form_get f (lit "customer") in
     let month0 := form_get f (lit "month") in
     let prod_target := to_decimal py (form_get f (lit "prod_target")) in
     let prod_actual := to_decimal py (form_get f (lit "prod_actual")) in
     let test_target := to_decimal py (form_get f (lit "test_target")) in
     let test_actual := to_decimal py (form_get f (lit "test_actual")) in
     let dev_target :=
       to_decimal py (form_get_default f (lit "dev_target") (lit "0")) in
     let dev_actual :=
       to_decimal py (form_get_default f (lit "dev_actual") (lit "0")) in
     let all_cols :=
       StorageCols (Some prod_target) (Some prod_actual) (Some test_target)
         (Some test_actual) (Some dev_target) (Some dev_actual) in
     let targets :=
       set_storage_targets (Some prod_target) (Some test_target)
         (Some dev_target) in
     cursor;;
     execute (fun d =>
       m ← date_param py month0;
       Ok (tt, with_final
                 (sql_update (final_at customer m)
                    (set_storage (fun _ => all_cols))) d));;
     execute (fun d =>
       m ← date_param py month0;
       Ok (tt, with_final
                 (sql_update (final_after customer m) (set_storage targets))
                 d));;
     execute (fun d =>
       m ← date_param py month0;
       Ok (tt, with_storage
                 (sql_update (domain_at customer m)
                    (set_updated (fun _ => all_cols))) d));;
     execute (fun d =>
       m ← date_param py month0;
       Ok (tt, with_storage
                 (sql_update (domain_after customer m) (set_updated targets))
                 d));;
     commit;;
     mret (reply true (lit "Storage data updated successfully")))
    failure_of.

(** [save_tickets]: the request body is JSON. *)
Definition body_find (data : json) (k : str) : result (option json) :=
  match data with
  | JObj l =>
      Ok (snd <$> List.find (fun kv => bool_decide (fst kv = k)) l)
  | _ => Raise (Exn AttributeError (lit "object has no attribute 'get'"))
  end.

(** [data.get(k)]. *)
Definition body_get (data : json) (k : str) : result json :=
  v ← body_find data k; Ok (default JNull v).

(** [data.get(k, dflt)]. *)
Definition body_get_default (data : json) (k : str) (dflt : json)
  : result json :=
  v ← body_find data k; Ok (default dflt v).

Definition type_mismatch : exn :=
  Exn DatabaseError (lit "parameter type does not match the column").

(** A Python object as the parameter compared with a text column. *)
Definition text_param (v : json) : result (option str) :=
  match v with
  | JNull => Ok None
  | JStr s => Ok (Some s)
  | _ => Raise type_mismatch
  end.

(** A Python object under [%s::date]. *)
Definition date_cast_param (py : python) (v : json) : result (option date) :=
  match v with
  | JNull => Ok None
  | JStr s => d ← pg_date py s; Ok (Some d)
  | _ => Raise type_mismatch
  end.

Definition save_tickets (py : python) (data : json) : M response :=
  try_except
    (customer ← lift (body_get data (lit "customer"));
     month0 ← lift (body_get data (lit "month"));
     opened0 ← lift (v ← body_get data (lit "opened"); py_int py v);
     closed0 ← lift (v ← body_get data (lit "closed"); py_int py v);
     curr_backlog ← lift (v ← body_get data (lit "curr_backlog"); py_int py v);
     overall_backlog ←
       lift (v ← body_get data (lit "overall_backlog"); py_int py v);
     let cols :=
       set_current_tickets (Qz opened0) (Qz closed0) (Qz curr_backlog)
         (Qz overall_backlog) in
     cursor;;
     execute (fun d =>
       c ← text_param customer;
       m ← date_cast_param py month0;
       Ok (tt, with_final (sql_update (final_at c m) (set_tickets cols)) d));;
     execute (fun d =>
       c ← text_param customer;
       m ← date_cast_param py month0;
       Ok (tt, with_tickets (sql_update (domain_at c m) (set_updated cols))
                 d));;
     commit;;
     mret (reply true (lit "Tickets updated successfully")))
    failure_of.

(** ** Configuration upsert ([app.py], [save_config]) *)

Definition no_strip : exn :=
  Exn AttributeError (lit "object has no attribute 'strip'").

(** [value.strip()] on a Python object. *)
Definition strip_obj (v : json) : result str :=
  match v with
  | JStr s => Ok (strip s)
  | _ => Raise no_strip
  end.

(** [safe_json]: [None] is the Python [None] it returns. *)
Definition safe_json (py : python) (value : json) : result (option str) :=
  if negb (truthy value) then Ok None
  else
    value1 ← strip_obj value;
    let value2 := replace (lit "'") [34%N] value1 in
    let value3 :=
      replace (lit "False") (lit "false")
        (replace (lit "True") (lit "true")
           (replace (lit "None") (lit "null") value2)) in
    match json_loads py value3 with
    | Ok parsed => Ok (Some (json_dumps py parsed))
    | Raise _ => Ok None
    end.

Definition set_config
  (full_name csm1 csm2 : json) (uid : list str) (envs months : json)
  (thr_a thr_u thr_s ind cir notes_a notes_u notes_s : option str)
  (note : json) (r : mapping_row) : mapping_row :=
  MappingRow (m_customer_name r) (m_month_year r) full_name csm1 csm2
    (Some uid) envs months thr_a thr_u thr_s ind cir notes_a notes_u notes_s
    note.

(** The first row of a result set ([cur.fetchone()]). *)
Definition fetchone {R : Type} (rows : list R) : option R := head rows.
Arguments fetchone : simpl never.

Definition save_config (py : python) (data : json) : M response :=
  customer ← lift (body_get data (lit "customer"));
  month0 ← lift (body_get data (lit "month"));
  match strptime py month0 (lit "%Y-%m-%d") with
  | Raise _ =>
      mret (Response 200 false (Some (lit "Invalid month format")) None None)
  | Ok month_date =>
      let field k := lift (v ← body_get data (lit k); safe_json py v) in
      thr_availability ← field "thr_availability";
      thr_users ← field "thr_users";
      thr_storage ← field "thr_storage";
      indicator_colors ← field "indicator_colors";
      circle_colors ← field "circle_colors";
      notes_availability0 ← field "notes_availability";
      notes_users0 ← field "notes_users";
      notes_storage0 ← field "notes_storage";
      if existsb (fun x => bool_decide (x = None))
           [thr_availability; thr_users; thr_storage; indicator_colors;
            circle_colors; notes_availability0; notes_users0; notes_storage0]
      then
        mret (reply false
                (lit "One or more JSON fields contain invalid JSON."))
      else
        '(valid1, msg1) ← lift (validate_notes_limits py notes_availability0);
        if negb valid1 then
          mret (reply false
                  (lit "Availability notes invalid: " ++ default [] msg1))
        else
        '(valid2, msg2) ← lift (validate_notes_limits py notes_users0);
        if negb valid2 then
          mret (reply false (lit "Users notes invalid: " ++ default [] msg2))
        else
        '(valid3, msg3) ← lift (validate_notes_limits py notes_storage0);
        if negb valid3 then
          mret (reply false
                  (lit "Storage notes invalid: " ++ default [] msg3))
        else
        customer_full_name0 ←
          lift (v ← body_get_default data (lit "customer_full_name")
                      (JStr []);
                strip_obj v);
        new_uid ←
          lift (v ← body_get_default data (lit "new_customer_uid") (JStr []);
                strip_obj v);
        csm1 ← lift (body_get data (lit "csm_primary"));
        csm2 ← lift (body_get data (lit "csm_secondary"));
        envs ← lift (body_get data (lit "no_of_envs"));
        months ← lift (body_get data (lit "no_of_months"));
        note ← lift (body_get data (lit "customer_note"));
        cursor;;
        row_uid ← execute (fun d =>
          c ← text_param customer;
          Ok (fetchone (sql_select (mapping_at c (Some month_date))
                          (customer_mapping_table d)), d));
        let existing_uid_list :=
          match row_uid with
          | Some r =>
              match m_customer_uid r with
              | Some (u :: us) => u :: us
              | _ => []
              end
          | None => []
          end in
        let uid_array :=
          match new_uid with
          | [] => existing_uid_list
          | _ => existing_uid_list ++ [new_uid]
          end in
        execute (fun d =>
          c ← text_param customer;
          Ok (tt, with_final
                    (sql_update (final_at c (Some month_date))
                       (set_csm csm1 csm2)) d));;
        try_except
          (execute (fun d =>
             c ← text_param customer;
             Ok (tt, with_mapping
                       (sql_update (mapping_at c (Some month_date))
                          (set_config (JStr customer_full_name0) csm1 csm2
                             uid_array envs months thr_availability
                             thr_users thr_storage indicator_colors
                             circle_colors notes_availability0 notes_users0
                             notes_storage0 note)) d));;
           commit;;
           mret (Response 200 true None None None))
          (fun e => rollback;; mret (reply false (exn_text e)))
  end.

(** ** Record creation ([app.py], [insert_record]) *)

Definition is_class (c : exn_class) (e : exn) : bool :=
  match c, exn_class_of e with
  | DatabaseError, DatabaseError | ValueError, ValueError
  | TypeError, TypeError | AttributeError, AttributeError
  | JSONDecodeError, JSONDecodeError => true
  (* json.JSONDecodeError is a subclass of ValueError *)
  | ValueError, JSONDecodeError => true
  | _, _ => false
  end.

(** The loop over the formats ["%Y-%m"], ["%Y-%m-%d"]: only [ValueError]
    moves on to the next format. *)
Definition insert_month (py : python) (month_raw : str)
  : result (option date) :=
  match strptime py (JStr month_raw) (lit "%Y-%m") with
  | Ok d => Ok (Some d)
  | Raise e =>
      if is_class ValueError e then
        match strptime py (JStr month_raw) (lit "%Y-%m-%d") with
        | Ok d => Ok (Some d)
        | Raise e' => if is_class ValueError e' then Ok None else Raise e'
        end
      else Raise e
  end.

Definition unique_violation : exn :=
  Exn DatabaseError (lit "duplicate key value violates unique constraint").

(** Modelled from the spec: the four domain tables, the aggregate table
    and the configuration table are keyed by (customer_name, month_year)
    (section 6); the schema is not part of the source. [INSERT] of a row
    whose key is present raises; with [ON CONFLICT DO NOTHING] it inserts
    nothing instead. The result of the latter carries the row count. *)
Definition insert_row {R : Type} (same_key : R -> bool) (r : R) (t : list R)
  : result (list R) :=
  if existsb same_key t then Raise unique_violation else Ok (t ++ [r]).

Definition insert_do_nothing {R : Type} (same_key : R -> bool) (r : R)
  (t : list R) : list R * Z :=
  if existsb same_key t then (t, 0) else (t ++ [r], 1).

(** [INSERT ... ON CONFLICT (customer_name, month_year) DO UPDATE SET ...]. *)
Definition insert_do_update {R : Type} (same_key : R -> bool) (r : R)
  (set : R -> R) (t : list R) : list R :=
  if existsb same_key t then sql_update same_key set t else t ++ [r].

Definition zero : num := Some 0%Q.

Definition zero_availability : availability_cols :=
  AvailabilityCols zero zero.

Definition zero_users : users_cols :=
  UsersCols zero zero zero zero zero zero.

Definition zero_storage : storage_cols :=
  StorageCols zero zero zero zero zero zero.

Definition zero_tickets : tickets_cols :=
  TicketsCols zero zero zero zero zero zero zero zero zero zero zero zero
    zero zero zero zero zero zero.

(** [a FULL OUTER JOIN b ON true]. *)
Definition full_outer_join {A B : Type} (l1 : list A) (l2 : list B)
  : list (option A * option B) :=
  match l1, l2 with
  | [], _ => map (fun b => (None, Some b)) l2
  | _, [] => map (fun a => (Some a, None)) l1
  | _, _ => flat_map (fun a => map (fun b => (Some a, Some b)) l2) l1
  end.

(** [COALESCE(x, 0)]. *)
Definition coalesce0 (x : num) : num :=
  match x with
  | Some q => Some q
  | None => zero
  end.

(** A column of a joined row that may be absent as a whole. *)
Definition col {R : Type} (r : option R) (f : R -> num) : num :=
  coalesce0 (r ≫= f).

(** The row the INSERT ... SELECT of the configuration mode builds from
    one row of the join. *)
Definition joined_final_row (customer : str) (month_date : date)
  (csm1 csm2 : str)
  (a : option (domain_row availability_cols))
  (u : option (domain_row users_cols))
  (s : option (domain_row storage_cols))
  (t : option (domain_row tickets_cols)) : final_row :=
  let ua := updated <$> a in
  let uu := updated <$> u in
  let us := updated <$> s in
  let ut := updated <$> t in
  FinalRow customer month_date (JStr csm1) (JStr csm2)
    (AvailabilityCols (col ua availability) (col ua target))
    (UsersCols (col uu prod_limit) (col uu prod_used) (col uu test_limit)
       (col uu test_used) (col uu dev_limit) (col uu dev_used))
    (StorageCols (col us prod_target_storage_gb) (col us prod_storage_gb)
       (col us test_target_storage_gb) (col us test_storage_gb)
       (col us dev_target_storage_gb) (col us dev_storage_gb))
    (TicketsCols (col ut tickets_opened) (col ut tickets_closed)
       (col ut tickets_backlog) (col ut current_opened_tickets)
       (col ut current_closed_tickets) (col ut current_backlog_tickets)
       (col ut p1_opened) (col ut p1_closed) (col ut p1_backlog)
       (col ut p2_opened) (col ut p2_closed) (col ut p2_backlog)
       (col ut p3_opened) (col ut p3_closed) (col ut p3_backlog)
       (col ut p4_opened) (col ut p4_closed) (col ut p4_backlog))
    JNull (Some []).

Definition insert_final_select (customer : str) (month_date : date)
  (csm1 csm2 : str) (d : db) : result (unit * db) :=
  let c := Some customer in
  let m := Some month_date in
  let a := sql_select (domain_at c m) (availability_table d) in
  let u := sql_select (domain_at c m) (users_table d) in
  let s := sql_select (domain_at c m) (storage_table d) in
  let t := sql_select (domain_at c m) (tickets_computed_table d) in
  let joined :=
    full_outer_join (full_outer_join (full_outer_join a u) s) t in
  let rows :=
    map (fun '(aus, t0) =>
           let au := aus ≫= fst in
           joined_final_row customer month_date csm1 csm2
             (au ≫= fst) (au ≫= snd) (aus ≫= snd) t0)
      joined in
  if existsb (final_at c m) (final_computed_table d) then Ok (tt, d)
  else
    match rows with
    | [] => Ok (tt, d)
    | [r] => Ok (tt, with_final (fun t => t ++ [r]) d)
    | _ => Raise unique_violation
    end.

(** Columns an INSERT does not name are NULL: no default is visible in
    the source. *)
Definition new_mapping_row (customer : str) (month_date : date)
  (csm1 csm2 : str) (envs months : Z) : mapping_row :=
  MappingRow customer month_date JNull (JStr csm1) (JStr csm2) None
    (JNum (inject_Z envs)) (JNum (inject_Z months))
    None None None None None None None None JNull.

Definition set_mapping_basics (csm1 csm2 : str) (envs months : Z)
  (r : mapping_row) : mapping_row :=
  MappingRow (m_customer_name r) (m_month_year r) (m_customer_full_name r)
    (JStr csm1) (JStr csm2) (m_customer_uid r)
    (JNum (inject_Z envs)) (JNum (inject_Z months))
    (color_map_thresholds_availability r) (color_map_thresholds_users r)
    (color_map_thresholds_storage r) (indicator_color_code_rules r)
    (circle_color_code_rules r) (notes_availability r) (notes_users r)
    (notes_storage r) (customer_note r).

(** [to_float] and [to_int] of the table mode. *)
Definition to_float (py : python) (x : option str) : result Q :=
  match py_float py (obj x) with
  | Ok q => Ok q
  | Raise e =>
      if is_class TypeError e || is_class ValueError e then Ok 0%Q
      else Raise e
  end.

Definition to_int (py : python) (x : option str) : result Z :=
  match py_int py (obj x) with
  | Ok z => Ok z
  | Raise e =>
      if is_class TypeError e || is_class ValueError e then Ok 0
      else Raise e
  end.

Definition null_priorities (o c b co cc cb : num) : tickets_cols :=
  TicketsCols o c b co cc cb None None None None None None None None None
    None None None.

Definition insert_config (py : python) (f : form) (customer : str)
  (month_date : date) : M response :=
  let csm_primary0 := strip (default [] (form_get f (lit "csm_primary"))) in
  let csm_secondary0 :=
    match strip (default [] (form_get f (lit "csm_secondary"))) with
    | [] => csm_primary0
    | s => s
    end in
  no_of_months0 ←
    lift (py_int py
            (default (JNum 6) (JStr <$> form_get f (lit "no_of_months"))));
  no_of_envs ←
    lift (py_int py
            (default (JNum 2)
               (JStr <$> form_get f (lit "no_of_environments"))));
  let c := Some customer in
  let m := Some month_date in
  cursor;;
  existing ← execute (fun d =>
    Ok (fetchone
          (sql_select (fun r => text_is c (m_customer_name r))
             (customer_mapping_table d)), d));
  match existing with
  | Some _ =>
      rollback;;
      mret (reply false
              (lit "Customer '" ++ customer ++ lit "' already exists."))
  | None =>
      execute (fun d =>
        Ok (tt, with_mapping
                  (insert_do_update (mapping_at c m)
                     (new_mapping_row customer month_date csm_primary0
                        csm_secondary0 no_of_envs no_of_months0)
                     (set_mapping_basics csm_primary0 csm_secondary0
                        no_of_envs no_of_months0)) d));;
      execute (fun d =>
        Ok (tt, with_availability
                  (fun t => fst (insert_do_nothing (domain_at c m)
                     (DomainRow customer month_date zero_availability
                        zero_availability) t)) d));;
      execute (fun d =>
        Ok (tt, with_users
                  (fun t => fst (insert_do_nothing (domain_at c m)
                     (DomainRow customer month_date zero_users zero_users)
                     t)) d));;
      execute (fun d =>
        Ok (tt, with_storage
                  (fun t => fst (insert_do_nothing (domain_at c m)
                     (DomainRow customer month_date zero_storage
                        zero_storage) t)) d));;
      execute (fun d =>
        Ok (tt, with_tickets
                  (fun t => fst (insert_do_nothing (domain_at c m)
                     (DomainRow customer month_date zero_tickets
                        zero_tickets) t)) d));;
      execute (insert_final_select customer month_date csm_primary0
                 csm_secondary0);;
      commit;;
      mret (reply true (lit "Configuration saved successfully."))
  end.

(** The payload of the table mode, as the four column groups it fills;
    availability and target are given in percent. *)
Definition table_payload (py : python) (f : form)
  : result (availability_cols * users_cols * storage_cols * tickets_cols) :=
  let flt k := to_float py (form_get f (lit k)) in
  let int k := z ← to_int py (form_get f (lit k)); Ok (Qz z) in
  updated_availability ← flt "updated_availability";
  updated_target ← flt "updated_target";
  updated_prod_limit ← int "updated_prod_limit";
  updated_test_limit ← int "updated_test_limit";
  updated_dev_limit ← int "updated_dev_limit";
  updated_prod_used ← int "updated_prod_used";
  updated_test_used ← int "updated_test_used";
  updated_dev_used ← int "updated_dev_used";
  updated_prod_target_storage_gb ← flt "updated_prod_target_storage_gb";
  updated_test_target_storage_gb ← flt "updated_test_target_storage_gb";
  updated_dev_target_storage_gb ← flt "updated_dev_target_storage_gb";
  updated_prod_storage_gb ← flt "updated_prod_storage_gb";
  updated_test_storage_gb ← flt "updated_test_storage_gb";
  updated_dev_storage_gb ← flt "updated_dev_storage_gb";
  updated_tickets_opened ← int "updated_tickets_opened";
  updated_tickets_closed ← int "updated_tickets_closed";
  updated_tickets_backlog ← int "updated_tickets_backlog";
  updated_current_opened_tickets ← int "updated_current_opened_tickets";
  updated_current_closed_tickets ← int "updated_current_closed_tickets";
  updated_current_backlog_tickets ← int "updated_current_backlog_tickets";
  Ok (AvailabilityCols (Some (updated_availability / 100)%Q)
        (Some (updated_target / 100)%Q),
      UsersCols updated_prod_limit updated_prod_used updated_test_limit
        updated_test_used updated_dev_limit updated_dev_used,
      StorageCols (Some updated_prod_target_storage_gb)
        (Some updated_prod_storage_gb)
        (Some updated_test_target_storage_gb)
        (Some updated_test_storage_gb)
        (Some updated_dev_target_storage_gb)
        (Some updated_dev_storage_gb),
      null_priorities updated_tickets_opened updated_tickets_closed
        updated_tickets_backlog updated_current_opened_tickets
        updated_current_closed_tickets updated_current_backlog_tickets).

Definition insert_table (py : python) (f : form) (customer : str)
  (month_date : date) : M response :=
  let c := Some customer in
  let m := Some month_date in
  cursor;;
  mapping ← execute (fun d =>
    Ok (fetchone (sql_select (mapping_at c m) (customer_mapping_table d)),
        d));
  match mapping with
  | None =>
      mret (reply false
              (lit "Configuration missing! Please enter configuration first."))
  | Some mapping_row0 =>
      let csm_primary0 := m_csm_primary mapping_row0 in
      let csm_secondary0 := m_csm_secondary mapping_row0 in
      '(a, u, s, t) ← lift (table_payload py f);
      inserted ← execute (fun d =>
        let '(t', n) :=
          insert_do_nothing (final_at c m)
            (FinalRow customer month_date csm_primary0 csm_secondary0 a u s
               t JNull None)
            (final_computed_table d) in
        Ok (n, with_final (fun _ => t') d));
      if inserted =? 0 then
        rollback;;
        mret (reply false
                (lit "Table data already exists for this customer & month."))
      else
        execute (fun d =>
          t' ← insert_row (domain_at c m)
                 (DomainRow customer month_date a a) (availability_table d);
          Ok (tt, with_availability (fun _ => t') d));;
        execute (fun d =>
          t' ← insert_row (domain_at c m)
                 (DomainRow customer month_date u u) (users_table d);
          Ok (tt, with_users (fun _ => t') d));;
        execute (fun d =>
          t' ← insert_row (domain_at c m)
                 (DomainRow customer month_date s s) (storage_table d);
          Ok (tt, with_storage (fun _ => t') d));;
        execute (fun d =>
          t' ← insert_row (domain_at c m)
                 (DomainRow customer month_date t t)
                 (tickets_computed_table d);
          Ok (tt, with_tickets (fun _ => t') d));;
        commit;;
        mret (reply true (lit "Table data inserted successfully!"))
  end.

Definition insert_record (py : python) (f : form) : M response :=
  try_except
    (let mode := form_get f (lit "mode") in
     match form_get f (lit "customer"), form_get f (lit "month") with
     | Some (c :: cs), Some (r :: rs) =>
         let customer := c :: cs in
         let month_raw := r :: rs in
         month_date0 ← lift (insert_month py month_raw);
         match month_date0 with
         | None =>
             mret (reply false
                     (lit "Invalid month format. Use YYYY-MM or YYYY-MM-DD."))
         | Some month_date =>
             if bool_decide (mode = Some (lit "config")) then
               insert_config py f customer month_date
             else if bool_decide (mode = Some (lit "table")) then
               insert_table py f customer month_date
             else mret (reply false (lit "Invalid mode."))
         end
     | _, _ => mret (reply false (lit "Customer and Month are required."))
     end)
    failure_of.

(** ** Deletion ([app.py], [delete_record]) *)

(** [re.match(r'^\d{4}-\d{2}$', m)]; [$] also matches before a final
    newline. *)
Definition re_month (py : python) (m : str) : bool :=
  let dg := isdecimal py in
  match m with
  | [a; b; c; d; h; e; f] =>
      dg a && dg b && dg c && dg d && (h =? 45)%N && dg e && dg f
  | [a; b; c; d; h; e; f; nl] =>
      dg a && dg b && dg c && dg d && (h =? 45)%N && dg e && dg f
      && (nl =? 10)%N
  | _ => false
  end.

(** [d.replace(day=1)]. *)
Definition first_day (d : date) : date := Date (year d) (month d) 1.

(** [try: ... except Exception: pass] around one parsing attempt. *)
Definition attempt (r : result date) : option date :=
  match r with
  | Ok d => Some (first_day d)
  | Raise _ => None
  end.

(** The month normalisation of [delete_record]; a raised exception is the
    one its [except Exception as e] reports. *)
Definition normalize_month (py : python) (month_raw : str) : result date :=
  let m := strip month_raw in
  let month_date1 :=
    match attempt (strptime py (JStr m) (lit "%Y-%m-%d")) with
    | Some d => Some d
    | None =>
        match attempt (strptime py (JStr m) (lit "%Y-%m-%dT%H:%M:%S")) with
        | Some d => Some d
        | None => attempt (strptime py (JStr m) (lit "%Y-%m-%d %H:%M:%S"))
        end
    end in
  month_date2 ←
    match month_date1 with
    | None =>
        if re_month py m
        then d ← strptime py (JStr (m ++ lit "-01")) (lit "%Y-%m-%d");
             Ok (Some d)
        else Ok None
    | Some d => Ok (Some d)
    end;
  let month_date3 :=
    match month_date2 with
    | None => attempt (strptime py (JStr m) (lit "%m/%d/%Y"))
    | Some d => Some d
    end in
  let month_date4 :=
    match month_date3 with
    | None => attempt (fromisoformat py m)
    | Some d => Some d
    end in
  match month_date4 with
  | Some d => Ok d
  | None =>
      Raise (Exn ValueError
               (lit "Unrecognized month format: '" ++ month_raw ++ lit "'"))
  end.

Definition pad (width : nat) (s : str) : str :=
  repeat 48%N (width - length s) ++ s.

(** [str(d)] of a date and PostgreSQL's [month_year::text]. *)
Definition isoformat (d : date) : str :=
  pad 4 (str_of_Z (year d)) ++ lit "-" ++ pad 2 (str_of_Z (month d))
  ++ lit "-" ++ pad 2 (str_of_Z (day d)).

(** The text of a list of plain strings inside an f-string. *)
Definition list_repr (l : list str) : str :=
  lit "[" ++ join (lit ", ") (map (fun s => lit "'" ++ s ++ lit "'") l)
  ++ lit "]".

Definition date_le (a b : date) : Prop := date_leb a b = true.

Global Instance date_le_dec (a b : date) : Decision (date_le a b).
Proof. unfold date_le. apply _. Defined.

(** PostgreSQL's [TRIM]: spaces only. *)
Fixpoint ltrim (s : str) : str :=
  match s with
  | c :: s' => if (c =? 32)%N then ltrim s' else s
  | [] => []
  end.

Definition pg_trim (s : str) : str := rev (ltrim (rev (ltrim s))).

(** [DELETE FROM t WHERE ...] with its row count. *)
Definition delete_from {R : Type} (where_ : R -> bool) (t : list R)
  : list R * Z :=
  (sql_delete where_ t, rowcount where_ t).

Definition delete_statements (py : python) (customer : str)
  (month_date : date) : list (str * (db -> result (Z * db))) :=
  let c := Some customer in
  let m := Some month_date in
  [ (lit "final_computed_table", fun d =>
       let '(t, n) := delete_from (final_at c m) (final_computed_table d) in
       Ok (n, with_final (fun _ => t) d));
    (lit "availability_table", fun d =>
       let '(t, n) := delete_from (domain_at c m) (availability_table d) in
       Ok (n, with_availability (fun _ => t) d));
    (lit "users_table", fun d =>
       let '(t, n) := delete_from (domain_at c m) (users_table d) in
       Ok (n, with_users (fun _ => t) d));
    (lit "storage_table", fun d =>
       let '(t, n) := delete_from (domain_at c m) (storage_table d) in
       Ok (n, with_storage (fun _ => t) d));
    (lit "tickets_computed_table", fun d =>
       let '(t, n) :=
         delete_from (domain_at c m) (tickets_computed_table d) in
       Ok (n, with_tickets (fun _ => t) d));
    (lit "customer_mapping_table", fun d =>
       let '(t, n) :=
         delete_from
           (fun r =>
              bool_decide (pg_lower py (pg_trim (m_customer_name r))
                           = pg_lower py (pg_trim customer))
              && date_is m (m_month_year r))
           (customer_mapping_table d) in
       Ok (n, with_mapping (fun _ => t) d)) ].

(** [for table_name, stmt in delete_statements: try: ... except Exception
    ...]. The table names are distinct, so the dictionary
    [deleted_counts] is the list of its entries in insertion order. *)
Fixpoint delete_loop (stmts : list (str * (db -> result (Z * db))))
  (deleted_counts0 : list (str * count)) : M (list (str * count)) :=
  match stmts with
  | [] => mret deleted_counts0
  | (table_name, stmt) :: rest =>
      entry ← try_except
                (rows_deleted ← execute stmt; mret (Deleted rows_deleted))
                (fun table_err =>
                   mret (DeleteError (lit "Error: " ++ exn_text table_err)));
      delete_loop rest (deleted_counts0 ++ [(table_name, entry)])
  end.

(** The tally: [int(v)] of an error text raises, and the entry is
    skipped. *)
Fixpoint total_deleted (values : list count) : Z :=
  match values with
  | [] => 0
  | Deleted n :: rest => n + total_deleted rest
  | DeleteError _ :: rest => total_deleted rest
  end.

(** The response after the commit, lines 1761-1784. *)
Definition delete_response (customer : str) (month_date : date)
  (deleted_counts0 : list (str * count)) : response :=
  let total := total_deleted (map snd deleted_counts0) in
  if total <=? 0 then
    Response 404 false
      (Some (lit "No rows were deleted for " ++ customer ++ lit " - "
             ++ isoformat month_date
             ++ lit ". Please verify the record exists."))
      None (Some deleted_counts0)
  else
    Response 200 true
      (Some (lit "Record for " ++ customer ++ lit " - "
             ++ isoformat month_date
             ++ lit " has been successfully deleted from "
             ++ str_of_Z total ++ lit " row(s)."))
      None (Some deleted_counts0).

(** The second look-up of the branch for a record that was not found
    compares [month_year::text] with the parameter [month_date], a
    [date], which psycopg2 sends as ['...'::date]: PostgreSQL has no
    operator that compares a text with a date and rejects the statement.
    The text is the first line of the server's message. *)
Definition no_text_date_operator : exn :=
  Exn DatabaseError (lit "operator does not exist: text = date").

Definition delete_record (py : python) (f : form) : M response :=
  try_except
    (let customer := strip (default [] (form_get f (lit "customer"))) in
     let month_raw := default [] (form_get f (lit "month")) in
     match customer, month_raw with
     | _ :: _, _ :: _ =>
         match normalize_month py month_raw with
         | Raise e =>
             mret (Response 400 false
                     (Some (lit "Invalid month format: " ++ exn_text e))
                     None None)
         | Ok month_date =>
             conn0 ← get_db_connection;
             if negb conn0 then
               mret (Response 500 false
                       (Some (lit "Database connection failed. Please check your session or re-login."))
                       None None)
             else
               try_except
                 (cursor;;
                  all_records ← execute (fun d =>
                    Ok (map (fun r => isoformat (month_year r))
                          (merge_sort
                             (fun r1 r2 =>
                                date_le (month_year r1) (month_year r2))
                             (sql_select
                                (fun r => text_is (Some customer)
                                            (customer_name r))
                                (final_computed_table d))), d));
                  found_record ← execute (fun d =>
                    Ok (fetchone
                          (sql_select
                             (final_at (Some customer) (Some month_date))
                             (final_computed_table d)), d));
                  match found_record with
                  | None =>
                      execute (A := option final_row)
                        (fun _ => Raise no_text_date_operator);;
                      mret (Response 404 false
                              (Some (lit "Record for " ++ customer
                                     ++ lit " - " ++ isoformat month_date
                                     ++ lit " not found. Available dates: "
                                     ++ list_repr all_records))
                              None None)
                  | Some _ =>
                      deleted_counts0 ←
                        delete_loop
                          (delete_statements py customer month_date) [];
                      commit;;
                      mret (delete_response customer month_date
                              deleted_counts0)
                  end)
                 (fun db_err =>
                    if is_class DatabaseError db_err then
                      rollback;;
                      mret (Response 500 false
                              (Some (lit "Database error: "
                                     ++ exn_text db_err))
                              None None)
                    else raise db_err)
         end
     | _, _ =>
         mret (Response 400 false
                 (Some (lit "Customer and month are required.")) None None)
     end)
    (fun e =>
       mret (Response 500 false (Some (lit "Server error: " ++ exn_text e))
               None None)).

(** ** Report data assembler ([ppt_generator.py]) *)

(** [round(x)]: to the nearest integer, ties to the even one. *)
Definition py_round (x : Q) : Z :=
  let f := Qfloor x in
  let r := (x - inject_Z f)%Q in
  match (r ?= 1 # 2)%Q with
  | Lt => f
  | Gt => f + 1
  | Eq => if Z.even f then f else f + 1
  end.

(** The decimal with [n] places nearest to [x], ties to the even last
    digit: what [f"{x:.nf}"] prints for a float [x], and what
    [round(x, n)] rounds it to. *)
Definition round_to (n : nat) (x : Q) : Q :=
  (inject_Z (py_round (x * inject_Z (10 ^ Z.of_nat n)))
   / inject_Z (10 ^ Z.of_nat n))%Q.

(** The exponent [e] of a number [x] that is not zero:
    [2^e <= |x| < 2^(e+1)]. *)
Definition binade (x : Q) : Z :=
  let n := Z.abs (Qnum x) in
  let d := Z.pos (Qden x) in
  let e := Z.log2 n - Z.log2 d in
  if d * 2 ^ Z.max e 0 <=? n * 2 ^ Z.max (- e) 0 then e else e - 1.

(** The float of a number [x]: the binary64 number nearest to [x], the
    one with the even mantissa when two are equally near. A binary64
    number has a mantissa of 53 bits and no bit below [2^-1074]. What a
    float operation returns is the float of its exact result. Numbers
    beyond the largest binary64 number, where Python answers with an
    infinity or OverflowError, are outside the model. *)
Definition float64 (x : Q) : Q :=
  if Qeq_bool x 0 then 0%Q
  else
    let k := Z.max (binade x - 52) (-1074) in
    (inject_Z (py_round (x / 2 ^ k)) * 2 ^ k)%Q.

(** [float(f"{x:.2f}")]: the float read back from the text with two
    decimals. *)
Definition shown_2f (x : Q) : Q := float64 (round_to 2 x).

(** [int(x)] of a number: towards zero. *)
Definition truncate (x : Q) : Z :=
  if Qle_bool 0 x then Qfloor x else Qceiling x.

(** [safe_int]: [None] and NaN give the default 0. *)
Definition safe_int (value : num) : Z :=
  match value with
  | None => 0
  | Some x => truncate x
  end.

Definition month_abbr (m : Z) : str :=
  nth (Z.to_nat (m - 1))
    (map lit ["Jan"; "Feb"; "Mar"; "Apr"; "May"; "Jun"; "Jul"; "Aug"; "Sep";
              "Oct"; "Nov"; "Dec"]%string) [].

Definition month_name (m : Z) : str :=
  nth (Z.to_nat (m - 1))
    (map lit ["January"; "February"; "March"; "April"; "May"; "June"; "July";
              "August"; "September"; "October"; "November";
              "December"]%string) [].

(** [d.strftime('%b-%y')]. *)
Definition strftime_b_y (d : date) : str :=
  month_abbr (month d) ++ lit "-" ++ pad 2 (str_of_Z (year d mod 100)).

(** [d.strftime('%B %Y')]. *)
Definition strftime_B_Y (d : date) : str :=
  month_name (month d) ++ lit " " ++ pad 4 (str_of_Z (year d)).

Definition is_leap (y : Z) : bool :=
  (y mod 4 =? 0) && (negb (y mod 100 =? 0) || (y mod 400 =? 0)).

Definition days_in_month (y m : Z) : Z :=
  if m =? 2 then (if is_leap y then 29 else 28)
  else if (m =? 4) || (m =? 6) || (m =? 9) || (m =? 11) then 30
  else 31.

(** [d - relativedelta(months=1)]. *)
Definition minus_one_month (d : date) : date :=
  let y := if month d =? 1 then year d - 1 else year d in
  let m := if month d =? 1 then 12 else month d - 1 in
  Date y m (Z.min (day d) (days_in_month y m)).

(** A colour map: the decoded [indicator_color_code_rules] or
    [circle_color_code_rules], indexed by the colour key. *)
Definition color_map := color_key -> list Z.

(** A row of the configuration data frame: the columns of
    [customer_mapping_table] the assembler reads, jsonb columns decoded as
    the driver delivers them. *)
Record config_row := ConfigRow {
  c_month_year : date;
  c_customer_full_name : json;
  c_csm_primary : json;
  c_no_of_environments : num;
  c_indicator_color_code_rules : color_map;
  c_circle_color_code_rules : color_map;
  c_color_map_thresholds_availability : rules;
  c_color_map_thresholds_users : rules;
  c_color_map_thresholds_storage : rules;
  c_notes_availability : json;
  c_notes_users : json;
  c_notes_storage : json
}.

(** A table cell. *)
Inductive cell :=
  | CText (s : str)
  | CInt (z : Z)
  | CNum (x : float).

Record table := Table {
  headers : list str;
  rows : list (list cell)
}.

(** A chart-series block: the category labels and the named series, in
    the insertion order of the dictionary. *)
Record chart := Chart {
  Months : list str;
  series : list (str * list float)
}.

Record slide1 := Slide1 {
  Customer_Name : json;
  Month : str;
  CSM_Name : json
}.

(** [Actual_Value] and [Target_Value] are the numbers their texts
    [f"{x * 100:.2f}%"] show and [float] reads back. *)
Record slide2 := Slide2 {
  s2_Colour_Rules : rules;
  s2_Indicator : color_map;
  s2_Circle_Color : color_map;
  Actual_Value : float;
  Target_Value : float;
  s2_Production_Availability_Chart : chart;
  s2_Notes_User_Input : json
}.

Record slide3 := Slide3 {
  User_License_Utilization_Table : table;
  s3_Colour_Rules : rules;
  s3_Indicator : color_map;
  s3_Circle_Color : color_map;
  s3_Production_User_Counts_Chart : chart;
  s3_Notes_User_Input : json;
  env_count : num
}.

Record slide4 := Slide4 {
  Storage_Utilization_Table : table;
  s4_Colour_Rules : rules;
  s4_Indicator : color_map;
  s4_Circle_Color : color_map;
  s4_Production_Storage_Usage_Chart : chart;
  s4_Notes_User_Input : json
}.

Record slide5 := Slide5 {
  Case_Status_Table : table;
  Case_Trend_Chart : chart;
  Open_Cases_Value : num
}.

Record slide7 := Slide7 {
  s7_Production_User_Counts_Chart : chart;
  s7_Production_Availability_Chart : chart;
  s7_Production_Storage_Usage_Chart : chart
}.

Record data_dictionary := DataDictionary {
  slide1_data : slide1;
  slide2_data : slide2;
  slide3_data : slide3;
  slide4_data : slide4;
  slide5_data : slide5;
  slide7_data : slide7
}.

(** [Series.unique()]: first occurrences, in order. *)
Fixpoint unique (l : list date) : list date :=
  match l with
  | [] => []
  | x :: l' =>
      x :: List.filter (fun y => negb (bool_decide (y = x))) (unique l')
  end.

Definition row_le (r1 r2 : final_row) : Prop :=
  date_le (month_year r1) (month_year r2).

Global Instance row_le_dec (r1 r2 : final_row) : Decision (row_le r1 r2).
Proof. unfold row_le. apply _. Defined.

(** [final_computed_df.sort_values(by='month_year')]. *)
Definition sort_values (df : list final_row) : list final_row :=
  merge_sort row_le df.

(** [[d.strftime('%b-%y') for d in
      sorted(final_computed_df['month_year'].unique())]]. *)
Definition month_labels (df : list final_row) : list str :=
  map strftime_b_y (merge_sort date_le (unique (map month_year df))).

(** [list(final_computed_df.sort_values(by='month_year')[column])]. *)
Definition column (f : final_row -> num) (df : list final_row) : list float :=
  map f (sort_values df).

(** [val * 100] on a float of the frame. *)
Definition times100 (x : float) : float :=
  (fun q => float64 (float64 q * 100))%Q <$> x.

(** [round((used * 100) / total) if total else 0]: the quotient of two
    integers is a float. *)
Definition used_percent (used0 total : Z) : Z :=
  if total =? 0 then 0
  else py_round (float64 (inject_Z (used0 * 100) / inject_Z total)).

(** [round((part * 100) / total, 1) if total else 0]. *)
Definition storage_percent (part total : Z) : cell :=
  if total =? 0 then CInt 0
  else
    CNum (Some (float64
                  (round_to 1
                     (float64 (inject_Z (part * 100) / inject_Z total))))).

Definition license_row (label : string) (licenses used0 : Z) : list cell :=
  [CText (lit label); CInt licenses; CInt used0; CInt (licenses - used0);
   CInt (used_percent used0 licenses)].

Definition storage_row (label : string) (used0 contract : Z) : list cell :=
  [CText (lit label); CInt used0; CInt contract; CInt (contract - used0);
   storage_percent used0 contract;
   storage_percent (contract - used0) contract].

(** [x == 3] on a number that may be NaN. *)
Definition is_three (x : num) : bool :=
  match x with
  | Some q => Qeq_bool q 3
  | None => false
  end.

Definition prepare_data_dictionary (py : python)
  (customer_mapping_df : list config_row) (final_computed_df : list final_row)
  (month_year0 : str) : result data_dictionary :=
  current_month_date ← strptime py (JStr month_year0) (lit "%Y-%m-%d");
  let current_customer_df :=
    List.filter (fun r => bool_decide (c_month_year r = current_month_date))
      customer_mapping_df in
  let current_computed_df :=
    List.filter (fun r => bool_decide (month_year r = current_month_date))
      final_computed_df in
  match current_customer_df, current_computed_df with
  | current_customer_data :: _, current_computed_data :: _ =>
      let indicator_colors :=
        c_indicator_color_code_rules current_customer_data in
      let circle_colors := c_circle_color_code_rules current_customer_data in
      (* slide 1 *)
      month_again ← strptime py (JStr month_year0) (lit "%Y-%m-%d");
      let slide1_data0 :=
        Slide1 (c_customer_full_name current_customer_data)
          (strftime_B_Y month_again) (c_csm_primary current_customer_data) in
      (* slide 2 *)
      let av := updated_availability_cols in
      let availability_chart_data :=
        Chart (month_labels final_computed_df)
          [ (lit "Availability",
             map times100
               (column (fun r => availability (av r)) final_computed_df));
            (lit "SLA",
             map times100
               (column (fun r => target (av r)) final_computed_df)) ] in
      let slide2_data0 :=
        Slide2 (c_color_map_thresholds_availability current_customer_data)
          indicator_colors circle_colors
          (shown_2f <$> times100 (availability (av current_computed_data)))
          (shown_2f <$> times100 (target (av current_computed_data)))
          availability_chart_data
          (c_notes_availability current_customer_data) in
      (* slide 3 *)
      let us := updated_users_cols current_computed_data in
      let three := is_three (c_no_of_environments current_customer_data) in
      let user_license_rows :=
        [ license_row "Prod" (safe_int (prod_limit us))
            (safe_int (prod_used us));
          license_row "Test" (safe_int (test_limit us))
            (safe_int (test_used us)) ]
        ++ (if three
            then [license_row "Dev" (safe_int (dev_limit us))
                    (safe_int (dev_used us))]
            else []) in
      let uc := updated_users_cols in
      let user_counts_chart_data :=
        Chart (month_labels final_computed_df)
          ([ (lit "Prod", column (fun r => prod_used (uc r)) final_computed_df);
             (lit "Test",
              column (fun r => test_used (uc r)) final_computed_df) ]
           ++ (if three
               then [(lit "Dev",
                      column (fun r => dev_used (uc r)) final_computed_df)]
               else [])
           ++ [ (lit "Licenses Available",
                 column (fun r => prod_limit (uc r)) final_computed_df) ]) in
      let slide3_data0 :=
        Slide3
          (Table
             ([] :: map lit ["Licenses"; "Count"; "Remaining"; "%Used"]%string)
             user_license_rows)
          (c_color_map_thresholds_users current_customer_data)
          indicator_colors circle_colors user_counts_chart_data
          (c_notes_users current_customer_data)
          (c_no_of_environments current_customer_data) in
      (* slide 4 *)
      let ss := updated_storage_cols current_computed_data in
      let storage_utilization_rows :=
        [ storage_row "Prod(GB)" (safe_int (prod_storage_gb ss))
            (safe_int (prod_target_storage_gb ss));
          storage_row "Test(GB)" (safe_int (test_storage_gb ss))
            (safe_int (test_target_storage_gb ss)) ]
        ++ (if three
            then [storage_row "Dev(GB)" (safe_int (dev_storage_gb ss))
                    (safe_int (dev_target_storage_gb ss))]
            else []) in
      let sc := updated_storage_cols in
      let storage_usage_chart_data :=
        Chart (month_labels final_computed_df)
          [ (lit "Prod (GB)",
             column (fun r => prod_storage_gb (sc r)) final_computed_df);
            (lit "Contracted Maximum",
             column (fun r => prod_target_storage_gb (sc r))
               final_computed_df) ] in
      let slide4_data0 :=
        Slide4
          (Table
             ([] :: map lit
                      ["Used"; "Contract"; "Free"; "%Used"; "%Free"]%string)
             storage_utilization_rows)
          (c_color_map_thresholds_storage current_customer_data)
          indicator_colors circle_colors storage_usage_chart_data
          (c_notes_storage current_customer_data) in
      (* slide 5 *)
      let tc := updated_tickets_cols in
      let current_month := month_year current_computed_data in
      let previous_month := minus_one_month current_month in
      let prev_row :=
        List.filter (fun r => bool_decide (month_year r = previous_month))
          final_computed_df in
      let backlog_active_prev :=
        match prev_row with
        | r :: _ => CNum (tickets_backlog (tc r))
        | [] => CInt 0
        end in
      let ct := tc current_computed_data in
      let case_status_rows :=
        [ [CText (lit "Backlog (Active previous months)"); backlog_active_prev];
          [CText (lit "Opened this month"); CNum (current_opened_tickets ct)];
          [CText (lit "Closed this month"); CNum (current_closed_tickets ct)];
          [CText (lit "In progress at end of month");
           CNum (tickets_backlog ct)] ] in
      let case_trend_chart_data :=
        Chart (month_labels final_computed_df)
          [ (lit "Opened",
             column (fun r => tickets_opened (tc r)) final_computed_df);
            (lit "Closed",
             column (fun r => tickets_closed (tc r)) final_computed_df);
            (lit "Open at EOM",
             column (fun r => tickets_backlog (tc r)) final_computed_df) ] in
      let slide5_data0 :=
        Slide5 (Table (map lit ["Status"; "Cases"]%string) case_status_rows)
          case_trend_chart_data (tickets_backlog ct) in
      let slide7_data0 :=
        Slide7 user_counts_chart_data availability_chart_data
          storage_usage_chart_data in
      Ok (DataDictionary slide1_data0 slide2_data0 slide3_data0 slide4_data0
            slide5_data0 slide7_data0)
  | _, _ =>
      Raise (Exn ValueError
               (lit "Data for the current month (" ++ month_year0
                ++ lit ") is missing."))
  end.

(** [float(rows[i][4])] in [generate_presentation]. *)
Definition cell_float (rows0 : list (list cell)) (i : nat) : float :=
  match nth 4 (nth i rows0 []) (CInt 0) with
  | CInt z => Some (float64 (inject_Z z))
  | CNum x => x
  | CText _ => None
  end.

(** The colour keys [generate_presentation] derives for the availability,
    licence and storage slides, with the circle and indicator colours they
    select. *)
Record classification := Classification {
  availability_key : color_key;
  users_key : color_key;
  storage_key : color_key;
  circle_rgb : list (list Z);
  indicator_rgb : list (list Z)
}.

Definition classify (data : data_dictionary) : classification :=
  let s2 := slide2_data data in
  let s3 := slide3_data data in
  let s4 := slide4_data data in
  let k2 := availability_color_key (Actual_Value s2) (s2_Colour_Rules s2) in
  let rows3 := rows (User_License_Utilization_Table s3) in
  let k3 :=
    usage_color_key (cell_float rows3 0) (cell_float rows3 1)
      (s3_Colour_Rules s3) in
  let rows4 := rows (Storage_Utilization_Table s4) in
  let k4 :=
    usage_color_key (cell_float rows4 0) (cell_float rows4 1)
      (s4_Colour_Rules s4) in
  Classification k2 k3 k4
    [s2_Circle_Color s2 k2; s3_Circle_Color s3 k3; s4_Circle_Color s4 k4]
    [s2_Indicator s2 k2; s3_Indicator s3 k3; s4_Indicator s4 k4].

(** The report document: the data dictionary and the classification the
    generator derives from it. *)
Definition assemble (py : python) (customer_mapping_df : list config_row)
  (final_computed_df : list final_row) (month_year0 : str)
  : result (data_dictionary * classification) :=
  data ← prepare_data_dictionary py customer_mapping_df final_computed_df
           month_year0;
  Ok (data, classify data).


(** ** Statements about edits *)

(** How a users or storage edit for customer [c0] at month [m0] relates
    the rows of a table before ([t]) and after ([t']), position by
    position. [cols] reads the edited column group of a row and [put]
    writes it; [all] is the group the edit gives for the month itself,
    [limits] rewrites only the limit (target) columns of a group. *)
Definition propagated {R C : Type} (name : R -> str) (mon : R -> date)
  (cols : R -> C) (put : C -> R -> R) (c0 : str) (m0 : date) (all : C)
  (limits : C -> C) (t t' : list R) : Prop :=
  Forall2
    (fun r r' =>
       (* no column outside the group changes *)
       put (cols r) r' = r
       (* the month itself takes every value of the edit *)
       /\ (name r = c0 -> mon r = m0 -> cols r' = all)
       (* a later month takes the limits and nothing else *)
       /\ (name r = c0 -> date_ltb m0 (mon r) = true ->
           cols r' = limits (cols r))
       (* another customer's rows and earlier months are untouched *)
       /\ (name r <> c0 \/ date_ltb (mon r) m0 = true -> r' = r))
    t t'.


(** ** Statements about the configuration upsert *)

(** The eight structured text fields of the request body. *)
Definition config_json_fields : list str :=
  map lit
    [ "thr_availability"; "thr_users"; "thr_storage"; "indicator_colors";
      "circle_colors"; "notes_availability"; "notes_users";
      "notes_storage" ]%string.

(** [data.get(k)] on a body that is a mapping. *)
Definition field_value (items : list (str * json)) (k : str) : json :=
  default JNull
    (snd <$> List.find (fun kv => bool_decide (fst kv = k)) items).

(** A field that is absent (or null) or holds a text. *)
Definition is_text (v : json) : Prop :=
  v = JNull \/ exists s : str, v = JStr s.

(** The text [safe_json] hands to [json.loads]. *)
Definition safe_json_text (s : str) : str :=
  replace (lit "False") (lit "false")
    (replace (lit "True") (lit "true")
       (replace (lit "None") (lit "null")
          (replace (lit "'") [34%N] (strip s)))).

Definition invalid_json_reply : response :=
  reply false (lit "One or more JSON fields contain invalid JSON.").


(** ** The mutating operations *)

Inductive operation :=
  | SaveAvailability (f : form)
  | SaveUsers (f : form)
  | SaveStorage (f : form)
  | SaveTickets (data : json)
  | SaveConfig (data : json)
  | InsertRecord (f : form)
  | DeleteRecord (f : form).

Definition handle (py : python) (op : operation) : M response :=
  match op with
  | SaveAvailability f => save_availability py f
  | SaveUsers f => save_users py f
  | SaveStorage f => save_storage py f
  | SaveTickets data => save_tickets py data
  | SaveConfig data => save_config py data
  | InsertRecord f => insert_record py f
  | DeleteRecord f => delete_record py f
  end.


(** ** Statements about the report document *)












(** ** Month arithmetic ([dateutil.relativedelta]) *)

(** The number of the month a date lies in, counted from year 0. *)
Definition month_index (d : date) : Z := year d * 12 + (month d - 1).

Definition out_of_range (y : Z) : exn :=
  Exn ValueError (lit "year " ++ str_of_Z y ++ lit " is out of range").

(** [d - relativedelta(months=n)] for an integer [n]: the same day [n]
    months earlier, clipped to the length of that month; a date outside
    the years 1 to 9999 cannot be built. *)
Definition minus_months (d : date) (n : Z) : result date :=
  let i := month_index d - n in
  let y := i / 12 in
  let m := i mod 12 + 1 in
  if (1 <=? y) && (y <=? 9999)
  then Ok (Date y m (Z.min (day d) (days_in_month y m)))
  else Raise (out_of_range y).

(** [month_year BETWEEN %s AND %s]. *)
Definition between (lo hi x : date) : bool := date_leb lo x && date_leb x hi.

(** A date the calendar has, on the first day of its month: what the
    month pickers of the pages send and the tables store. *)
Definition month_start (d : date) : Prop :=
  1 <= year d <= 9999 /\ 1 <= month d <= 12 /\ day d = 1.

(** ** Reading the tables ([app.py]) *)

(** [fetch_reporting_data]: the rows of a customer for the months of a
    window that ends at the selected month. *)
Definition fetch_reporting_data (py : python)
  (selected_customer selected_month : option str) (prev_months : Z)
  : M (list final_row) :=
  match selected_customer, selected_month with
  | Some (c :: cs), Some (m :: ms) =>
      match strptime py (JStr (m :: ms)) (lit "%Y-%m-%d") with
      | Raise e => if is_class ValueError e then mret [] else raise e
      | Ok end_date =>
          start_date ← lift (minus_months end_date (prev_months - 1));
          execute (fun d =>
            Ok (merge_sort row_le
                  (sql_select
                     (fun r =>
                        text_is (Some (c :: cs)) (customer_name r)
                        && between start_date end_date (month_year r))
                     (final_computed_table d)), d))
      end
  | _, _ => mret []
  end.

(** [reporting], lines 729-734: the window length a POST asks for. *)
Definition reporting_prev_months (py : python) (prev_months_raw : option str)
  : result Z :=
  prev_months ←
    match py_int py (obj prev_months_raw) with
    | Ok n => Ok n
    | Raise e =>
        if is_class TypeError e || is_class ValueError e then Ok 6
        else Raise e
    end;
  Ok (Z.max 1 (Z.min 24 prev_months)).

(** [request.form.get(name) or None]. *)
Definition form_get_or_none (f : form) (k : str) : option str :=
  match form_get f k with
  | Some (c :: s) => Some (c :: s)
  | _ => None
  end.

(** [reporting], lines 721-746, for a POST: the window length it keeps
    in the session and the rows it shows. *)
Definition reporting_data (py : python) (f : form) : M (Z * list final_row) :=
  cursor;;
  (* the customer list of the page *)
  execute (fun d => Ok (tt, d));;
  let selected_customer := form_get_or_none f (lit "customer") in
  let selected_month := form_get_or_none f (lit "month") in
  prev_months ← lift (reporting_prev_months py (form_get f (lit "prev_months")));
  data ←
    match selected_customer, selected_month with
    | Some _, Some _ =>
        fetch_reporting_data py selected_customer selected_month prev_months
    | _, _ => mret []
    end;
  mret (prev_months, data).

Definition date_ge (a b : date) : Prop := date_le b a.

Global Instance date_ge_dec (a b : date) : Decision (date_ge a b).
Proof. unfold date_ge. apply _. Defined.

(** [get_months]: the months a customer has records for, newest first,
    as [YYYY-MM-DD] texts. *)
Definition get_months (customer : str) : M (list str) :=
  conn0 ← get_db_connection;
  if negb conn0 then mret []
  else
    try_except
      (cursor;;
       rows ← execute (fun d =>
         Ok (merge_sort date_ge
               (unique
                  (map month_year
                     (sql_select
                        (fun r => text_is (Some customer) (customer_name r))
                        (final_computed_table d)))), d));
       mret (map isoformat rows))
      (fun _ => mret []).

(** The body of the response of [check_record_exists]. *)
Record existence := Existence {
  e_success : bool;
  e_exists : bool;
  e_message : option str
}.

(** [check_record_exists]. *)
Definition check_record_exists (py : python) (f : form) : M existence :=
  try_except
    (let customer := strip (default [] (form_get f (lit "customer"))) in
     let month_str := strip (default [] (form_get f (lit "month"))) in
     match customer, month_str with
     | _ :: _, _ :: _ =>
         match strptime py (JStr month_str) (lit "%Y-%m-%d") with
         | Raise e =>
             if is_class ValueError e
             then mret (Existence false false (Some (lit "Invalid date format")))
             else raise e
         | Ok month_date =>
             conn0 ← get_db_connection;
             if negb conn0 then
               mret (Existence false false
                       (Some (lit "Database connection failed")))
             else
               cursor;;
               count0 ← execute (fun d =>
                 Ok (rowcount (final_at (Some customer) (Some month_date))
                       (final_computed_table d), d));
               mret (Existence true (0 <? count0) None)
         end
     | _, _ =>
         mret (Existence false false
                 (Some (lit "Customer and month are required")))
     end)
    (fun e => mret (Existence false false (Some (exn_text e)))).

(** [(cm.customer_name, cm.month_year) NOT IN (SELECT customer_name,
    month_year FROM final_computed_table)]. *)
Definition pending (d : db) (r : mapping_row) : bool :=
  negb (existsb
          (fun a =>
             bool_decide (customer_name a = m_customer_name r)
             && bool_decide (month_year a = m_month_year r))
          (final_computed_table d)).

(** [d.strftime("%Y-%m")]. *)
Definition strftime_Y_m (d : date) : str :=
  pad 4 (str_of_Z (year d)) ++ lit "-" ++ pad 2 (str_of_Z (month d)).

(** [get_months_pending_tables]: the configured months of a customer that
    have no aggregate record yet. No exception is caught. *)
Definition get_months_pending_tables (customer : str) : M (list str) :=
  cursor;;
  rows ← execute (fun d =>
    Ok (merge_sort date_le
          (map m_month_year
             (sql_select
                (fun r =>
                   text_is (Some customer) (m_customer_name r) && pending d r)
                (customer_mapping_table d))), d));
  mret (map strftime_Y_m rows).


(** ** Statements about record creation *)

(** Every table of [d'] starts with the rows of the same table of [d], in
    their order and unchanged. *)
Definition extends (d d' : db) : Prop :=
  final_computed_table d `prefix_of` final_computed_table d'
  /\ availability_table d `prefix_of` availability_table d'
  /\ users_table d `prefix_of` users_table d'
  /\ storage_table d `prefix_of` storage_table d'
  /\ tickets_computed_table d `prefix_of` tickets_computed_table d'
  /\ customer_mapping_table d `prefix_of` customer_mapping_table d'.

(** ** Statements about in-place edits *)

(** What an edit that may only rewrite the column group [cols] of the
    rows selected by [at_] leaves of a table, position by position: a
    row afterwards ([r']) is the row before ([r]) with at most that
    group replaced, and it is the row before unless [at_] selects it. *)
Definition only_edits {R C : Type} (cols : R -> C) (put : C -> R -> R)
  (at_ : R -> Prop) (t t' : list R) : Prop :=
  Forall2 (fun r r' => r' = put (cols r') r /\ (r' <> r -> at_ r)) t t'.

(** ** Statements about the configuration upsert, continued *)

(** A request body that passes the checks of [save_config] for customer
    [c] and month [m0]: the eight structured fields parse, to [texts], the
    three note sets are within the limits, the display name and the new
    identifier are texts, [full] and [new_uid] once stripped. *)
Definition passes_validation (py : python) (items : list (str * json))
  (c : str) (m0 : date) (texts : list str) (full new_uid : str) : Prop :=
  field_value items (lit "customer") = JStr c
  /\ strptime py (field_value items (lit "month")) (lit "%Y-%m-%d") = Ok m0
  /\ Forall2
       (fun k t => safe_json py (field_value items k) = Ok (Some t))
       config_json_fields texts
  /\ Forall
       (fun t => exists msg, validate_notes_limits py (Some t) = Ok (true, msg))
       (drop 5 texts)
  /\ (v ← body_get_default (JObj items) (lit "customer_full_name") (JStr []);
      strip_obj v) = Ok full
  /\ (v ← body_get_default (JObj items) (lit "new_customer_uid") (JStr []);
      strip_obj v) = Ok new_uid.

(** The identifier list [save_config] stores: the list of the record it
    read, then the new identifier when there is one. *)
Definition uid_array_of (row_uid : option mapping_row) (new_uid : str)
  : list str :=
  default [] (row_uid ≫= m_customer_uid)
  ++ match new_uid with [] => [] | _ => [new_uid] end.

Definition config_saved : response := Response 200 true None None None.


(** ** Sessions ([app.py]) *)

(** The Flask session: a dictionary from keys to JSON values that travels
    in a signed cookie. The handlers store texts, numbers and booleans
    in it. *)
Abbreviation session := (gmap (list N) json) (only parsing).

(** A [datetime] counts microseconds. The two conversions between times
    and texts are library code. *)
Record clock := Clock {
  dt_isoformat : Z -> str;               (* t.isoformat() *)
  dt_fromisoformat : str -> result Z     (* datetime.fromisoformat(s) *)
}.

(** [timedelta(minutes=30)]. *)
Definition thirty_minutes : Z := 30 * 60 * 1000000.

(** [int(span.total_seconds())]; the quotient is a float, exact for the
    spans below 2^33 seconds. *)
Definition whole_seconds (span : Z) : Z := Z.quot span 1000000.

(** What a view returns. *)
Inductive page :=
  | Redirect (endpoint : str)
  | Render (template : str)
  | Json (status : Z) (body : list (str * json)).

(** [flash(message, category)]: Flask appends the pair to the list the
    session holds under ["_flashes"]. *)
Definition flash (message0 category : str) (s : session) : session :=
  let flashes :=
    match s !! lit "_flashes" with
    | Some (JArr l) => l
    | _ => []
    end in
  <[lit "_flashes" :=
      JArr (flashes ++ [JArr [JStr category; JStr message0]])]> s.

(** The time a stored [last_activity] stands for: a text is parsed, and
    no other true value can be subtracted from a time. *)
Definition activity_time (ck : clock) (last_activity : json) : result Z :=
  match last_activity with
  | JStr s => dt_fromisoformat ck s
  | _ => Raise (Exn TypeError (lit "unsupported operand type(s) for -"))
  end.

(** The endpoints [before_request_handler] lets through unchecked. *)
Definition unchecked_endpoints : list (option str) :=
  [Some (lit "static"); Some (lit "login"); Some (lit "check_session")].

(** [before_request_handler]: [now] and [now'] are its two readings of
    the clock, [endpoint] is [request.endpoint]. It returns the response
    that replaces the view, if any. *)
Definition before_request_handler (ck : clock) (endpoint : option str)
  (now now' : Z) (s : session) : result (option page * session) :=
  if bool_decide (endpoint ∈ unchecked_endpoints) then Ok (None, s)
  else
    match s !! lit "username" with
    | Some _ =>
        let last_activity := default JNull (s !! lit "last_activity") in
        expired ←
          (if truthy last_activity
           then t ← activity_time ck last_activity;
                Ok (thirty_minutes <? now - t)
           else Ok false);
        if expired : bool then
          Ok (Some (Redirect (lit "login")),
              flash
                (lit "Your session has expired due to inactivity. Please log in again.")
                (lit "warning") ∅)
        else
          Ok (None,
              <[lit "_permanent" := JBool true]>
                (<[lit "last_activity" := JStr (dt_isoformat ck now')]> s))
    | None => Ok (None, s)
    end.

(** [check_session]. *)
Definition check_session (ck : clock) (now : Z) (s : session)
  : result (page * session) :=
  match s !! lit "username" with
  | None => Ok (Json 401 [(lit "valid", JBool false)], s)
  | Some _ =>
      let last_activity := default JNull (s !! lit "last_activity") in
      if truthy last_activity then
        t ← activity_time ck last_activity;
        let time_since_activity := now - t in
        if thirty_minutes <? time_since_activity then
          Ok (Json 401 [(lit "valid", JBool false);
                        (lit "reason", JStr (lit "expired"))], ∅)
        else
          let remaining_seconds :=
            whole_seconds (thirty_minutes - time_since_activity) in
          Ok (Json 200
                [(lit "valid", JBool true);
                 (lit "remaining_seconds", JNum (inject_Z remaining_seconds));
                 (lit "expires_in",
                  JStr (str_of_Z (remaining_seconds / 60) ++ lit " minutes"))],
              s)
      else Ok (Json 200 [(lit "valid", JBool true)], s)
  end.

(** [@login_required]. *)
Definition login_required (view : session -> result (page * session))
  (s : session) : result (page * session) :=
  match s !! lit "username" with
  | None =>
      Ok (Redirect (lit "login"),
          flash (lit "Session Time out. Please log in to access this page.")
            (lit "warning") s)
  | Some _ => view s
  end.

(** [logout]. *)
Definition logout (s : session) : result (page * session) :=
  Ok (Redirect (lit "login"),
      flash (lit "Logged out successfully!") (lit "success") ∅).

(** [index]. *)
Definition index (s : session) : result (page * session) :=
  match s !! lit "username" with
  | None => Ok (Redirect (lit "login"), s)
  | Some _ => Ok (Redirect (lit "metrics"), s)
  end.

(** [login]: [post] is the form of a POST, [connect] the attempt to open
    a database connection with the credentials given, [now] the time. *)
Definition login (ck : clock) (connect : json -> json -> result unit)
  (post : option form) (now : Z) (s : session) : result (page * session) :=
  match post with
  | Some f =>
      let username := obj (form_get f (lit "username")) in
      let password := obj (form_get f (lit "password")) in
      match connect username password with
      | Ok _ =>
          Ok (Redirect (lit "metrics"),
              flash (lit "Login successful!") (lit "success")
                (<[lit "_permanent" := JBool true]>
                   (<[lit "last_activity" := JStr (dt_isoformat ck now)]>
                      (<[lit "password" := password]>
                         (<[lit "username" := username]> ∅)))))
      | Raise e =>
          Ok (Render (lit "login.html"),
              if is_class DatabaseError e
              then flash (lit "Invalid database credentials. Access denied.")
                     (lit "danger") s
              else flash (lit "Error during login: " ++ exn_text e)
                     (lit "danger") s)
      end
  | None => Ok (Render (lit "login.html"), s)
  end.

(** How Flask serves a request: when a [before_request] function returns
    a response, the view is not called. *)
Definition serve (ck : clock) (endpoint : str) (now now' : Z)
  (view : session -> result (page * session)) (s : session)
  : result (page * session) :=
  '(early, s1) ← before_request_handler ck (Some endpoint) now now' s;
  match early with
  | Some p => Ok (p, s1)
  | None => view s1
  end.

(** ** Statements about sessions *)

(** The session [s] runs out thirty minutes after [t0]: until then
    [check_session] reports it valid, with the whole seconds that remain,
    and leaves it as it is; afterwards it reports it expired and empties
    it. *)
Definition runs_out_after (ck : clock) (t0 : Z) (s : session) : Prop :=
  (forall t : Z,
     0 <= t - t0 <= thirty_minutes ->
     let remaining_seconds := whole_seconds (thirty_minutes - (t - t0)) in
     0 <= remaining_seconds <= 1800
     /\ check_session ck t s
        = Ok (Json 200
                [(lit "valid", JBool true);
                 (lit "remaining_seconds", JNum (inject_Z remaining_seconds));
                 (lit "expires_in",
                  JStr (str_of_Z (remaining_seconds / 60)
                        ++ lit " minutes"))], s))
  /\ (forall t : Z,
        thirty_minutes < t - t0 ->
        check_session ck t s
        = Ok (Json 401 [(lit "valid", JBool false);
                        (lit "reason", JStr (lit "expired"))], ∅)).


(** ** Fetching the report data ([ppt_generator.py], [fetch_data]) *)

(** What pandas and the driver make of stored values: how a row of
    [customer_mapping_table] appears in the data frame, its jsonb columns
    decoded, and which integer [relativedelta] takes for a stored
    [no_of_months] (it raises for NULL and for a number with a fraction).
    Library code, like [python]. *)
Record pandas := Pandas {
  read_config : mapping_row -> config_row;
  window_length : json -> result Z
}.

(** [pd.read_sql(sql, conn, params)]: when the statement fails, pandas
    rolls the transaction back and raises its own [DatabaseError]. *)
Definition read_sql {A : Type} (sql : string) (query : db -> A) : M A :=
  try_except
    (execute (fun d => Ok (query d, d)))
    (fun exc =>
       rollback;;
       raise (Exn DatabaseError
                (lit "Execution failed on sql '" ++ lit sql ++ lit "': "
                 ++ exn_text exc))).

(** [str(x)] of a text or [None] inside an f-string. *)
Definition text_or_None (x : option str) : str := default (lit "None") x.

(** [fetch_data]: the configuration rows and the aggregate rows of the
    customer for the window that ends at the given month. *)
Definition fetch_data (py : python) (pd : pandas)
  (customer_name0 month_year0 : option str)
  : M (list config_row * list final_row) :=
  end_date ← lift (strptime py (obj month_year0) (lit "%Y-%m-%d"));
  stored ←
    try_except
      (customer_mapping_df ←
         read_sql
           "SELECT no_of_months FROM customer_mapping_table WHERE customer_name = %s AND month_year = %s"
           (fun d =>
              sql_select (mapping_at customer_name0 (Some end_date))
                (customer_mapping_table d));
       mret (no_of_months <$> head customer_mapping_df))
      (fun e => if is_class DatabaseError e then mret None else raise e);
  no_of_months0 ←
    match stored with
    | None => mret 6
    | Some v => lift (window_length pd v)
    end;
  start_date ← lift (minus_months end_date (no_of_months0 - 1));
  customer_mapping_df ←
    read_sql
      "SELECT * FROM customer_mapping_table WHERE customer_name = %s AND month_year BETWEEN %s AND %s"
      (fun d =>
         sql_select
           (fun r =>
              text_is customer_name0 (m_customer_name r)
              && between start_date end_date (m_month_year r))
           (customer_mapping_table d));
  final_computed_df ←
    read_sql
      "SELECT * FROM final_computed_table WHERE customer_name = %s AND month_year BETWEEN %s AND %s"
      (fun d =>
         sql_select
           (fun r =>
              text_is customer_name0 (customer_name r)
              && between start_date end_date (month_year r))
           (final_computed_table d));
  match customer_mapping_df, final_computed_df with
  | _ :: _, _ :: _ =>
      mret (map (read_config pd) customer_mapping_df, final_computed_df)
  | _, _ =>
      raise (Exn ValueError
               (lit "No data found for customer '"
                ++ text_or_None customer_name0 ++ lit "' between "
                ++ isoformat start_date ++ lit " and " ++ isoformat end_date
                ++ lit "."))
  end.

(** What [generate_ppt] answers: a failure message, or the deck written
    from the data dictionary and sent as an attachment. *)
Inductive download :=
  | Failure (message0 : str)
  | Attachment (filename : str) (data : data_dictionary).

(** [generate_ppt] ([app.py]). [render] stands for
    [generate_presentation], which writes the file. *)
Definition generate_ppt (py : python) (pd : pandas)
  (render : data_dictionary -> str -> result unit) (f : form) : M download :=
  try_except
    (let customer := form_get f (lit "customer") in
     let month0 := form_get f (lit "month") in
     conn0 ← get_db_connection;
     if negb conn0 then mret (Failure (lit "Database connection failed"))
     else
       '(customer_mapping_df, final_computed_df) ←
         fetch_data py pd customer month0;
       match customer_mapping_df, final_computed_df with
       | _ :: _, _ :: _ =>
           data_dict ←
             lift (match month0 with
                   | Some month1 =>
                       prepare_data_dictionary py customer_mapping_df
                         final_computed_df month1
                   | None =>
                       Raise (Exn TypeError
                                (lit "strptime() argument 1 must be str, not None"))
                   end);
           dt ← lift (strptime py (obj month0) (lit "%Y-%m-%d"));
           let output_filename :=
             text_or_None customer ++ lit "_" ++ pad 4 (str_of_Z (year dt))
             ++ lit "_" ++ month_abbr (month dt) ++ lit ".pptx" in
           lift (render data_dict output_filename);;
           mret (Attachment output_filename data_dict)
       | _, _ => mret (Failure (lit "No data found for PPT generation"))
       end)
    (fun e => mret (Failure (exn_text e))).

(** ** Marks of a slide ([ppt_generator.py], [generate_presentation]) *)

(** [is_prod_red], [is_test_red] of the licence and storage slides. *)
Definition is_red (used : float) (rules0 : rules) : bool :=
  float_ge used (rule_Color3 rules0).

(** Whether the loop over the shapes of the slide puts a shape of this
    name on [shapes_to_remove], lines 612-626 and 804-818. *)
Definition to_remove (is_prod_red is_test_red : bool) (name : str) : bool :=
  (if is_prod_red then bool_decide (name = lit "Prod_Value")
   else bool_decide (name = lit "Prod_Value_Cross"))
  || (if is_test_red then bool_decide (name = lit "Test_Value")
      else bool_decide (name = lit "Test_Value_Cross")).

(** ** A concrete library, for the examples *)

Definition digit (c : char) : option Z :=
  if ((48 <=? c) && (c <=? 57))%N then Some (Z.of_N c - 48) else None.

Fixpoint number_from (acc : Z) (s : str) : option Z :=
  match s with
  | [] => Some acc
  | c :: s' => d ← digit c; number_from (10 * acc + d) s'
  end.

(** A non-empty run of ASCII digits. *)
Definition number (s : str) : option Z :=
  match s with
  | [] => None
  | _ => number_from 0 s
  end.

Definition bad_value (what : string) : exn :=
  Exn ValueError (lit what).

Definition sample_int (v : json) : result Z :=
  match v with
  | JStr s =>
      match strip s with
      | 45%N :: s' =>
          from_option (fun z => Ok (- z))
            (Raise (bad_value "invalid literal for int()")) (number s')
      | s' =>
          from_option Ok (Raise (bad_value "invalid literal for int()"))
            (number s')
      end
  | JNum q => Ok (truncate q)
  | JBool b => Ok (if b then 1 else 0)
  | _ =>
      Raise (Exn TypeError
               (lit "int() argument must be a string or a real number"))
  end.

Definition sample_float (v : json) : result Q :=
  z ← sample_int v; Ok (inject_Z z).

(** [YYYY-MM-DD]. *)
Definition sample_date (s : str) : result date :=
  match s with
  | [y1; y2; y3; y4; 45%N; m1; m2; 45%N; d1; d2] =>
      match number [y1; y2; y3; y4], number [m1; m2], number [d1; d2] with
      | Some y, Some m, Some d =>
          if (1 <=? m) && (m <=? 12) && (1 <=? d) && (d <=? days_in_month y m)
          then Ok (Date y m d)
          else Raise (bad_value "day is out of range for month")
      | _, _, _ => Raise (bad_value "time data does not match format")
      end
  | _ => Raise (bad_value "time data does not match format")
  end.

Definition sample_strptime (v : json) (fmt : str) : result date :=
  match v with
  | JStr s =>
      if bool_decide (fmt = lit "%Y-%m-%d") then sample_date s
      else if bool_decide (fmt = lit "%Y-%m") then sample_date (s ++ lit "-01")
      else Raise (bad_value "time data does not match format")
  | _ => Raise (Exn TypeError (lit "strptime() argument 1 must be str"))
  end.

(** The JSON texts the examples use. *)
Definition quoted (s : string) : str := [34%N] ++ lit s ++ [34%N].

Definition sample_notes_text : str :=
  lit "{" ++ quoted "color1" ++ lit ": " ++ quoted "ok" ++ lit "}".

Definition sample_json_loads (s : str) : result json :=
  if bool_decide (s = sample_notes_text)
  then Ok (JObj [(lit "color1", JStr (lit "ok"))])
  else if bool_decide (s = lit "{}") then Ok (JObj [])
  else Raise (Exn JSONDecodeError (lit "Expecting value")).

Definition sample_json_dumps (v : json) : str :=
  match v with
  | JObj [] => lit "{}"
  | _ => sample_notes_text
  end.

Definition sample_python : python :=
  Python sample_json_loads sample_json_dumps (fun _ => lit "None")
    sample_int sample_float (fun s => sample_float (JStr s))
    (fun q => str_of_Z (truncate q)) sample_strptime sample_date sample_date
    (fun s => s)
    (fun c => ((48 <=? c) && (c <=? 57))%N).

(** ** Sample data, for the examples *)

Definition acme : str := lit "acme".

Definition sample_users (n : Z) : users_cols :=
  UsersCols (Qz 100) (Qz n) (Qz 50) (Qz (n / 2)) (Qz 0) (Qz 0).

Definition sample_storage (n : Z) : storage_cols :=
  StorageCols (Qz 500) (Qz (4 * n)) (Qz 200) (Qz n) (Qz 0) (Qz 0).

Definition sample_availability (n : Z) : availability_cols :=
  AvailabilityCols (Some (n # 100)%Q) (Some (9 # 10)%Q).

Definition sample_tickets (n : Z) : tickets_cols :=
  null_priorities (Qz n) (Qz (n - 1)) (Qz 1) (Qz n) (Qz (n - 1)) (Qz 1).

Definition sample_final_row (c : str) (m : date) (n : Z) : final_row :=
  FinalRow c m (JStr (lit "csm one")) (JStr (lit "csm two"))
    (sample_availability n) (sample_users n) (sample_storage n)
    (sample_tickets n) JNull None.

Definition sample_mapping_row (c : str) (m : date) : mapping_row :=
  new_mapping_row c m (lit "csm one") (lit "csm two") 2 3.

Definition jan : date := Date 2025 1 1.
Definition feb : date := Date 2025 2 1.
Definition mar : date := Date 2025 3 1.
Definition apr : date := Date 2025 4 1.

(** Customer acme has data for January to March, a configuration for
    March and April, and no data for April yet. *)
Definition sample_db : db :=
  Db [ sample_final_row acme jan 92; sample_final_row acme feb 88;
       sample_final_row acme mar 95; sample_final_row (lit "other") mar 70 ]
     [ DomainRow acme jan (sample_availability 92) (sample_availability 92);
       DomainRow acme feb (sample_availability 88) (sample_availability 88);
       DomainRow acme mar (sample_availability 95) (sample_availability 95) ]
     [ DomainRow acme jan (sample_users 92) (sample_users 92);
       DomainRow acme feb (sample_users 88) (sample_users 88);
       DomainRow acme mar (sample_users 95) (sample_users 95) ]
     [ DomainRow acme jan (sample_storage 92) (sample_storage 92);
       DomainRow acme feb (sample_storage 88) (sample_storage 88);
       DomainRow acme mar (sample_storage 95) (sample_storage 95) ]
     [ DomainRow acme jan (sample_tickets 92) (sample_tickets 92);
       DomainRow acme feb (sample_tickets 88) (sample_tickets 88);
       DomainRow acme mar (sample_tickets 95) (sample_tickets 95) ]
     [ sample_mapping_row acme mar; sample_mapping_row acme apr ].

(** An edit of the users of acme for February. *)
Definition sample_users_form : form :=
  [ (lit "customer", acme); (lit "month", lit "2025-02-01");
    (lit "prod_limit", lit "120"); (lit "prod_used", lit "60");
    (lit "test_limit", lit "40"); (lit "test_used", lit "10") ].


(** A request to delete acme's record for March. *)
Definition sample_delete_form : form :=
  [ (lit "customer", lit " acme "); (lit "month", lit "2025-03-01") ].


(** A configuration upsert whose [thr_users] field is empty and whose
    note fields are absent. *)
Definition sample_config_body : list (str * json) :=
  [ (lit "customer", JStr acme); (lit "month", JStr (lit "2025-03-01"));
    (lit "thr_availability", JStr (lit "{}"));
    (lit "thr_users", JStr []);
    (lit "thr_storage", JStr (lit "{}"));
    (lit "indicator_colors", JStr (lit "{}"));
    (lit "circle_colors", JStr (lit "{}")) ].


(** A table-mode insert of acme's record for April. *)
Definition sample_table_form : form :=
  [ (lit "mode", lit "table"); (lit "customer", acme);
    (lit "month", lit "2025-04");
    (lit "updated_availability", lit "97");
    (lit "updated_target", lit "90");
    (lit "updated_prod_limit", lit "100");
    (lit "updated_prod_used", lit "80") ].


Definition sample_colors : color_map :=
  fun k =>
    match k with
    | Color1 => [0; 176; 80]
    | Color2 => [255; 192; 0]
    | Color3 => [255; 0; 0]
    | Invalid => [128; 128; 128]
    end.

(** A configuration record of acme for March with a window of three
    months. *)
Definition sample_config (envs : Z) : config_row :=
  ConfigRow mar (JStr (lit "Acme Corporation")) (JStr (lit "csm one"))
    (Qz envs) sample_colors sample_colors
    (Rules 90 80 70) (Rules 50 75 90) (Rules 50 75 90)
    (JObj []) (JObj []) (JObj []).

(** The aggregate rows of acme for January to March, as the database
    returns them, in no particular order. *)
Definition sample_frame : list final_row :=
  [ sample_final_row acme mar 95; sample_final_row acme jan 92;
    sample_final_row acme feb 88 ].


(** A POST of the reporting page that asks for thirty months. *)
Definition sample_reporting_form : form :=
  [ (lit "customer", acme); (lit "month", lit "2025-03-01");
    (lit "prev_months", lit "30") ].

Definition newco : str := lit "newco".
Definition may : date := Date 2025 5 1.

(** A configuration-mode insert for a customer the tables do not hold,
    and a table-mode insert for the same customer month. *)
Definition sample_config_form : form :=
  [ (lit "mode", lit "config"); (lit "customer", newco);
    (lit "month", lit "2025-05"); (lit "csm_primary", lit "csm one");
    (lit "no_of_months", lit "3"); (lit "no_of_environments", lit "2") ].

Definition sample_newco_table_form : form :=
  [ (lit "mode", lit "table"); (lit "customer", newco);
    (lit "month", lit "2025-05");
    (lit "updated_availability", lit "97");
    (lit "updated_target", lit "90") ].

(** Requests of [check_record_exists] for acme's April and March. *)
Definition sample_check_april : form :=
  [ (lit "customer", lit " acme "); (lit "month", lit "2025-04-01") ].

Definition sample_check_march : form :=
  [ (lit "customer", lit " acme "); (lit "month", lit "2025-03-01") ].

(** A request to delete acme's record for March, the month given as
    [YYYY-MM]. *)
Definition sample_delete_month_form : form :=
  [ (lit "customer", acme); (lit "month", lit "2025-03") ].

(** An availability above 100 percent. *)
Definition sample_availability_form : form :=
  [ (lit "customer", acme); (lit "month", lit "2025-02-01");
    (lit "availability", lit "120"); (lit "target", lit "90") ].

(** A configuration upsert whose eight structured fields are empty
    objects. *)
Definition sample_valid_body (c month0 uid : str) : list (str * json) :=
  [ (lit "customer", JStr c); (lit "month", JStr month0);
    (lit "new_customer_uid", JStr uid);
    (lit "thr_availability", JStr (lit "{}"));
    (lit "thr_users", JStr (lit "{}"));
    (lit "thr_storage", JStr (lit "{}"));
    (lit "indicator_colors", JStr (lit "{}"));
    (lit "circle_colors", JStr (lit "{}"));
    (lit "notes_availability", JStr (lit "{}"));
    (lit "notes_users", JStr (lit "{}"));
    (lit "notes_storage", JStr (lit "{}")) ].

(** A clock that writes a time as its number of microseconds. *)
Definition sample_clock : clock :=
  Clock str_of_Z
    (fun s =>
       from_option Ok (Raise (bad_value "Invalid isoformat string"))
         (number s)).

(** The session of a user who was last active at time 1000. *)
Definition sample_session : gmap (list N) json :=
  <[lit "last_activity" := JStr (lit "1000")]>
    (<[lit "username" := JStr (lit "alice")]> ∅).

Definition sample_login_form : form :=
  [ (lit "username", lit "alice"); (lit "password", lit "secret") ].

Definition sample_pandas : pandas :=
  Pandas (fun _ => sample_config 2) sample_int.

(** Requests for the deck of acme and of a customer without records. *)
Definition sample_ppt_form : form :=
  [ (lit "customer", acme); (lit "month", lit "2025-03-01") ].

Definition sample_nobody_form : form :=
  [ (lit "customer", lit "nobody"); (lit "month", lit "2025-03-01") ].


(** * Properties *)

(** ** Threshold evaluator *)

Lemma Qle_bool_Qmax (c a b : Q) :
  Qle_bool c (Qmax a b) = Qle_bool c a || Qle_bool c b.
Proof.
  unfold Qmax. destruct (Qle_bool a b) eqn:Hab.
  - destruct (Qle_bool c a) eqn:Hca; [|done].
    simpl. apply Qle_bool_iff. apply Qle_bool_iff in Hab, Hca.
    by eapply Qle_trans.
  - destruct (Qle_bool c b) eqn:Hcb; [|by rewrite orb_false_r].
    rewrite orb_true_r. apply Qle_bool_iff. apply Qle_bool_iff in Hcb.
    apply Qlt_le_weak. eapply Qle_lt_trans; [exact Hcb|].
    apply Qnot_le_lt. intros H. apply Qle_bool_iff in H. congruence.
Qed.

(** C1. The availability ladder walks Color1, Color2, Color3 in that order
    and returns the first tier whose cutoff the value meets or exceeds
    (inclusive), and Invalid when the value is below all three; with the
    cutoffs 90, 80, 70 it maps 95 and 90 to Color1, 85 to Color2, 75 to
    Color3 and 50 to Invalid. *)
Theorem threshold_ladder_first_tier :
  (forall (v : Q) (r : rules),
     availability_color_key (Some v) r
       = first_tier_met [Color1; Color2; Color3] v r
     /\ (availability_color_key (Some v) r = Color1
           <-> (rule_Color1 r <= v)%Q)
     /\ (availability_color_key (Some v) r = Color2
           <-> (v < rule_Color1 r)%Q /\ (rule_Color2 r <= v)%Q)
     /\ (availability_color_key (Some v) r = Color3
           <-> (v < rule_Color1 r)%Q /\ (v < rule_Color2 r)%Q
               /\ (rule_Color3 r <= v)%Q)
     /\ (availability_color_key (Some v) r = Invalid
           <-> (v < rule_Color1 r)%Q /\ (v < rule_Color2 r)%Q
               /\ (v < rule_Color3 r)%Q))
  /\ availability_color_key (Some 95%Q) (Rules 90 80 70) = Color1
  /\ availability_color_key (Some 90%Q) (Rules 90 80 70) = Color1
  /\ availability_color_key (Some 85%Q) (Rules 90 80 70) = Color2
  /\ availability_color_key (Some 75%Q) (Rules 90 80 70) = Color3
  /\ availability_color_key (Some 50%Q) (Rules 90 80 70) = Invalid.
Proof.
  split; [|by vm_compute].
  intros v [c1 c2 c3].
  unfold availability_color_key, first_tier_met, meets; simpl.
  destruct (Qle_bool c1 v) eqn:H1, (Qle_bool c2 v) eqn:H2,
    (Qle_bool c3 v) eqn:H3; simpl;
    repeat match goal with
    | H : Qle_bool _ _ = true |- _ => apply Qle_bool_iff in H
    | H : Qle_bool ?a ?b = false |- _ =>
        assert (b < a)%Q
          by (apply Qnot_le_lt; intros HH; apply Qle_bool_iff in HH;
              congruence);
        clear H
    end;
    repeat split; intros; try done; try tauto;
    repeat match goal with
    | H : _ /\ _ |- _ => destruct H
    end;
    exfalso;
    match goal with
    | H1 : (?a <= ?b)%Q, H2 : (?b < ?a)%Q |- _ =>
        exact (Qlt_not_le _ _ H2 H1)
    end.
Qed.

Lemma threshold_ladder_first_tier_witness :
  availability_color_key (Some 90%Q) (Rules 90 80 70) = Color1.
Proof.
  destruct (proj1 threshold_ladder_first_tier 90%Q (Rules 90 80 70))
    as (_ & Hfirst & _).
  apply Hfirst. simpl. unfold Qle. simpl. lia.
Defined.

(** C2. The two-input ladder checks Color3 across both values first, then
    Color2, then Color1, else Invalid; its result is the tier reached by
    the higher of the two inputs, so with Color3 = 90 the inputs (95, 50)
    give the tier of 95 (Color3), which 50 alone would not reach. *)
Theorem usage_ladder_worse_of_two :
  (forall (prod test : Q) (r : rules),
     usage_color_key (Some prod) (Some test) r
       = first_tier_met [Color3; Color2; Color1] (Qmax prod test) r)
  /\ (forall c1 c2 : Q,
        usage_color_key (Some 95%Q) (Some 50%Q) (Rules c1 c2 90)
          = first_tier_met [Color3; Color2; Color1] 95 (Rules c1 c2 90)
        /\ usage_color_key (Some 95%Q) (Some 50%Q) (Rules c1 c2 90) = Color3
        /\ first_tier_met [Color3; Color2; Color1] 50 (Rules c1 c2 90)
             <> Color3).
Proof.
  split.
  - intros p t [c1 c2 c3].
    unfold usage_color_key, first_tier_met, meets; simpl.
    rewrite !Qle_bool_Qmax.
    by destruct (Qle_bool c3 p || Qle_bool c3 t),
      (Qle_bool c2 p || Qle_bool c2 t), (Qle_bool c1 p || Qle_bool c1 t).
  - intros c1 c2.
    unfold usage_color_key, first_tier_met, meets; simpl.
    replace (Qle_bool 90 95) with true by done.
    replace (Qle_bool 90 50) with false by done. simpl.
    split; [done|split; [done|]].
    by destruct (Qle_bool c2 50), (Qle_bool c1 50).
Qed.


(** ** Notes limits *)

Lemma check_lines_None (key : str) (lines : list str) (idx : nat) :
  check_lines key idx lines = None
  <-> Forall (fun line => (length line <= 70)%nat) lines.
Proof.
  revert idx. induction lines as [|line rest IH]; intros idx; simpl.
  - split; [constructor|done].
  - destruct (70 <? length line)%nat eqn:Hlen.
    + apply Nat.ltb_lt in Hlen. split; [done|].
      intros H. inversion H; subst. lia.
    + apply Nat.ltb_ge in Hlen. rewrite IH. split.
      * by constructor.
      * intros H. by inversion H.
Qed.

Lemma check_lines_Some (key : str) (lines : list str) (idx : nat) (msg : str) :
  check_lines key idx lines = Some msg ->
  exists (i : nat) (line : str),
    lines !! i = Some line /\ (70 < length line)%nat
    /\ msg = line_too_long key (idx + i) (length line).
Proof.
  revert idx. induction lines as [|line rest IH]; intros idx; simpl; [done|].
  destruct (70 <? length line)%nat eqn:Hlen.
  - apply Nat.ltb_lt in Hlen. intros [= <-].
    exists 0%nat, line. by rewrite Nat.add_0_r.
  - intros H. destruct (IH _ H) as (i & l & Hi & Hl & ->).
    exists (S i), l. repeat split; [done..|]. f_equal; lia.
Qed.

Lemma json_null_or (val : json) : val = JNull \/ val <> JNull.
Proof. destruct val; auto. Qed.

Lemma check_note_not_null (py : python) (key : str) (val : json) :
  val <> JNull ->
  check_note py key val =
    if (3 <? length (splitlines (note_text py val)))%nat
    then Some (too_many_lines key (length (splitlines (note_text py val))))
    else check_lines key 1 (splitlines (note_text py val)).
Proof. by destruct val. Qed.

Lemma check_note_None (py : python) (key : str) (val : json) :
  check_note py key val = None <-> within_limits py val.
Proof.
  unfold within_limits.
  destruct (json_null_or val) as [->|Hval]; [done|].
  rewrite check_note_not_null by done.
  destruct (3 <? length (splitlines (note_text py val)))%nat eqn:Hn.
  - apply Nat.ltb_lt in Hn. split; [done|]. intros H.
    destruct (H Hval). lia.
  - apply Nat.ltb_ge in Hn. rewrite check_lines_None. split.
    + intros Hall _. by split.
    + intros Hlim. by destruct (Hlim Hval).
Qed.

Lemma check_note_Some (py : python) (key : str) (val : json) (msg : str) :
  check_note py key val = Some msg ->
  val <> JNull
  /\ ((3 < length (splitlines (note_text py val)))%nat
      /\ msg = too_many_lines key (length (splitlines (note_text py val)))
      \/ exists (i : nat) (line : str),
           splitlines (note_text py val) !! i = Some line
           /\ (70 < length line)%nat
           /\ msg = line_too_long key (S i) (length line)).
Proof.
  destruct (json_null_or val) as [->|Hval]; [done|].
  rewrite check_note_not_null by done.
  intros H. split; [done|].
  destruct (3 <? length (splitlines (note_text py val)))%nat eqn:Hn.
  - apply Nat.ltb_lt in Hn. left. split; [done|]. congruence.
  - right. by apply check_lines_Some in H.
Qed.

(** C7. Note validation accepts a mapping exactly when every
    classification's text has at most 3 lines of at most 70 characters;
    3 lines of 70 characters pass, 4 lines and a 71-character line are
    rejected; the message of a rejection names the classification and the
    limit exceeded, with the line number when the limit is the length. *)
Theorem notes_limits_validation :
  forall (py : python) (items : list (str * json)),
    (check_notes py items = (true, None)
       <-> Forall (fun kv => within_limits py (snd kv)) items)
    /\ (check_notes py items <> (true, None) ->
        exists (key : str) (val : json) (msg : str),
          (key, val) ∈ items /\ val <> JNull
          /\ check_notes py items = (false, Some msg)
          /\ ((3 < length (splitlines (note_text py val)))%nat
              /\ msg = too_many_lines key
                         (length (splitlines (note_text py val)))
              \/ exists (i : nat) (line : str),
                   splitlines (note_text py val) !! i = Some line
                   /\ (70 < length line)%nat
                   /\ msg = line_too_long key (S i) (length line)))
    /\ (forall text : str,
          text <> [] ->
          json_loads py (normalize_quotes text) = Ok (JObj items) ->
          validate_notes_limits py (Some text) = Ok (check_notes py items))
    /\ (let l70 := repeat 97%N 70 in
        let l71 := repeat 97%N 71 in
        check_notes py
          [(lit "Color1", JStr (l70 ++ [10%N] ++ l70 ++ [10%N] ++ l70))]
          = (true, None)
        /\ check_notes py
             [(lit "Color1",
               JStr (lit "a" ++ [10%N] ++ lit "b" ++ [10%N] ++ lit "c"
                     ++ [10%N] ++ lit "d"))]
             = (false, Some (lit "'Color1' has 4 lines (max 3 allowed)."))
        /\ check_notes py [(lit "Color1", JStr (lit "ok" ++ [10%N] ++ l71))]
             = (false, Some (lit "'Color1' line 2 is 71 chars (max 70)."))).
Proof.
  intros py items. split; [|split; [|split]].
  - induction items as [|[key val] rest IH]; simpl.
    + split; [constructor|done].
    + destruct (check_note py key val) as [msg|] eqn:Hnote.
      * split; [done|]. intros H. inversion H as [|? ? Hval _]; subst.
        simpl in Hval. apply (check_note_None py key) in Hval. congruence.
      * apply check_note_None in Hnote. rewrite IH. split.
        -- by constructor.
        -- intros H. by inversion H.
  - induction items as [|[key val] rest IH]; simpl; [done|].
    destruct (check_note py key val) as [msg|] eqn:Hnote.
    + intros _. exists key, val, msg.
      destruct (check_note_Some _ _ _ _ Hnote) as [Hval Hmsg].
      split; [by left|]. by repeat split.
    + intros H. destruct (IH H) as (k & v & m & Hin & Hrest).
      exists k, v, m. split; [by right|done].
  - intros text Htext Hload. unfold validate_notes_limits.
    destruct text; [done|]. by rewrite Hload.
  - by vm_compute.
Qed.

Lemma notes_limits_validation_witness :
  validate_notes_limits sample_python (Some sample_notes_text)
  = Ok (true, None).
Proof.
  pose proof (notes_limits_validation sample_python
                [(lit "color1", JStr (lit "ok"))]) as (_ & _ & Hval & _).
  rewrite (Hval sample_notes_text); [reflexivity|by vm_compute|by vm_compute].
Defined.

(** ** Propagation of limits to later months *)

(** String literals stay folded while handlers are run symbolically. *)
Local Opaque lit.

Lemma date_ltb_irrefl (a : date) : date_ltb a a = false.
Proof.
  unfold date_ltb.
  rewrite !Z.ltb_irrefl, !Z.eqb_refl. done.
Qed.

Lemma date_ltb_asym (a b : date) :
  date_ltb a b = true -> date_ltb b a = false.
Proof.
  unfold date_ltb. destruct a as [y1 m1 d1], b as [y2 m2 d2]; simpl.
  intros H. apply not_true_iff_false. intros H'.
  repeat match goal with
  | H : _ || _ = true |- _ => apply orb_true_iff in H; destruct H
  | H : _ && _ = true |- _ => apply andb_true_iff in H; destruct H
  | H : (_ <? _) = true |- _ => apply Z.ltb_lt in H
  | H : (_ =? _) = true |- _ => apply Z.eqb_eq in H
  end; lia.
Qed.


Lemma text_is_Some (c column : str) :
  text_is (Some c) column = bool_decide (column = c).
Proof. unfold text_is. apply bool_decide_ext. naive_solver. Qed.

Lemma date_is_Some (m column : date) :
  date_is (Some m) column = bool_decide (column = m).
Proof. unfold date_is. apply bool_decide_ext. naive_solver. Qed.

(** The two UPDATE statements of an edit on one table: the month itself,
    then the later months. *)
Lemma sql_update_propagated {R C : Type} (name : R -> str) (mon : R -> date)
  (cols : R -> C) (put : C -> R -> R) (c0 : str) (m0 : date) (all : C)
  (limits : C -> C) (t : list R) :
  (forall u r, name (put u r) = name r) ->
  (forall u r, mon (put u r) = mon r) ->
  (forall u r, cols (put u r) = u) ->
  (forall r, put (cols r) r = r) ->
  (forall u v r, put u (put v r) = put u r) ->
  propagated name mon cols put c0 m0 all limits t
    (sql_update
       (fun r => text_is (Some c0) (name r) && date_after (Some m0) (mon r))
       (fun r => put (limits (cols r)) r)
       (sql_update
          (fun r => text_is (Some c0) (name r) && date_is (Some m0) (mon r))
          (put all) t)).
Proof.
  intros Hname Hmon Hcols Hid Hput. unfold propagated, sql_update.
  rewrite map_map. apply Forall2_fmap_r, Forall_Forall2_diag, Forall_forall.
  intros r _. unfold compose. cbv beta.
  unfold date_after. rewrite !text_is_Some, !date_is_Some.
  destruct (bool_decide (name r = c0)) eqn:Hc; simpl.
  - apply bool_decide_eq_true in Hc.
    destruct (bool_decide (mon r = m0)) eqn:Hm; simpl.
    + apply bool_decide_eq_true in Hm.
      rewrite Hname, Hmon, Hm, date_ltb_irrefl, andb_false_r.
      rewrite Hput, Hcols, Hid. repeat split; try done.
      intros [?|?]; done.
    + apply bool_decide_eq_false in Hm.
      rewrite bool_decide_true by done. simpl.
      destruct (date_ltb m0 (mon r)) eqn:Hlt.
      * rewrite Hput, Hcols, Hid. repeat split; try done.
        intros [?|Hlt']; [done|]. apply date_ltb_asym in Hlt'. congruence.
      * by rewrite Hid.
  - apply bool_decide_eq_false in Hc.
    rewrite bool_decide_false by done. simpl.
    by rewrite Hid.
Qed.

Ltac run_handler :=
  unfold run, try_except, open_conn;
  unfold mbind, M_bind, bind, lift, mret, M_ret, ret, result_bind,
    result_ret.

(** C3. A users or storage edit for customer C at month M writes the
    limit (target) fields to the aggregate row and the domain row of C
    for every month after M, and the used (actual) fields only for M
    itself; rows of C before M are not modified, and a row after M
    changes in no other field. *)
Theorem limits_propagate_forward :
  forall (py : python) (f : form) (d : db) (C mtext : str) (M0 : date),
    form_get f (lit "customer") = Some C ->
    form_get f (lit "month") = Some mtext ->
    pg_date py mtext = Ok M0 ->
    (forall pl pu tl tu dl du : Z,
       py_int py (obj (form_get f (lit "prod_limit"))) = Ok pl ->
       py_int py (obj (form_get f (lit "prod_used"))) = Ok pu ->
       py_int py (obj (form_get f (lit "test_limit"))) = Ok tl ->
       py_int py (obj (form_get f (lit "test_used"))) = Ok tu ->
       int_or_zero py (form_get f (lit "dev_limit")) = Ok dl ->
       int_or_zero py (form_get f (lit "dev_used")) = Ok du ->
       exists (resp : response) (d' : db),
         run (save_users py f) d [] true = (Ok resp, d')
         /\ success resp = true
         /\ propagated customer_name month_year updated_users_cols
              (fun u => set_users (fun _ => u)) C M0
              (UsersCols (Qz pl) (Qz pu) (Qz tl) (Qz tu) (Qz dl) (Qz du))
              (fun u =>
                 UsersCols (Qz pl) (prod_used u) (Qz tl) (test_used u)
                   (Qz dl) (dev_used u))
              (final_computed_table d) (final_computed_table d')
         /\ propagated d_customer_name d_month_year updated
              (fun u => set_updated (fun _ => u)) C M0
              (UsersCols (Qz pl) (Qz pu) (Qz tl) (Qz tu) (Qz dl) (Qz du))
              (fun u =>
                 UsersCols (Qz pl) (prod_used u) (Qz tl) (test_used u)
                   (Qz dl) (dev_used u))
              (users_table d) (users_table d')
         /\ availability_table d' = availability_table d
         /\ storage_table d' = storage_table d
         /\ tickets_computed_table d' = tickets_computed_table d
         /\ customer_mapping_table d' = customer_mapping_table d)
    /\ (let pt := Some (to_decimal py (form_get f (lit "prod_target"))) in
        let pa := Some (to_decimal py (form_get f (lit "prod_actual"))) in
        let tt := Some (to_decimal py (form_get f (lit "test_target"))) in
        let ta := Some (to_decimal py (form_get f (lit "test_actual"))) in
        let dt :=
          Some (to_decimal py
                  (form_get_default f (lit "dev_target") (lit "0"))) in
        let da :=
          Some (to_decimal py
                  (form_get_default f (lit "dev_actual") (lit "0"))) in
        exists (resp : response) (d' : db),
          run (save_storage py f) d [] true = (Ok resp, d')
          /\ success resp = true
          /\ propagated customer_name month_year updated_storage_cols
               (fun s => set_storage (fun _ => s)) C M0
               (StorageCols pt pa tt ta dt da)
               (fun s =>
                  StorageCols pt (prod_storage_gb s) tt (test_storage_gb s)
                    dt (dev_storage_gb s))
               (final_computed_table d) (final_computed_table d')
          /\ propagated d_customer_name d_month_year updated
               (fun s => set_updated (fun _ => s)) C M0
               (StorageCols pt pa tt ta dt da)
               (fun s =>
                  StorageCols pt (prod_storage_gb s) tt (test_storage_gb s)
                    dt (dev_storage_gb s))
               (storage_table d) (storage_table d')
          /\ availability_table d' = availability_table d
          /\ users_table d' = users_table d
          /\ tickets_computed_table d' = tickets_computed_table d
          /\ customer_mapping_table d' = customer_mapping_table d).
Proof.
  intros py f d C mtext M0 Hc Hm Hd. split.
  - intros pl pu tl tu dl du H1 H2 H3 H4 H5 H6.
    eexists _, _. split.
    + unfold save_users. run_handler.
      rewrite H1, H2, H3, H4, H5, H6, Hc, Hm.
      unfold cursor, execute, commit, date_param; simpl.
      rewrite Hd; simpl. reflexivity.
    + simpl. split; [done|].
      split; [|split; [|done]].
      * apply (sql_update_propagated customer_name month_year
                 updated_users_cols (fun u => set_users (fun _ => u)));
          try done; by intros [].
      * apply (sql_update_propagated d_customer_name d_month_year
                 updated (fun u => set_updated (fun _ => u)));
          try done; by intros [].
  - intros pt pa tt ta dt da.
    eexists _, _. split.
    + unfold save_storage. run_handler.
      rewrite Hc, Hm.
      unfold cursor, execute, commit, date_param; simpl.
      rewrite Hd; simpl. reflexivity.
    + simpl. split; [done|].
      split; [|split; [|done]].
      * apply (sql_update_propagated customer_name month_year
                 updated_storage_cols (fun u => set_storage (fun _ => u)));
          try done; by intros [].
      * apply (sql_update_propagated d_customer_name d_month_year
                 updated (fun u => set_updated (fun _ => u)));
          try done; by intros [].
Qed.

Lemma limits_propagate_forward_witness :
  exists (resp : response) (d' : db),
    run (save_users sample_python sample_users_form) sample_db [] true
      = (Ok resp, d')
    /\ success resp = true
    /\ propagated customer_name month_year updated_users_cols
         (fun u => set_users (fun _ => u)) acme feb
         (UsersCols (Qz 120) (Qz 60) (Qz 40) (Qz 10) (Qz 0) (Qz 0))
         (fun u =>
            UsersCols (Qz 120) (prod_used u) (Qz 40) (test_used u) (Qz 0)
              (dev_used u))
         (final_computed_table sample_db) (final_computed_table d').
Proof.
  destruct (limits_propagate_forward sample_python sample_users_form
              sample_db acme (lit "2025-02-01") feb
              eq_refl eq_refl eq_refl) as [Husers _].
  destruct (Husers 120 60 40 10 0 0 eq_refl eq_refl eq_refl eq_refl
              eq_refl eq_refl) as (resp & d' & Hrun & Hok & Hfinal & _).
  by exists resp, d'.
Defined.

(** ** Deletion *)

Lemma total_deleted_app (l1 l2 : list count) :
  total_deleted (l1 ++ l2) = total_deleted l1 + total_deleted l2.
Proof.
  induction l1 as [|[n|msg] l1 IH]; simpl; lia.
Qed.

Lemma rowcount_nonneg {R : Type} (where_ : R -> bool) (t : list R) :
  0 <= rowcount where_ t.
Proof. unfold rowcount. lia. Qed.

Lemma rowcount_deleted {R : Type} (where_ : R -> bool) (t : list R) :
  rowcount where_ t
  = Z.of_nat (length t) - Z.of_nat (length (sql_delete where_ t)).
Proof.
  unfold rowcount, sql_delete.
  induction t as [|r t IH]; simpl; [done|].
  destruct (where_ r); simpl; lia.
Qed.

Lemma rowcount_found {R : Type} (where_ : R -> bool) (t : list R) (r : R) :
  fetchone (sql_select where_ t) = Some r -> 0 < rowcount where_ t.
Proof.
  unfold fetchone, sql_select, rowcount.
  destruct (List.filter where_ t); simpl; [done|lia].
Qed.

(** The response built from the per-table counts: a zero total of the
    numeric counts gives a failure, also when no table reported an error,
    a positive total a success; both carry the counts. When no statement
    is rejected, deleting an existing record reports success with, per
    table, the number of rows it removed. *)
Lemma delete_zero_total_is_failure :
  (forall (customer : str) (month_date : date)
          (counts : list (str * count)),
     let resp := delete_response customer month_date counts in
     deleted_counts resp = Some counts
     /\ (total_deleted (map snd counts) = 0 ->
         success resp = false /\ status resp = 404)
     /\ (0 < total_deleted (map snd counts) ->
         success resp = true /\ status resp = 200))
  /\ (forall (customer : str) (month_date : date),
        let resp :=
          delete_response customer month_date
            [ (lit "final_computed_table", Deleted 0);
              (lit "availability_table", Deleted 0);
              (lit "users_table", Deleted 0);
              (lit "storage_table", Deleted 0);
              (lit "tickets_computed_table", Deleted 0);
              (lit "customer_mapping_table", Deleted 0) ] in
        success resp = false)
  /\ (forall (py : python) (f : form) (d : db) (c m : char) (cs ms : str)
             (month_date : date) (r0 : final_row),
        strip (default [] (form_get f (lit "customer"))) = c :: cs ->
        default [] (form_get f (lit "month")) = m :: ms ->
        normalize_month py (m :: ms) = Ok month_date ->
        fetchone (sql_select (final_at (Some (c :: cs)) (Some month_date))
                    (final_computed_table d)) = Some r0 ->
        let key_c := Some (c :: cs) in
        let key_m := Some month_date in
        let in_mapping := fun r =>
          bool_decide (pg_lower py (pg_trim (m_customer_name r))
                       = pg_lower py (pg_trim (c :: cs)))
          && date_is key_m (m_month_year r) in
        let counts :=
          [ (lit "final_computed_table",
             Deleted (rowcount (final_at key_c key_m)
                        (final_computed_table d)));
            (lit "availability_table",
             Deleted (rowcount (domain_at key_c key_m)
                        (availability_table d)));
            (lit "users_table",
             Deleted (rowcount (domain_at key_c key_m) (users_table d)));
            (lit "storage_table",
             Deleted (rowcount (domain_at key_c key_m) (storage_table d)));
            (lit "tickets_computed_table",
             Deleted (rowcount (domain_at key_c key_m)
                        (tickets_computed_table d)));
            (lit "customer_mapping_table",
             Deleted (rowcount in_mapping (customer_mapping_table d))) ] in
        exists resp : response,
          run (delete_record py f) d [] true
            = (Ok resp,
               Db (sql_delete (final_at key_c key_m) (final_computed_table d))
                  (sql_delete (domain_at key_c key_m) (availability_table d))
                  (sql_delete (domain_at key_c key_m) (users_table d))
                  (sql_delete (domain_at key_c key_m) (storage_table d))
                  (sql_delete (domain_at key_c key_m)
                     (tickets_computed_table d))
                  (sql_delete in_mapping (customer_mapping_table d)))
          /\ success resp = true /\ status resp = 200
          /\ deleted_counts resp = Some counts).
Proof.
  split; [|split].
  - intros customer month_date counts. unfold delete_response. simpl.
    destruct (total_deleted (map snd counts) <=? 0) eqn:Htot; simpl.
    + apply Z.leb_le in Htot. split; [done|]. split; [done|lia].
    + apply Z.leb_gt in Htot. split; [done|]. split; [lia|done].
  - done.
  - intros py f d c m cs ms month_date r0 Hc Hm Hnorm Hfound
      key_c key_m in_mapping counts.
    assert (Hpos : 0 < total_deleted (map snd counts)).
    { subst counts. simpl.
      pose proof (rowcount_found _ _ _ Hfound).
      pose proof (rowcount_nonneg (domain_at key_c key_m)
                    (availability_table d)).
      pose proof (rowcount_nonneg (domain_at key_c key_m) (users_table d)).
      pose proof (rowcount_nonneg (domain_at key_c key_m) (storage_table d)).
      pose proof (rowcount_nonneg (domain_at key_c key_m)
                    (tickets_computed_table d)).
      pose proof (rowcount_nonneg in_mapping (customer_mapping_table d)).
      subst key_c key_m. lia. }
    exists (delete_response (c :: cs) month_date counts).
    split.
    + unfold delete_record. run_handler. rewrite Hc, Hm, Hnorm.
      unfold get_db_connection, cursor, execute, commit; simpl.
      rewrite Hfound; simpl. reflexivity.
    + unfold delete_response.
      destruct (total_deleted (map snd counts) <=? 0) eqn:Htot; [|done].
      apply Z.leb_le in Htot. lia.
Qed.

Lemma delete_zero_total_is_failure_witness :
  exists resp : response,
    fst (run (delete_record sample_python sample_delete_form) sample_db []
           true) = Ok resp
    /\ success resp = true
    /\ deleted_counts resp
       = Some [ (lit "final_computed_table", Deleted 1);
                (lit "availability_table", Deleted 1);
                (lit "users_table", Deleted 1);
                (lit "storage_table", Deleted 1);
                (lit "tickets_computed_table", Deleted 1);
                (lit "customer_mapping_table", Deleted 1) ].
Proof.
  destruct (proj2 (proj2 delete_zero_total_is_failure) sample_python
              sample_delete_form sample_db 97%N 50%N
              [99%N; 109%N; 101%N]
              [48%N; 50%N; 53%N; 45%N; 48%N; 51%N; 45%N; 48%N; 49%N]
              mar (sample_final_row acme mar 95))
    as (resp & Hrun & Hok & _ & Hcounts); [by vm_compute..|].
  exists resp. rewrite Hrun, Hok, Hcounts. by vm_compute.
Defined.

(** C6. The tally does not tell whether a row was deleted. Deleting the
    March record of acme, which all six tables hold, when the server
    rejects the second DELETE: the error is caught for that table, the
    four later statements are refused in the aborted transaction, and
    the commit ends the transaction as a rollback, so no row is removed.
    The response still reports success, with status 200, from the count
    of the first DELETE, and its per-table counts name one deleted row. *)
Example delete_rejected_midway :
  let out :=
    run (delete_record sample_python sample_delete_form) sample_db
      [None; None; None; Some (lit "permission denied")] true in
  let refused :=
    DeleteError (lit "Error: " ++ exn_text in_failed_transaction) in
  snd out = sample_db
  /\ exists resp : response,
       fst out = Ok resp /\ success resp = true /\ status resp = 200
       /\ option_map (map snd) (deleted_counts resp)
          = Some [ Deleted 1; DeleteError (lit "Error: permission denied");
                   refused; refused; refused; refused ].
Proof. split; [by vm_compute|]. eexists. by vm_compute. Qed.

(** ** Configuration upsert *)

Lemma body_get_field (items : list (str * json)) (k : str) :
  body_get (JObj items) k = Ok (field_value items k).
Proof. done. Qed.

Lemma safe_json_text_field (py : python) (v : json) :
  is_text v -> exists o : option str, safe_json py v = Ok o.
Proof.
  intros [->|[s ->]]; [by exists None|].
  unfold safe_json. destruct (negb (truthy (JStr s))); [by exists None|].
  simpl. destruct (json_loads py _); eauto.
Qed.

Lemma safe_json_rejects (py : python) (v : json) :
  v = JNull \/ v = JStr []
  \/ (exists (s : str) (e : exn),
        v = JStr s /\ json_loads py (safe_json_text s) = Raise e) ->
  safe_json py v = Ok None.
Proof.
  intros [->|[->|(s & e & -> & Hload)]]. 1: done. 1: done.
  unfold safe_json. destruct (negb (truthy (JStr s))); [done|].
  simpl. unfold safe_json_text in Hload. by rewrite Hload.
Qed.

(** C10. When one of the eight structured text fields is absent or an
    empty string, the upsert is rejected as a whole and nothing is
    written; with a well-formed month the response is the invalid-JSON
    error, the one a field whose text does not parse gets. *)
Theorem empty_field_rejected_as_invalid_json :
  forall (py : python) (items : list (str * json)) (d : db)
         (fs : list (option str)) (is_up : bool) (k0 : str),
    (forall k, k ∈ config_json_fields -> is_text (field_value items k)) ->
    k0 ∈ config_json_fields ->
    field_value items k0 = JNull \/ field_value items k0 = JStr []
    \/ (exists (s : str) (e : exn),
          field_value items k0 = JStr s
          /\ json_loads py (safe_json_text s) = Raise e) ->
    exists resp : response,
      run (save_config py (JObj items)) d fs is_up = (Ok resp, d)
      /\ success resp = false
      /\ (forall month_date : date,
            strptime py (field_value items (lit "month")) (lit "%Y-%m-%d")
              = Ok month_date ->
            resp = invalid_json_reply).
Proof.
  intros py items d fs is_up k0 Htext Hk0 Hbad.
  apply safe_json_rejects with (py := py) in Hbad.
  assert (Hsafe : forall k, k ∈ config_json_fields ->
                    exists o, safe_json py (field_value items k) = Ok o).
  { intros k Hk. by apply safe_json_text_field, Htext. }
  unfold config_json_fields in Hsafe, Hk0. simpl in Hsafe, Hk0.
  destruct (Hsafe (lit "thr_availability")) as [o1 H1];
    [repeat constructor|].
  destruct (Hsafe (lit "thr_users")) as [o2 H2]; [repeat constructor|].
  destruct (Hsafe (lit "thr_storage")) as [o3 H3]; [repeat constructor|].
  destruct (Hsafe (lit "indicator_colors")) as [o4 H4];
    [repeat constructor|].
  destruct (Hsafe (lit "circle_colors")) as [o5 H5]; [repeat constructor|].
  destruct (Hsafe (lit "notes_availability")) as [o6 H6];
    [repeat constructor|].
  destruct (Hsafe (lit "notes_users")) as [o7 H7]; [repeat constructor|].
  destruct (Hsafe (lit "notes_storage")) as [o8 H8]; [repeat constructor|].
  assert (Hnone : existsb (fun x => bool_decide (x = None))
                    [o1; o2; o3; o4; o5; o6; o7; o8] = true).
  { apply existsb_exists. exists None. split; [|done].
    repeat (apply elem_of_cons in Hk0 as [->|Hk0]);
      [| | | | | | | |by apply elem_of_nil in Hk0];
      rewrite Hbad in *; simplify_eq; simpl; tauto. }
  simpl in Hnone.
  unfold save_config. run_handler. rewrite !body_get_field. simpl.
  destruct (strptime py (field_value items (lit "month")) (lit "%Y-%m-%d"))
    as [month_date|e] eqn:Hmonth.
  - simpl. rewrite H1, H2, H3, H4, H5, H6, H7, H8. simpl.
    rewrite Hnone. simpl. eexists. split; [done|]. split; [done|].
    by intros ? [= <-].
  - simpl. eexists. split; [done|]. split; [done|]. done.
Qed.


Lemma empty_field_rejected_as_invalid_json_witness :
  run (save_config sample_python (JObj sample_config_body)) sample_db [] true
  = (Ok invalid_json_reply, sample_db).
Proof.
  destruct (empty_field_rejected_as_invalid_json sample_python
              sample_config_body sample_db [] true (lit "thr_users"))
    as (resp & Hrun & _ & Hmsg).
  - intros k Hk. unfold config_json_fields in Hk. simpl in Hk.
    repeat (apply elem_of_cons in Hk as [->|Hk]);
      [..|by apply elem_of_nil in Hk]; vm_compute;
      first [by left | right; eexists; reflexivity].
  - unfold config_json_fields. simpl. repeat constructor.
  - right. left. by vm_compute.
  - rewrite Hrun. f_equal. f_equal. apply (Hmsg mar). by vm_compute.
Defined.

(** ** Record creation *)

(** Running a handler symbolically. A match of the goal is stuck on the
    result of a library call, of a query, or on the fault list; [split_on]
    replaces that value by what a hypothesis says it is, or splits on
    it. *)
Ltac atomic x :=
  first
    [ is_var x
    | lazymatch x with
      | fetchone _ => idtac
      | existsb _ _ => idtac
      | table_payload _ _ => idtac
      | insert_month _ _ => idtac
      | normalize_month _ _ => idtac
      | py_int _ _ => idtac
      | py_float _ _ => idtac
      | int_or_zero _ _ => idtac
      | pg_date _ _ => idtac
      | strptime _ _ _ => idtac
      | form_get _ _ => idtac
      | body_find _ _ => idtac
      | safe_json _ _ => idtac
      | validate_notes_limits _ _ => idtac
      | text_param _ => idtac
      | strip_obj _ => idtac
      | is_class _ _ => idtac
      | strip _ => idtac
      | (_ =? _)%Z => idtac
      | bool_decide _ => idtac
      | (_ || _) => idtac
      | (_ && _) => idtac
      | negb _ => idtac
      | insert_final_select _ _ _ _ _ => idtac
      | default _ _ => idtac
      end ].

Ltac split_on x :=
  atomic x;
  first
    [ match goal with
      | H : x = _ |- _ => rewrite H
      end
    | is_var x; destruct x
    | destruct x eqn:? ].

Ltac case_step :=
  match goal with
  | |- context [match ?x with Ok _ => _ | Raise _ => _ end] => split_on x
  | |- context [match ?x with Some _ => _ | None => _ end] => split_on x
  | |- context [match ?x with [] => _ | _ :: _ => _ end] => split_on x
  | |- context [if ?b then _ else _] => split_on b
  | |- context [let '(_, _) := ?p in _] => is_var p; destruct p
  | |- context [match ?x with
                | JNull => _ | JBool _ => _ | JNum _ => _ | JStr _ => _
                | JArr _ => _ | JObj _ => _
                end] => split_on x
  end;
  simpl.

Ltac unfold_db :=
  unfold cursor, execute, commit, rollback, get_db_connection, failure_of.

Lemma existsb_final_at_new (c : str) (m : date) (t : list final_row)
  (r : final_row) :
  customer_name r = c -> month_year r = m ->
  existsb (final_at (Some c) (Some m)) (t ++ [r]) = true.
Proof.
  intros <- <-. rewrite existsb_app. apply orb_true_iff. right. simpl.
  unfold final_at. rewrite text_is_Some, date_is_Some.
  by rewrite !bool_decide_true.
Qed.

(** What a successful table-mode insert has stored. *)
Lemma insert_table_success (py : python) (f : form) (d d1 : db)
  (customer : str) (month_date : date) (r1 : response) :
  run (try_except (insert_table py f customer month_date) failure_of) d []
    true = (Ok r1, d1) ->
  success r1 = true ->
  exists mr a u s t,
    fetchone (sql_select (mapping_at (Some customer) (Some month_date))
                (customer_mapping_table d)) = Some mr
    /\ table_payload py f = Ok (a, u, s, t)
    /\ d1 = Db (final_computed_table d
                ++ [FinalRow customer month_date (m_csm_primary mr)
                      (m_csm_secondary mr) a u s t JNull None])
               (availability_table d ++ [DomainRow customer month_date a a])
               (users_table d ++ [DomainRow customer month_date u u])
               (storage_table d ++ [DomainRow customer month_date s s])
               (tickets_computed_table d
                ++ [DomainRow customer month_date t t])
               (customer_mapping_table d).
Proof.
  unfold insert_table. run_handler. unfold_db. simpl.
  unfold insert_do_nothing, insert_row.
  repeat case_step; intros [= <- <-] Hok; try discriminate.
  eauto 10.
Qed.

(** C5. Table-mode insert fails and writes nothing when the customer
    month has no configuration; it fails with the already-exists message
    and writes nothing when the aggregate record exists; so a second call
    with the same inputs after a successful one fails that way and leaves
    every table as the first call left it. *)
Theorem table_insert_guards :
  forall (py : python) (f : form) (d : db) (c m : char) (cs ms : str)
         (month_date : date),
    form_get f (lit "mode") = Some (lit "table") ->
    form_get f (lit "customer") = Some (c :: cs) ->
    form_get f (lit "month") = Some (m :: ms) ->
    insert_month py (m :: ms) = Ok (Some month_date) ->
    let configured d0 :=
      fetchone (sql_select (mapping_at (Some (c :: cs)) (Some month_date))
                  (customer_mapping_table d0)) in
    let present d0 :=
      existsb (final_at (Some (c :: cs)) (Some month_date))
        (final_computed_table d0) in
    let missing :=
      reply false
        (lit "Configuration missing! Please enter configuration first.") in
    let exists_already :=
      reply false
        (lit "Table data already exists for this customer & month.") in
    (configured d = None ->
     run (insert_record py f) d [] true = (Ok missing, d)
     /\ forall fs is_up, exists resp,
          run (insert_record py f) d fs is_up = (Ok resp, d)
          /\ success resp = false)
    /\ (forall mr p,
          configured d = Some mr -> table_payload py f = Ok p ->
          present d = true ->
          run (insert_record py f) d [] true = (Ok exists_already, d)
          /\ forall fs is_up, exists resp,
               run (insert_record py f) d fs is_up = (Ok resp, d)
               /\ success resp = false)
    /\ (forall r1 d1,
          run (insert_record py f) d [] true = (Ok r1, d1) ->
          success r1 = true ->
          run (insert_record py f) d1 [] true = (Ok exists_already, d1)).
Proof.
  intros py f d c m cs ms month_date Hmode Hc Hm Hmonth
    configured present missing exists_already.
  subst configured present missing exists_already.
  assert (Hrun : forall d0 fs is_up,
    run (insert_record py f) d0 fs is_up
    = run (try_except (insert_table py f (c :: cs) month_date) failure_of)
        d0 fs is_up).
  { intros. unfold insert_record. run_handler.
    rewrite Hmode, Hc, Hm, Hmonth. simpl.
    rewrite bool_decide_false, bool_decide_true; done. }
  split; [|split].
  - intros Hcfg. split.
    + rewrite Hrun. unfold insert_table. run_handler. unfold_db. simpl.
      by rewrite Hcfg.
    + intros fs is_up. rewrite Hrun. unfold insert_table. run_handler.
      unfold_db. simpl.
      repeat case_step; eauto.
  - intros mr [[[a u] s] t] Hcfg Hpay Hpresent. split.
    + rewrite Hrun. unfold insert_table. run_handler. unfold_db. simpl.
      rewrite Hcfg, Hpay. simpl. unfold insert_do_nothing.
      by rewrite Hpresent.
    + intros fs is_up. rewrite Hrun. unfold insert_table. run_handler.
      unfold_db. simpl. unfold insert_do_nothing.
      repeat case_step; eauto.
  - intros r1 d1. rewrite !Hrun. intros Hfirst Hok.
    destruct (insert_table_success _ _ _ _ _ _ _ Hfirst Hok)
      as (mr & a & u & s & t & Hcfg & Hpay & ->).
    unfold insert_table. run_handler. unfold_db. simpl.
    rewrite Hcfg, Hpay. simpl. unfold insert_do_nothing.
    by rewrite existsb_final_at_new.
Qed.

Lemma table_insert_guards_witness :
  exists (r1 : response) (d1 : db),
    run (insert_record sample_python sample_table_form) sample_db [] true
      = (Ok r1, d1)
    /\ success r1 = true
    /\ run (insert_record sample_python sample_table_form) d1 [] true
       = (Ok (reply false
                (lit "Table data already exists for this customer & month.")),
          d1).
Proof.
  pose proof (table_insert_guards sample_python sample_table_form
                sample_db 97%N 50%N [99%N; 109%N; 101%N]
                [48%N; 50%N; 53%N; 45%N; 48%N; 52%N] apr
                ltac:(by vm_compute) ltac:(by vm_compute)
                ltac:(by vm_compute) ltac:(by vm_compute))
    as (_ & _ & Htwice).
  destruct (run (insert_record sample_python sample_table_form) sample_db
              [] true) as [[r1|e] d1] eqn:Hrun; [|by vm_compute in Hrun].
  exists r1, d1. split; [done|].
  assert (Hok : success r1 = true).
  { vm_compute in Hrun. by injection Hrun as <- _. }
  split; [done|]. exact (Htwice r1 d1 eq_refl Hok).
Defined.

(** ** Transactions *)

(** What is left to show once a handler has run on both fault lists. *)
Ltac all_or_nothing :=
  simpl;
  split;
  [ intros; first [reflexivity | lia]
  | first [by left | by right] ].

Lemma save_availability_atomic (py : python) (f : form) (d : db)
  (fs : list (option str)) (is_up : bool) :
  let out := save_availability py f (open_conn d fs is_up) in
  ((0 < rejected (snd out))%nat -> committed (snd out) = d)
  /\ (committed (snd out) = d
      \/ (fst out, committed (snd out))
         = run (save_availability py f) d [] is_up).
Proof.
  unfold save_availability, date_param. run_handler. unfold_db. simpl.
  repeat case_step; all_or_nothing.
Qed.

Lemma save_users_atomic (py : python) (f : form) (d : db)
  (fs : list (option str)) (is_up : bool) :
  let out := save_users py f (open_conn d fs is_up) in
  ((0 < rejected (snd out))%nat -> committed (snd out) = d)
  /\ (committed (snd out) = d
      \/ (fst out, committed (snd out)) = run (save_users py f) d [] is_up).
Proof.
  unfold save_users, date_param. run_handler. unfold_db. simpl.
  repeat case_step; all_or_nothing.
Qed.

Lemma save_storage_atomic (py : python) (f : form) (d : db)
  (fs : list (option str)) (is_up : bool) :
  let out := save_storage py f (open_conn d fs is_up) in
  ((0 < rejected (snd out))%nat -> committed (snd out) = d)
  /\ (committed (snd out) = d
      \/ (fst out, committed (snd out)) = run (save_storage py f) d [] is_up).
Proof.
  unfold save_storage, date_param. run_handler. unfold_db. simpl.
  repeat case_step; all_or_nothing.
Qed.

Lemma save_tickets_atomic (py : python) (data : json) (d : db)
  (fs : list (option str)) (is_up : bool) :
  let out := save_tickets py data (open_conn d fs is_up) in
  ((0 < rejected (snd out))%nat -> committed (snd out) = d)
  /\ (committed (snd out) = d
      \/ (fst out, committed (snd out))
         = run (save_tickets py data) d [] is_up).
Proof.
  unfold save_tickets, date_cast_param, body_get. run_handler. unfold_db.
  simpl.
  repeat case_step; all_or_nothing.
Qed.

Lemma save_config_atomic (py : python) (data : json) (d : db)
  (fs : list (option str)) (is_up : bool) :
  let out := save_config py data (open_conn d fs is_up) in
  ((0 < rejected (snd out))%nat -> committed (snd out) = d)
  /\ (committed (snd out) = d
      \/ (fst out, committed (snd out))
         = run (save_config py data) d [] is_up).
Proof.
  unfold save_config, body_get, body_get_default. run_handler. unfold_db.
  simpl.
  repeat case_step; all_or_nothing.
Qed.

Lemma delete_record_atomic (py : python) (f : form) (d : db)
  (fs : list (option str)) (is_up : bool) :
  let out := delete_record py f (open_conn d fs is_up) in
  ((0 < rejected (snd out))%nat -> committed (snd out) = d)
  /\ (committed (snd out) = d
      \/ (fst out, committed (snd out))
         = run (delete_record py f) d [] is_up).
Proof.
  unfold delete_record, delete_statements, delete_from.
  cbn [delete_loop]. run_handler. unfold_db. simpl.
  repeat case_step; all_or_nothing.
Qed.

Lemma insert_record_atomic (py : python) (f : form) (d : db)
  (fs : list (option str)) (is_up : bool) :
  let out := insert_record py f (open_conn d fs is_up) in
  ((0 < rejected (snd out))%nat -> committed (snd out) = d)
  /\ (committed (snd out) = d
      \/ (fst out, committed (snd out))
         = run (insert_record py f) d [] is_up).
Proof.
  unfold insert_record, insert_config, insert_table, insert_do_nothing,
    insert_row.
  run_handler. unfold_db. simpl.
  repeat case_step; all_or_nothing.
Qed.

(** C4. Every mutating operation (the four edits, the configuration
    upsert, record insert and record delete) stores all of its writes or
    none: when a statement or the commit is rejected nothing of the
    operation is stored, and in every run, whatever is rejected or raised,
    the stored state is either the one before the operation or the one
    the operation produces when nothing is rejected. For [delete_record],
    which catches the error of each DELETE and commits all the same, this
    rests on PostgreSQL refusing the statements that follow a rejected one
    and ending the aborted transaction as a rollback. *)
Theorem mutations_all_or_nothing :
  forall (py : python) (op : operation) (d : db) (fs : list (option str))
         (is_up : bool),
    let out := handle py op (open_conn d fs is_up) in
    ((0 < rejected (snd out))%nat -> committed (snd out) = d)
    /\ (committed (snd out) = d
        \/ (fst out, committed (snd out)) = run (handle py op) d [] is_up).
Proof.
  intros py [f|f|f|data|data|f|f] d fs is_up; simpl.
  - apply save_availability_atomic.
  - apply save_users_atomic.
  - apply save_storage_atomic.
  - apply save_tickets_atomic.
  - apply save_config_atomic.
  - apply insert_record_atomic.
  - apply delete_record_atomic.
Qed.

Lemma mutations_all_or_nothing_witness :
  committed
    (snd (handle sample_python (SaveUsers sample_users_form)
            (open_conn sample_db [None; None; Some (lit "deadlock detected")]
               true)))
  = sample_db.
Proof.
  apply (proj1 (mutations_all_or_nothing sample_python
                  (SaveUsers sample_users_form) sample_db
                  [None; None; Some (lit "deadlock detected")] true)).
  vm_compute. lia.
Defined.


(** ** Report data assembly *)

(** Rounding follows the float, not the decimal that was typed: 0.1 is
    the binary64 number next to it; an availability of 0.69995 is shown
    as 69.99, since the float of 0.69995 times 100 lies below 69.995;
    7 of 2000 GB are 0.3 percent to one place, since the float of 0.35
    lies below 0.35; and 0.07 times 100 is the float above 7. *)
Example float64_examples :
  Qred (float64 (1 # 10)) = (3602879701896397 # 36028797018963968)%Q
  /\ Qred (round_to 2 (default 0%Q (times100 (Some (69995 # 100000)%Q))))
     = (6999 # 100)%Q
  /\ storage_percent 7 2000 = CNum (Some (float64 (3 # 10)))
  /\ Qred (default 0%Q (times100 (Some (7 # 100)%Q)))
     = (7881299347898369 # 1125899906842624)%Q.
Proof. by vm_compute. Qed.

Lemma date_le_spec (a b : date) :
  date_le a b
  <-> year a < year b
      \/ year a = year b
         /\ (month a < month b \/ month a = month b /\ day a <= day b).
Proof.
  unfold date_le, date_leb, date_ltb.
  destruct a as [y1 m1 d1], b as [y2 m2 d2]; simpl.
  rewrite negb_true_iff, orb_false_iff, andb_false_iff, orb_false_iff,
    andb_false_iff.
  rewrite !Z.ltb_ge, !Z.eqb_neq. lia.
Qed.

Global Instance date_le_total : Total date_le.
Proof. intros a b. rewrite !date_le_spec. lia. Qed.

Global Instance date_le_trans : Transitive date_le.
Proof. intros a b c. rewrite !date_le_spec. lia. Qed.

Global Instance date_le_antisym : AntiSymm (=) date_le.
Proof.
  intros [y1 m1 d1] [y2 m2 d2]. rewrite !date_le_spec. simpl.
  intros H1 H2. f_equal; lia.
Qed.

Global Instance row_le_total : Total row_le.
Proof. intros a b. apply date_le_total. Qed.

Global Instance row_le_trans : Transitive row_le.
Proof. intros a b c. apply date_le_trans. Qed.










Lemma NoDup_filter_bool {A : Type} (p : A -> bool) (l : list A) :
  NoDup l -> NoDup (List.filter p l).
Proof.
  induction 1 as [|x l Hx _ IH]; simpl; [constructor|].
  destruct (p x); [|done]. constructor; [|done].
  rewrite list_elem_of_In, filter_In, <- list_elem_of_In. tauto.
Qed.

Lemma unique_is_NoDup (l : list date) : NoDup (unique l).
Proof.
  induction l as [|x l IH]; simpl; [constructor|].
  apply list.NoDup_cons. split.
  - rewrite list_elem_of_In, filter_In. intros [_ H].
    by rewrite bool_decide_true in H.
  - by apply NoDup_filter_bool.
Qed.







Local Opaque merge_sort.


Local Transparent merge_sort.



(** The end-to-end example of the specification: availability 92%, 88%
    and 95% for January to March against the cutoffs 90, 80, 70 gives a
    three-point series ordered January, February, March and the
    classification Color1 for March. *)
Example assemble_end_to_end :
  exists (data : data_dictionary) (cls : classification),
    assemble sample_python [sample_config 2] sample_frame (lit "2025-03-01")
      = Ok (data, cls)
    /\ Months (s2_Production_Availability_Chart (slide2_data data))
       = map lit ["Jan-25"; "Feb-25"; "Mar-25"]%string
    /\ option_map (fun s => (fst s, map (option_map Qred) (snd s)))
         (head (series (s2_Production_Availability_Chart (slide2_data data))))
       = Some (lit "Availability", [Some 92%Q; Some 88%Q; Some 95%Q])
    /\ availability_key cls = Color1.
Proof. eexists _, _. by vm_compute. Qed.





(** * Further properties of the code *)

(** ** Month windows *)

Lemma month_start_leb (a b : date) :
  month_start a -> month_start b ->
  (date_leb a b = true <-> month_index a <= month_index b).
Proof.
  intros (_ & Ha & Hda) (_ & Hb & Hdb).
  change (date_leb a b = true) with (date_le a b). rewrite date_le_spec.
  unfold month_index. lia.
Qed.

Lemma days_in_month_pos (y m : Z) : 28 <= days_in_month y m.
Proof.
  unfold days_in_month.
  repeat match goal with |- context [if ?b then _ else _] => destruct b end;
    lia.
Qed.

Lemma minus_months_index (d s : date) (n : Z) :
  minus_months d n = Ok s ->
  month_index s = month_index d - n
  /\ 1 <= year s <= 9999 /\ 1 <= month s <= 12
  /\ day s = Z.min (day d) (days_in_month (year s) (month s)).
Proof.
  unfold minus_months.
  destruct ((1 <=? (month_index d - n) / 12)
            && ((month_index d - n) / 12 <=? 9999)) eqn:Hy; [|done].
  intros [= <-]. apply andb_true_iff in Hy as [H1 H2].
  apply Z.leb_le in H1, H2. unfold month_index at 1. simpl.
  pose proof (Z.div_mod (month_index d - n) 12).
  pose proof (Z.mod_pos_bound (month_index d - n) 12).
  repeat split; lia.
Qed.

(** X1. Month windows ([relativedelta] and SQL BETWEEN, as
    [fetch_reporting_data] and [fetch_data] combine them). For a month
    start [e] and a length [n] of at least one, the date [n - 1] months
    before [e] exists whenever the subtraction succeeds, is again a month
    start and lies exactly [n - 1] months before [e]; a month start is
    between the two, both ends included, exactly when it is one of the
    [n] months that end at [e]. *)
Theorem window_covers_months :
  forall (e s : date) (n : Z),
    month_start e -> 1 <= n ->
    minus_months e (n - 1) = Ok s ->
    month_start s
    /\ month_index e - month_index s = n - 1
    /\ (forall x : date,
          month_start x ->
          (between s e x = true <-> 0 <= month_index e - month_index x < n)).
Proof.
  intros e s n He Hn Hs.
  apply minus_months_index in Hs as (Hidx & Hy & Hm & Hd).
  assert (Hs : month_start s).
  { repeat split; try lia. destruct He as (_ & _ & Hde). rewrite Hd, Hde.
    pose proof (days_in_month_pos (year s) (month s)). lia. }
  split; [done|]. split; [lia|].
  intros x Hx. unfold between. rewrite andb_true_iff.
  rewrite !month_start_leb by done. lia.
Qed.

Lemma window_covers_months_witness :
  month_start jan
  /\ month_index mar - month_index jan = 2
  /\ between jan mar feb = true.
Proof.
  assert (Hmar : month_start mar) by (unfold month_start; simpl; lia).
  destruct (window_covers_months mar jan 3 Hmar ltac:(lia) eq_refl)
    as (Hs & Hidx & Hin).
  split; [done|]. split; [done|].
  apply Hin; [unfold month_start|unfold month_index]; simpl; lia.
Defined.

(** ** Reading the tables *)

Lemma reporting_prev_months_bounds (py : python) (raw : option str) (n : Z) :
  reporting_prev_months py raw = Ok n -> 1 <= n <= 24.
Proof.
  unfold reporting_prev_months, mbind, result_bind.
  destruct (py_int py (obj raw)) as [k|e].
  - intros [= <-]. lia.
  - destruct (is_class TypeError e || is_class ValueError e); [|done].
    intros [= <-]. lia.
Qed.

(** X2. The reporting page never shows more than 24 months. The
    window length [reporting] takes from a POST lies between 1 and 24
    whatever the form holds; when the customer and the month are given,
    the month parses and no statement is rejected, the page gets the rows
    of that customer whose month lies in the window that ends at the
    month, each once, ordered by month, and the database is unchanged;
    when the month is a month start, every month-start row shown is less
    than 24 months older than it. *)
Theorem reporting_window_is_clamped :
  forall (py : python) (f : form) (d : db) (c m : char) (cs ms : str)
         (e : date) (n : Z),
    form_get f (lit "customer") = Some (c :: cs) ->
    form_get f (lit "month") = Some (m :: ms) ->
    strptime py (JStr (m :: ms)) (lit "%Y-%m-%d") = Ok e ->
    reporting_prev_months py (form_get f (lit "prev_months")) = Ok n ->
    1 <= n <= 24
    /\ forall s : date,
         minus_months e (n - 1) = Ok s ->
         exists rows : list final_row,
           run (reporting_data py f) d [] true = (Ok (n, rows), d)
           /\ Sorted row_le rows
           /\ rows ≡ₚ List.filter
                        (fun r =>
                           bool_decide (customer_name r = c :: cs)
                           && between s e (month_year r))
                        (final_computed_table d)
           /\ (month_start e ->
               forall r : final_row,
                 r ∈ rows -> month_start (month_year r) ->
                 0 <= month_index e - month_index (month_year r) < 24).
Proof.
  intros py f d c m cs ms e n Hc Hm He Hn.
  pose proof (reporting_prev_months_bounds _ _ _ Hn) as Hbounds.
  split; [done|].
  intros s Hs.
  assert (Hperm :
    merge_sort row_le
      (sql_select
         (fun r =>
            text_is (Some (c :: cs)) (customer_name r)
            && between s e (month_year r))
         (final_computed_table d))
    ≡ₚ List.filter
         (fun r =>
            bool_decide (customer_name r = c :: cs)
            && between s e (month_year r))
         (final_computed_table d)).
  { rewrite merge_sort_Permutation. unfold sql_select.
    apply Permutation_refl', filter_ext. intros r.
    by rewrite text_is_Some. }
  eexists. split; [|split; [|split]].
  - unfold reporting_data, fetch_reporting_data, form_get_or_none.
    run_handler. unfold_db. simpl.
    rewrite Hc, Hm, Hn. simpl. rewrite He, Hs. simpl. reflexivity.
  - apply Sorted_merge_sort, _.
  - exact Hperm.
  - intros Hstart r Hr Hmonth. rewrite Hperm in Hr.
    apply list_elem_of_In, filter_In in Hr as [_ Hr].
    apply andb_true_iff in Hr as [_ Hr].
    apply andb_true_iff in Hr as [Hlo Hhi].
    apply minus_months_index in Hs as (Hidx & Hy & Hmo & Hd).
    assert (Hstart' : month_start s).
    { repeat split; try lia. destruct Hstart as (_ & _ & Hde).
      rewrite Hd, Hde.
      pose proof (days_in_month_pos (year s) (month s)). lia. }
    apply month_start_leb in Hlo, Hhi; [|done..]. lia.
Qed.

Lemma reporting_window_is_clamped_witness :
  exists rows : list final_row,
    run (reporting_data sample_python sample_reporting_form) sample_db []
      true = (Ok (24, rows), sample_db)
    /\ Sorted row_le rows.
Proof.
  destruct (reporting_window_is_clamped sample_python sample_reporting_form
              sample_db 97%N 50%N [99%N; 109%N; 101%N]
              [48%N; 50%N; 53%N; 45%N; 48%N; 51%N; 45%N; 48%N; 49%N]
              mar 24
              ltac:(by vm_compute) ltac:(by vm_compute)
              ltac:(by vm_compute) ltac:(by vm_compute)) as [_ Hrows].
  destruct (Hrows (Date 2023 4 1) ltac:(by vm_compute))
    as (rows & Hrun & Hsorted & _).
  by exists rows.
Defined.

Global Instance date_ge_total : Total date_ge.
Proof. intros a b. unfold date_ge. apply (total date_le). Qed.

Global Instance date_ge_trans : Transitive date_ge.
Proof. intros a b c Hab Hbc. unfold date_ge in *. by transitivity b. Qed.

Lemma elem_of_unique (x : date) (l : list date) : x ∈ unique l <-> x ∈ l.
Proof.
  induction l as [|y l IH]; simpl; [done|].
  rewrite !elem_of_cons, <- IH, list_elem_of_In, filter_In,
    <- list_elem_of_In, negb_true_iff, bool_decide_eq_false.
  destruct (decide (x = y)); tauto.
Qed.

(** X3. [get_months] lists every month the customer has an
    aggregate record for, each once, newest first, as ISO dates, and
    changes nothing; when there is no connection, or when the query is
    rejected, it answers the empty list instead of failing. *)
Theorem get_months_lists_each_month_once :
  forall (customer : str) (d : db),
    (exists months : list date,
       run (get_months customer) d [] true = (Ok (map isoformat months), d)
       /\ Sorted date_ge months
       /\ NoDup months
       /\ forall m : date,
            m ∈ months
            <-> exists r : final_row,
                  r ∈ final_computed_table d
                  /\ customer_name r = customer /\ month_year r = m)
    /\ (forall fs : list (option str),
          run (get_months customer) d fs false = (Ok [], d))
    /\ (forall (msg : str) (fs : list (option str)),
          run (get_months customer) d (Some msg :: fs) true = (Ok [], d)).
Proof.
  intros customer d. split; [|split].
  - exists (merge_sort date_ge
              (unique
                 (map month_year
                    (sql_select
                       (fun r => text_is (Some customer) (customer_name r))
                       (final_computed_table d))))).
    split; [|split; [|split]].
    + done.
    + apply Sorted_merge_sort, _.
    + rewrite merge_sort_Permutation. apply unique_is_NoDup.
    + intros m. rewrite merge_sort_Permutation, elem_of_unique.
      rewrite list_elem_of_fmap. unfold sql_select.
      split.
      * intros (r & -> & Hr).
        apply list_elem_of_In, filter_In in Hr as [Hr Hc].
        rewrite text_is_Some in Hc. apply bool_decide_eq_true in Hc.
        exists r. by rewrite <- list_elem_of_In in Hr.
      * intros (r & Hr & Hc & <-). exists r. split; [done|].
        apply list_elem_of_In, filter_In. rewrite <- list_elem_of_In.
        split; [done|]. rewrite text_is_Some. by apply bool_decide_eq_true.
  - done.
  - done.
Qed.

(** ** Record creation, continued *)

Lemma rowcount_existsb {R : Type} (where_ : R -> bool) (t : list R) :
  (0 <? rowcount where_ t) = existsb where_ t.
Proof.
  unfold rowcount. induction t as [|r t IH]; simpl; [done|].
  destruct (where_ r); simpl; [|done]. apply Z.ltb_lt. lia.
Qed.

Lemma fetchone_None {R : Type} (where_ : R -> bool) (t : list R) :
  fetchone (sql_select where_ t) = None ->
  forall r, r ∈ t -> where_ r = false.
Proof.
  unfold fetchone, sql_select. intros Hnone r Hr.
  destruct (where_ r) eqn:Hw; [|done].
  assert (Hin : In r (List.filter where_ t)).
  { apply filter_In. by rewrite <- list_elem_of_In. }
  destruct (List.filter where_ t); [done|discriminate].
Qed.

Lemma existsb_false {R : Type} (p : R -> bool) (t : list R) :
  (forall r, r ∈ t -> p r = false) -> existsb p t = false.
Proof.
  intros H. apply not_true_iff_false. rewrite existsb_exists.
  intros (r & Hr & Hp). apply list_elem_of_In in Hr.
  rewrite H in Hp; done.
Qed.

Lemma full_outer_join_nil {A B : Type} (l1 : list A) (l2 : list B) :
  full_outer_join l1 l2 = [] -> l1 = [] /\ l2 = [].
Proof.
  destruct l1 as [|a l1], l2 as [|b l2]; simpl; done.
Qed.

(** The INSERT ... SELECT of the configuration mode, once the tickets
    table has a row for the customer month. *)
Lemma insert_final_select_creates (customer : str) (month_date : date)
  (csm1 csm2 : str) (d d' : db) :
  sql_select (domain_at (Some customer) (Some month_date))
    (tickets_computed_table d) <> [] ->
  insert_final_select customer month_date csm1 csm2 d = Ok (tt, d') ->
  existsb (final_at (Some customer) (Some month_date))
    (final_computed_table d') = true
  /\ final_computed_table d `prefix_of` final_computed_table d'
  /\ availability_table d' = availability_table d
  /\ users_table d' = users_table d
  /\ storage_table d' = storage_table d
  /\ tickets_computed_table d' = tickets_computed_table d
  /\ customer_mapping_table d' = customer_mapping_table d.
Proof.
  intros Ht. unfold insert_final_select.
  destruct (existsb _ (final_computed_table d)) eqn:Hpresent.
  - intros [= <-]. done.
  - match goal with
    | |- context [map ?g ?j] => destruct (map g j) as [|r [|r' rows]] eqn:Hrows
    end.
    + apply fmap_nil_inv, full_outer_join_nil in Hrows as [_ Hrows]. done.
    + intros [= <-]. simpl. split; [|split; [by eexists|done]].
      apply existsb_final_at_new.
      * destruct (full_outer_join _ _) as [|[aus t0] ?]; [done|].
        simpl in Hrows. by injection Hrows as <- _.
      * destruct (full_outer_join _ _) as [|[aus t0] ?]; [done|].
        simpl in Hrows. by injection Hrows as <- _.
    + done.
Qed.

Lemma insert_do_nothing_present {R : Type} (same_key : R -> bool) (r : R)
  (t : list R) :
  same_key r = true ->
  sql_select same_key (insert_do_nothing same_key r t).1 <> [].
Proof.
  intros Hr. unfold insert_do_nothing, sql_select.
  destruct (existsb same_key t) eqn:Ht; simpl.
  - apply existsb_exists in Ht as (x & Hx & Hp).
    intros Hnil.
    assert (Hin : In x (List.filter same_key t)) by by apply filter_In.
    by rewrite Hnil in Hin.
  - intros Hnil.
    assert (Hin : In r (List.filter same_key (t ++ [r]))).
    { apply filter_In. split; [|done]. apply in_or_app. right. by left. }
    by rewrite Hnil in Hin.
Qed.

Lemma insert_do_nothing_prefix {R : Type} (same_key : R -> bool) (r : R)
  (t : list R) :
  t `prefix_of` (insert_do_nothing same_key r t).1.
Proof.
  unfold insert_do_nothing. destruct (existsb same_key t); simpl.
  - done.
  - by eexists.
Qed.

Lemma domain_at_new {C : Type} (c : str) (m : date) (b u : C) :
  domain_at (Some c) (Some m) (DomainRow c m b u) = true.
Proof.
  unfold domain_at, text_is, date_is. simpl.
  by rewrite !bool_decide_true.
Qed.

(** What a successful configuration-mode insert has stored. *)
Lemma insert_config_success (py : python) (f : form) (d d1 : db)
  (customer : str) (month_date : date) (r1 : response) :
  run (try_except (insert_config py f customer month_date) failure_of) d []
    true = (Ok r1, d1) ->
  success r1 = true ->
  (forall r, r ∈ customer_mapping_table d -> m_customer_name r <> customer)
  /\ (exists row : mapping_row,
        customer_mapping_table d1 = customer_mapping_table d ++ [row]
        /\ m_customer_name row = customer /\ m_month_year row = month_date)
  /\ existsb (final_at (Some customer) (Some month_date))
       (final_computed_table d1) = true
  /\ final_computed_table d `prefix_of` final_computed_table d1
  /\ availability_table d `prefix_of` availability_table d1
  /\ users_table d `prefix_of` users_table d1
  /\ storage_table d `prefix_of` storage_table d1
  /\ tickets_computed_table d `prefix_of` tickets_computed_table d1.
Proof.
  unfold insert_config. run_handler. unfold_db. simpl.
  repeat case_step; intros Hrun Hok; try discriminate;
    injection Hrun as <- <-; try discriminate.
  match goal with
  | H : fetchone _ = None |- _ => pose proof (fetchone_None _ _ H) as Hnew
  end.
  match goal with
  | H : insert_final_select _ _ _ _ _ = Ok (?u, _) |- _ =>
      destruct u;
      apply insert_final_select_creates in H
        as (Hpresent & Hfinal & Ha & Hu & Hs & Ht & Hm);
        [|apply insert_do_nothing_present, domain_at_new]
  end.
  simpl in *. rewrite Ha, Hu, Hs, Ht, Hm.
  assert (Hother : forall r, r ∈ customer_mapping_table d ->
                     m_customer_name r <> customer).
  { intros r Hr Hname. apply Hnew in Hr.
    by rewrite bool_decide_true in Hr. }
  split; [done|]. split.
  - unfold insert_do_update. rewrite existsb_false.
    + eexists. split; [done|]. done.
    + intros r Hr. unfold mapping_at. apply andb_false_iff. left.
      rewrite text_is_Some. apply bool_decide_eq_false. by apply Hother.
  - split; [done|]. split; [done|].
    repeat split; apply insert_do_nothing_prefix.
Qed.

Lemma extends_refl (d : db) : extends d d.
Proof. unfold extends. by split_and!. Qed.

Lemma insert_record_dispatch (py : python) (f : form) (c m : char)
  (cs ms : str) (md : date) :
  form_get f (lit "customer") = Some (c :: cs) ->
  form_get f (lit "month") = Some (m :: ms) ->
  insert_month py (m :: ms) = Ok (Some md) ->
  forall (d : db) (fs : list (option str)) (is_up : bool),
    run (insert_record py f) d fs is_up
    = run (try_except
             (if bool_decide (form_get f (lit "mode") = Some (lit "config"))
              then insert_config py f (c :: cs) md
              else if bool_decide
                        (form_get f (lit "mode") = Some (lit "table"))
              then insert_table py f (c :: cs) md
              else mret (reply false (lit "Invalid mode.")))
             failure_of) d fs is_up.
Proof.
  intros Hc Hm Hmonth d fs is_up. unfold insert_record. run_handler.
  by rewrite Hc, Hm, Hmonth.
Qed.

(** A successful insert, in either mode, leaves the aggregate record of
    the customer month behind and keeps every row that was there. *)
Lemma insert_record_creates_aggregate (py : python) (f : form) (c m : char)
  (cs ms : str) (md : date) (d d1 : db) (r1 : response) :
  form_get f (lit "customer") = Some (c :: cs) ->
  form_get f (lit "month") = Some (m :: ms) ->
  insert_month py (m :: ms) = Ok (Some md) ->
  run (insert_record py f) d [] true = (Ok r1, d1) ->
  success r1 = true ->
  existsb (final_at (Some (c :: cs)) (Some md)) (final_computed_table d1)
  = true
  /\ extends d d1.
Proof.
  intros Hc Hm Hmonth.
  rewrite (insert_record_dispatch py f c m cs ms md) by done.
  destruct (bool_decide (form_get f (lit "mode") = Some (lit "config")));
    [|destruct (bool_decide (form_get f (lit "mode") = Some (lit "table")))].
  - intros Hrun Hok.
    destruct (insert_config_success _ _ _ _ _ _ _ Hrun Hok)
      as (_ & (row & Hrow & _) & Hpresent & Hf & Ha & Hu & Hs & Ht).
    split; [done|]. unfold extends. split_and!; try done.
    rewrite Hrow. by eexists.
  - intros Hrun Hok.
    destruct (insert_table_success _ _ _ _ _ _ _ Hrun Hok)
      as (mr & a & u & s & t & _ & _ & ->).
    split; [by apply existsb_final_at_new|].
    unfold extends. simpl. split_and!; first [reflexivity | by eexists].
  - intros [= <- <-]. done.
Qed.

Lemma check_record_exists_run (py : python) (f : form) (d : db) (c m : char)
  (cs ms : str) (md : date) :
  strip (default [] (form_get f (lit "customer"))) = c :: cs ->
  strip (default [] (form_get f (lit "month"))) = m :: ms ->
  strptime py (JStr (m :: ms)) (lit "%Y-%m-%d") = Ok md ->
  run (check_record_exists py f) d [] true
  = (Ok (Existence true
           (existsb (final_at (Some (c :: cs)) (Some md))
              (final_computed_table d)) None), d).
Proof.
  intros Hc Hm Hd. unfold check_record_exists. run_handler.
  rewrite Hc, Hm, Hd. unfold_db. simpl. by rewrite rowcount_existsb.
Qed.

(** X4. After a successful [insert_record] for a customer month
    (either mode), [check_record_exists] for that customer and the first
    day of that month answers that the record exists, and changes
    nothing. *)
Theorem inserted_record_is_found :
  forall (py : python) (f f' : form) (c m m' : char) (cs ms ms' : str)
         (md : date) (d d1 : db) (r1 : response),
    form_get f (lit "customer") = Some (c :: cs) ->
    form_get f (lit "month") = Some (m :: ms) ->
    insert_month py (m :: ms) = Ok (Some md) ->
    run (insert_record py f) d [] true = (Ok r1, d1) ->
    success r1 = true ->
    strip (default [] (form_get f' (lit "customer"))) = c :: cs ->
    strip (default [] (form_get f' (lit "month"))) = m' :: ms' ->
    strptime py (JStr (m' :: ms')) (lit "%Y-%m-%d") = Ok md ->
    run (check_record_exists py f') d1 [] true
    = (Ok (Existence true true None), d1).
Proof.
  intros py f f' c m m' cs ms ms' md d d1 r1 Hc Hm Hmonth Hrun Hok
    Hc' Hm' Hmonth'.
  destruct (insert_record_creates_aggregate py f c m cs ms md d d1 r1)
    as [Hpresent _]; [done..|].
  rewrite (check_record_exists_run py f' d1 c m' cs ms' md) by done.
  by rewrite Hpresent.
Qed.

Lemma inserted_record_is_found_witness :
  exists (r1 : response) (d1 : db),
    run (insert_record sample_python sample_table_form) sample_db [] true
      = (Ok r1, d1)
    /\ run (check_record_exists sample_python sample_check_april) d1 [] true
       = (Ok (Existence true true None), d1).
Proof.
  destruct (run (insert_record sample_python sample_table_form) sample_db
              [] true) as [[r1|e] d1] eqn:Hrun; [|by vm_compute in Hrun].
  exists r1, d1. split; [done|].
  assert (Hok : success r1 = true).
  { vm_compute in Hrun. by injection Hrun as <- _. }
  exact (inserted_record_is_found sample_python sample_table_form
           sample_check_april 97%N 50%N 50%N [99%N; 109%N; 101%N]
           [48%N; 50%N; 53%N; 45%N; 48%N; 52%N]
           [48%N; 50%N; 53%N; 45%N; 48%N; 52%N; 45%N; 48%N; 49%N]
           apr sample_db d1 r1
           ltac:(by vm_compute) ltac:(by vm_compute) ltac:(by vm_compute)
           Hrun Hok
           ltac:(by vm_compute) ltac:(by vm_compute) ltac:(by vm_compute)).
Defined.

Lemma existsb_pointwise {A : Type} (p q : A -> bool) (l : list A) :
  (forall x, p x = q x) -> existsb p l = existsb q l.
Proof. intros H. induction l as [|x l IH]; simpl; congruence. Qed.

Lemma filter_nil_bool {A : Type} (p : A -> bool) (l : list A) :
  (forall x, x ∈ l -> p x = false) -> List.filter p l = [].
Proof.
  induction l as [|x l IH]; simpl; [done|]. intros H.
  rewrite (H x) by (by left). apply IH. intros y Hy. apply H. by right.
Qed.

(** Once the aggregate record exists, a table-mode insert can neither
    succeed nor write, whatever else happens. *)
Lemma insert_table_present_fails (py : python) (f : form) (customer : str)
  (month_date : date) (d : db) (fs : list (option str)) (is_up : bool) :
  existsb (final_at (Some customer) (Some month_date))
    (final_computed_table d) = true ->
  exists resp : response,
    run (try_except (insert_table py f customer month_date) failure_of) d fs
      is_up = (Ok resp, d)
    /\ success resp = false.
Proof.
  intros Hpresent. unfold insert_table. run_handler. unfold_db. simpl.
  unfold insert_do_nothing.
  repeat case_step; eauto.
Qed.

(** X5. A configuration-mode insert creates the aggregate record
    as well. So after a successful one no month of that customer is
    pending for table data ([get_months_pending_tables] returns the empty
    list), and every table-mode insert for the customer month fails and
    writes nothing, whatever the faults. *)
Theorem configured_month_is_never_pending :
  forall (py : python) (f : form) (c m : char) (cs ms : str) (md : date)
         (d d1 : db) (r1 : response),
    form_get f (lit "mode") = Some (lit "config") ->
    form_get f (lit "customer") = Some (c :: cs) ->
    form_get f (lit "month") = Some (m :: ms) ->
    insert_month py (m :: ms) = Ok (Some md) ->
    run (insert_record py f) d [] true = (Ok r1, d1) ->
    success r1 = true ->
    run (get_months_pending_tables (c :: cs)) d1 [] true = (Ok [], d1)
    /\ forall (f' : form) (m' : char) (ms' : str) (fs : list (option str))
              (is_up : bool),
         form_get f' (lit "mode") = Some (lit "table") ->
         form_get f' (lit "customer") = Some (c :: cs) ->
         form_get f' (lit "month") = Some (m' :: ms') ->
         insert_month py (m' :: ms') = Ok (Some md) ->
         exists resp : response,
           run (insert_record py f') d1 fs is_up = (Ok resp, d1)
           /\ success resp = false.
Proof.
  intros py f c m cs ms md d d1 r1 Hmode Hc Hm Hmonth.
  rewrite (insert_record_dispatch py f c m cs ms md) by done.
  rewrite Hmode, bool_decide_true by done.
  intros Hrun Hok.
  destruct (insert_config_success _ _ _ _ _ _ _ Hrun Hok)
    as (Hnew & (row & Hrow & Hname & Hmon) & Hpresent & _).
  split.
  - unfold get_months_pending_tables. run_handler. unfold_db. simpl.
    unfold sql_select. rewrite filter_nil_bool; [done|].
    intros r Hr. rewrite Hrow in Hr.
    apply elem_of_app in Hr as [Hr|Hr].
    + apply andb_false_iff. left. apply bool_decide_eq_false.
      intros Heq. by apply (Hnew r).
    + apply list_elem_of_singleton in Hr as ->.
      apply andb_false_iff. right. unfold pending.
      apply negb_false_iff. rewrite Hname, Hmon.
      rewrite <- Hpresent. apply existsb_pointwise.
      intros a. unfold final_at. by rewrite text_is_Some, date_is_Some.
  - intros f' m' ms' fs is_up Hmode' Hc' Hm' Hmonth'.
    rewrite (insert_record_dispatch py f' c m' cs ms' md) by done.
    rewrite Hmode', bool_decide_false, bool_decide_true by done.
    by apply insert_table_present_fails.
Qed.

Lemma configured_month_is_never_pending_witness :
  exists (r1 : response) (d1 : db),
    run (insert_record sample_python sample_config_form) sample_db [] true
      = (Ok r1, d1)
    /\ run (get_months_pending_tables newco) d1 [] true = (Ok [], d1)
    /\ exists resp : response,
         run (insert_record sample_python sample_newco_table_form) d1 []
           true = (Ok resp, d1)
         /\ success resp = false.
Proof.
  destruct (run (insert_record sample_python sample_config_form) sample_db
              [] true) as [[r1|e] d1] eqn:Hrun; [|by vm_compute in Hrun].
  exists r1, d1. split; [done|].
  assert (Hok : success r1 = true).
  { vm_compute in Hrun. by injection Hrun as <- _. }
  destruct (configured_month_is_never_pending sample_python
              sample_config_form 110%N 50%N [101%N; 119%N; 99%N; 111%N]
              [48%N; 50%N; 53%N; 45%N; 48%N; 53%N] may sample_db d1 r1
              ltac:(by vm_compute) ltac:(by vm_compute)
              ltac:(by vm_compute) ltac:(by vm_compute) Hrun Hok)
    as [Hpending Htable].
  split; [done|].
  exact (Htable sample_newco_table_form 50%N
           [48%N; 50%N; 53%N; 45%N; 48%N; 53%N] [] true
           ltac:(by vm_compute) ltac:(by vm_compute)
           ltac:(by vm_compute) ltac:(by vm_compute)).
Defined.

Lemma insert_config_extends (py : python) (f : form) (customer : str)
  (month_date : date) (d : db) (is_up : bool) :
  extends d
    (run (try_except (insert_config py f customer month_date) failure_of) d
       [] is_up).2.
Proof.
  unfold insert_config. run_handler. unfold_db. simpl.
  repeat case_step; try apply extends_refl.
  all: match goal with
       | H : fetchone _ = None |- _ =>
           pose proof (fetchone_None _ _ H) as Hnew
       end.
  all: match goal with
       | H : insert_final_select _ _ _ _ _ = Ok (?u, _) |- _ =>
           destruct u;
           apply insert_final_select_creates in H
             as (_ & Hfinal & Ha & Hu & Hs & Ht & Hm);
             [|apply insert_do_nothing_present, domain_at_new]
       end.
  all: simpl in *; unfold extends; rewrite Ha, Hu, Hs, Ht, Hm.
  all: split_and!; try done; try apply insert_do_nothing_prefix.
  all: unfold insert_do_update; rewrite existsb_false; [by eexists|].
  all: intros r Hr; apply Hnew in Hr; unfold mapping_at, text_is.
  all: apply andb_false_iff; by left.
Qed.

Lemma insert_table_extends (py : python) (f : form) (customer : str)
  (month_date : date) (d : db) (is_up : bool) :
  extends d
    (run (try_except (insert_table py f customer month_date) failure_of) d
       [] is_up).2.
Proof.
  unfold insert_table, insert_do_nothing, insert_row.
  run_handler. unfold_db. simpl.
  repeat case_step; try apply extends_refl.
  all: unfold extends; simpl; split_and!; first [reflexivity|by eexists].
Qed.

Local Opaque insert_config insert_table.

Lemma insert_record_extends_free (py : python) (f : form) (d : db)
  (is_up : bool) :
  extends d (run (insert_record py f) d [] is_up).2.
Proof.
  unfold insert_record. unfold run at 1. unfold try_except at 1.
  unfold mbind, M_bind, bind, lift, mret, M_ret, ret.
  repeat case_step; try apply extends_refl.
  - apply (insert_config_extends py f _ _ d is_up).
  - apply (insert_table_extends py f _ _ d is_up).
Qed.

Local Transparent insert_config insert_table.

(** X6. [insert_record] only appends. In every run, whatever the
    form, the faults and the connection, each of the six tables
    afterwards starts with the rows it held before, in their order and
    unchanged: the insert never updates and never removes a row (the
    update branch of the configuration upsert cannot fire). *)
Theorem insert_record_only_appends :
  forall (py : python) (f : form) (d : db) (fs : list (option str))
         (is_up : bool),
    extends d (committed (insert_record py f (open_conn d fs is_up)).2).
Proof.
  intros py f d fs is_up.
  pose proof (insert_record_atomic py f d fs is_up) as Hatomic.
  cbv zeta in Hatomic. destruct Hatomic as [_ [->|Hfree]].
  - apply extends_refl.
  - apply (f_equal snd) in Hfree. simpl in Hfree. rewrite Hfree.
    apply insert_record_extends_free.
Qed.

(** ** Deletion, continued *)

(** The runs of [delete_record] in which no statement is rejected: either
    nothing is stored, or the rows of the customer and the normalised
    month are removed from every table. *)
Lemma delete_record_free_cases (py : python) (f : form) (d : db)
  (is_up : bool) :
  let customer := strip (default [] (form_get f (lit "customer"))) in
  let d1 := (run (delete_record py f) d [] is_up).2 in
  d1 = d
  \/ exists month_date : date,
       normalize_month py (default [] (form_get f (lit "month")))
       = Ok month_date
       /\ d1
          = Db (sql_delete (final_at (Some customer) (Some month_date))
                  (final_computed_table d))
               (sql_delete (domain_at (Some customer) (Some month_date))
                  (availability_table d))
               (sql_delete (domain_at (Some customer) (Some month_date))
                  (users_table d))
               (sql_delete (domain_at (Some customer) (Some month_date))
                  (storage_table d))
               (sql_delete (domain_at (Some customer) (Some month_date))
                  (tickets_computed_table d))
               (sql_delete
                  (fun r =>
                     bool_decide (pg_lower py (pg_trim (m_customer_name r))
                                  = pg_lower py (pg_trim customer))
                     && date_is (Some month_date) (m_month_year r))
                  (customer_mapping_table d)).
Proof.
  unfold delete_record, delete_statements, delete_from.
  cbn [delete_loop]. run_handler. unfold_db. simpl.
  repeat case_step; first [by left | right; eexists; split; done].
Qed.

Lemma normalize_month_first_day (py : python) (month_raw : str)
  (month_date : date) :
  (forall d : date,
     strptime py (JStr (strip month_raw ++ lit "-01")) (lit "%Y-%m-%d")
     = Ok d -> day d = 1) ->
  normalize_month py month_raw = Ok month_date ->
  day month_date = 1.
Proof.
  intros Hlib. unfold normalize_month, attempt, mbind, result_bind.
  destruct (strptime py (JStr (strip month_raw)) (lit "%Y-%m-%d"));
    [by intros [= <-]|].
  destruct (strptime py (JStr (strip month_raw)) (lit "%Y-%m-%dT%H:%M:%S"));
    [by intros [= <-]|].
  destruct (strptime py (JStr (strip month_raw)) (lit "%Y-%m-%d %H:%M:%S"));
    [by intros [= <-]|].
  destruct (re_month py (strip month_raw)).
  - destruct (strptime py (JStr (strip month_raw ++ lit "-01")) _) eqn:Hd;
      [|done].
    intros [= <-]. by apply Hlib.
  - destruct (strptime py (JStr (strip month_raw)) (lit "%m/%d/%Y"));
      [by intros [= <-]|].
    destruct (fromisoformat py (strip month_raw)); [by intros [= <-]|done].
Qed.

Lemma sql_delete_keeps {R : Type} (where_ : R -> bool) (t : list R) (r : R) :
  r ∈ t -> where_ r = false -> r ∈ sql_delete where_ t.
Proof.
  intros Hr Hw. unfold sql_delete.
  apply list_elem_of_In, filter_In. rewrite <- list_elem_of_In.
  by rewrite Hw.
Qed.

Lemma key_differs (c : str) (m : date) (name : str) (mon : date) :
  name <> c \/ day mon <> day m ->
  text_is (Some c) name && date_is (Some m) mon = false.
Proof.
  rewrite text_is_Some, date_is_Some. intros [H|H].
  - by rewrite bool_decide_false.
  - rewrite (bool_decide_false (mon = m)) by congruence.
    apply andb_false_r.
Qed.

(** X7. [delete_record] is confined to the customer month it
    names. With a [strptime] that, given a text ending in [-01], returns
    a first day of a month: in every run no row of another customer is
    removed from the aggregate table and the four domain tables, and no
    row whose date is not the first day of a month is removed from any
    of the six tables. *)
Theorem delete_record_is_confined :
  forall (py : python) (f : form) (d : db) (fs : list (option str))
         (is_up : bool),
    let customer := strip (default [] (form_get f (lit "customer"))) in
    let month_raw := default [] (form_get f (lit "month")) in
    let d1 := committed (delete_record py f (open_conn d fs is_up)).2 in
    (forall dd : date,
       strptime py (JStr (strip month_raw ++ lit "-01")) (lit "%Y-%m-%d")
       = Ok dd -> day dd = 1) ->
    (forall r, r ∈ final_computed_table d ->
       customer_name r <> customer \/ day (month_year r) <> 1 ->
       r ∈ final_computed_table d1)
    /\ (forall r, r ∈ availability_table d ->
          d_customer_name r <> customer \/ day (d_month_year r) <> 1 ->
          r ∈ availability_table d1)
    /\ (forall r, r ∈ users_table d ->
          d_customer_name r <> customer \/ day (d_month_year r) <> 1 ->
          r ∈ users_table d1)
    /\ (forall r, r ∈ storage_table d ->
          d_customer_name r <> customer \/ day (d_month_year r) <> 1 ->
          r ∈ storage_table d1)
    /\ (forall r, r ∈ tickets_computed_table d ->
          d_customer_name r <> customer \/ day (d_month_year r) <> 1 ->
          r ∈ tickets_computed_table d1)
    /\ (forall r, r ∈ customer_mapping_table d ->
          day (m_month_year r) <> 1 -> r ∈ customer_mapping_table d1).
Proof.
  intros py f d fs is_up customer month_raw d1 Hlib.
  assert (Hcases : d1 = d \/ d1 = (run (delete_record py f) d [] is_up).2).
  { pose proof (delete_record_atomic py f d fs is_up) as Hatomic.
    cbv zeta in Hatomic. destruct Hatomic as [_ [H|H]]; [by left|].
    right. by apply (f_equal snd) in H. }
  clearbody d1.
  destruct Hcases as [Hd1|Hd1]; rewrite Hd1; [by split_and!|].
  destruct (delete_record_free_cases py f d is_up)
    as [Hfree|(month_date & Hmonth & Hfree)]; rewrite Hfree;
    [by split_and!|].
  apply normalize_month_first_day in Hmonth; [|done].
  fold customer. simpl.
  split_and!; intros r Hr Hother; apply sql_delete_keeps; try done.
  1: unfold final_at. 2-5: unfold domain_at.
  1-5: apply key_differs; rewrite Hmonth; tauto.
  apply andb_false_iff. right. unfold date_is.
  apply bool_decide_eq_false. congruence.
Qed.

Lemma delete_record_is_confined_witness :
  sample_final_row (lit "other") mar 70
  ∈ final_computed_table
      (committed
         (delete_record sample_python sample_delete_month_form
            (open_conn sample_db [] true)).2).
Proof.
  assert (Hday : forall dd : date,
            strptime sample_python
              (JStr (strip (default [] (form_get sample_delete_month_form
                                          (lit "month"))) ++ lit "-01"))
              (lit "%Y-%m-%d") = Ok dd -> day dd = 1).
  { intros dd Hdd. vm_compute in Hdd. by injection Hdd as <-. }
  destruct (delete_record_is_confined sample_python sample_delete_month_form
              sample_db [] true Hday) as [Hfinal _].
  apply Hfinal.
  - unfold sample_db. simpl. set_solver.
  - left. by vm_compute.
Defined.

Lemma sql_delete_none {R : Type} (where_ : R -> bool) (t : list R) :
  existsb where_ (sql_delete where_ t) = false.
Proof.
  apply existsb_false. intros r Hr. unfold sql_delete in Hr.
  apply list_elem_of_In, filter_In in Hr as [_ Hr].
  by apply negb_true_iff in Hr.
Qed.

Lemma fetchone_existsb {R : Type} (where_ : R -> bool) (t : list R) :
  existsb where_ t = false -> fetchone (sql_select where_ t) = None.
Proof.
  intros H. unfold fetchone, sql_select.
  rewrite filter_nil_bool; [done|].
  intros r Hr. destruct (where_ r) eqn:Hw; [|done].
  assert (existsb where_ t = true); [|congruence].
  apply existsb_exists. exists r. by rewrite <- list_elem_of_In.
Qed.

(** X8. After a fault-free [delete_record] of a customer month
    that had an aggregate record, [check_record_exists] answers that no
    record exists. The same delete request again fails and changes
    nothing; its answer is the database error with status 500, not the
    answer 404 of the branch for a missing record, because the server
    rejects the second look-up of that branch. *)
Theorem deleted_record_is_gone :
  forall (py : python) (f f' : form) (d : db) (c m m' : char)
         (cs ms ms' : str) (md : date) (r0 : final_row),
    strip (default [] (form_get f (lit "customer"))) = c :: cs ->
    default [] (form_get f (lit "month")) = m :: ms ->
    normalize_month py (m :: ms) = Ok md ->
    fetchone (sql_select (final_at (Some (c :: cs)) (Some md))
                (final_computed_table d)) = Some r0 ->
    let d1 := (run (delete_record py f) d [] true).2 in
    (strip (default [] (form_get f' (lit "customer"))) = c :: cs ->
     strip (default [] (form_get f' (lit "month"))) = m' :: ms' ->
     strptime py (JStr (m' :: ms')) (lit "%Y-%m-%d") = Ok md ->
     run (check_record_exists py f') d1 [] true
     = (Ok (Existence true false None), d1))
    /\ (exists resp : response,
          run (delete_record py f) d1 [] true = (Ok resp, d1)
          /\ success resp = false /\ status resp = 500
          /\ deleted_counts resp = None).
Proof.
  intros py f f' d c m m' cs ms ms' md r0 Hc Hm Hnorm Hfound d1.
  assert (Hgone : existsb (final_at (Some (c :: cs)) (Some md))
                    (final_computed_table d1) = false).
  { subst d1. unfold delete_record. run_handler. rewrite Hc, Hm, Hnorm.
    unfold_db. simpl. rewrite Hfound. simpl. apply sql_delete_none. }
  clearbody d1. split.
  - intros Hc' Hm' Hmonth'.
    rewrite (check_record_exists_run py f' d1 c m' cs ms' md) by done.
    by rewrite Hgone.
  - apply fetchone_existsb in Hgone.
    unfold delete_record. run_handler. rewrite Hc, Hm, Hnorm.
    unfold_db. simpl. rewrite Hgone. simpl. eexists. by split_and!.
Qed.

Lemma deleted_record_is_gone_witness :
  let d1 := (run (delete_record sample_python sample_delete_form) sample_db
               [] true).2 in
  run (check_record_exists sample_python sample_check_march) d1 [] true
  = (Ok (Existence true false None), d1)
  /\ exists resp : response,
       run (delete_record sample_python sample_delete_form) d1 [] true
       = (Ok resp, d1)
       /\ status resp = 500.
Proof.
  intros d1.
  destruct (deleted_record_is_gone sample_python sample_delete_form
              sample_check_march sample_db 97%N 50%N 50%N
              [99%N; 109%N; 101%N]
              [48%N; 50%N; 53%N; 45%N; 48%N; 51%N; 45%N; 48%N; 49%N]
              [48%N; 50%N; 53%N; 45%N; 48%N; 51%N; 45%N; 48%N; 49%N]
              mar (sample_final_row acme mar 95)
              ltac:(by vm_compute) ltac:(by vm_compute)
              ltac:(by vm_compute) ltac:(by vm_compute))
    as [Hcheck Hagain].
  split; [apply Hcheck; by vm_compute|].
  destruct Hagain as (resp & Hrun & _ & Hstatus & _). by exists resp.
Defined.

(** ** Edits in place *)

Lemma save_availability_free_cases (py : python) (f : form) (d : db)
  (is_up : bool) :
  let c := form_get f (lit "customer") in
  let d1 := (run (save_availability py f) d [] is_up).2 in
  d1 = d
  \/ exists (cols : availability_cols) (m : option date),
       date_param py (form_get f (lit "month")) = Ok m
       /\ d1
          = with_availability
              (sql_update (domain_at c m) (set_updated (fun _ => cols)))
              (with_final (sql_update (final_at c m) (set_availability cols))
                 d).
Proof.
  unfold save_availability, date_param. run_handler. unfold_db. simpl.
  repeat case_step; first [by left | right; eexists _, _; split; done].
Qed.

Lemma date_param_Some (py : python) (month0 : option str) (m : option date)
  (md : date) :
  date_param py month0 = Ok m -> date_is m md = true ->
  exists mtext : str, month0 = Some mtext /\ pg_date py mtext = Ok md.
Proof.
  unfold date_param, mbind, result_bind.
  destruct month0 as [mtext|]; [|by intros [= <-]].
  destruct (pg_date py mtext) as [md'|e] eqn:Hd; [|done].
  intros [= <-]. rewrite date_is_Some. intros H.
  apply bool_decide_eq_true in H as <-. by exists mtext.
Qed.

Lemma text_is_true (param : option str) (column : str) :
  text_is param column = true -> param = Some column.
Proof.
  destruct param as [s|]; [|done]. rewrite text_is_Some.
  intros H. by apply bool_decide_eq_true in H as <-.
Qed.

Lemma sql_update_only_edits {R C : Type} (cols : R -> C) (put : C -> R -> R)
  (where_ : R -> bool) (set : R -> R) (t : list R) :
  (forall r : R, put (cols r) r = r) ->
  (forall r : R, set r = put (cols (set r)) r) ->
  only_edits cols put (fun r => where_ r = true) t (sql_update where_ set t).
Proof.
  intros Hid Hset. unfold only_edits, sql_update.
  apply Forall2_fmap_r, Forall_Forall2_diag, list.Forall_forall.
  intros r _. unfold compose. cbv beta.
  destruct (where_ r); [by split|]. by split.
Qed.

Lemma only_edits_refl {R C : Type} (cols : R -> C) (put : C -> R -> R)
  (at_ : R -> Prop) (t : list R) :
  (forall r : R, put (cols r) r = r) -> only_edits cols put at_ t t.
Proof.
  intros Hid. apply Forall_Forall2_diag, list.Forall_forall.
  intros r _. by split.
Qed.

Lemma only_edits_weaken {R C : Type} (cols : R -> C) (put : C -> R -> R)
  (at1 at2 : R -> Prop) (t t' : list R) :
  (forall r : R, at1 r -> at2 r) ->
  only_edits cols put at1 t t' -> only_edits cols put at2 t t'.
Proof.
  intros Himp Hedits. unfold only_edits.
  eapply Forall2_impl; [exact Hedits|].
  intros r r' [H1 H2]. split; [done|].
  intros H. by apply Himp, H2.
Qed.

(** X9. [save_availability] refuses a percentage above 100 and edits
    nothing but the availability of the customer month. When the
    availability and the target parse and one of them is a number above
    100, the answer is the failure message and the database is unchanged
    in every run. In every run, whatever the form holds and whatever is
    rejected, a row can change only in the aggregate table and the
    availability table, only when it is a row of the customer and the
    month the form names, and only in its two availability columns; the
    other four tables stay as they were. *)
Theorem availability_above_100_is_refused :
  forall (py : python) (f : form) (d : db),
    (forall a t : Q,
       py_float py (obj (form_get f (lit "availability"))) = Ok a ->
       py_float py (obj (form_get f (lit "target"))) = Ok t ->
       Qgtb a 100 || Qgtb t 100 = true ->
       forall (fs : list (option str)) (is_up : bool),
         run (save_availability py f) d fs is_up
         = (Ok (reply false
                  (lit "Values must be " ++ [8804%N] ++ lit " 100")), d))
    /\ (forall (fs : list (option str)) (is_up : bool),
          let d' := (run (save_availability py f) d fs is_up).2 in
          let named (c : str) (m : date) :=
            form_get f (lit "customer") = Some c
            /\ exists mtext : str,
                 form_get f (lit "month") = Some mtext
                 /\ pg_date py mtext = Ok m in
          only_edits updated_availability_cols set_availability
            (fun r => named (customer_name r) (month_year r))
            (final_computed_table d) (final_computed_table d')
          /\ only_edits updated (fun u => set_updated (fun _ => u))
               (fun r => named (d_customer_name r) (d_month_year r))
               (availability_table d) (availability_table d')
          /\ users_table d' = users_table d
          /\ storage_table d' = storage_table d
          /\ tickets_computed_table d' = tickets_computed_table d
          /\ customer_mapping_table d' = customer_mapping_table d).
Proof.
  intros py f d. split.
  - intros a t Ha Ht Hbig fs is_up. unfold save_availability. run_handler.
    rewrite Ha, Ht. simpl. by rewrite Hbig.
  - intros fs is_up d' named.
    assert (Hsame :
      forall d0 : db, d0 = d ->
        only_edits updated_availability_cols set_availability
          (fun r => named (customer_name r) (month_year r))
          (final_computed_table d) (final_computed_table d0)
        /\ only_edits updated (fun u => set_updated (fun _ => u))
             (fun r => named (d_customer_name r) (d_month_year r))
             (availability_table d) (availability_table d0)
        /\ users_table d0 = users_table d
        /\ storage_table d0 = storage_table d
        /\ tickets_computed_table d0 = tickets_computed_table d
        /\ customer_mapping_table d0 = customer_mapping_table d).
    { intros d0 ->. split_and!; try done.
      - apply only_edits_refl. by intros [].
      - apply only_edits_refl. by intros []. }
    assert (Hcases :
      d' = d \/ d' = (run (save_availability py f) d [] is_up).2).
    { subst d'. unfold run.
      pose proof (save_availability_atomic py f d fs is_up) as H.
      cbv zeta in H. destruct H as [_ [H|H]].
      - left. by destruct (save_availability py f (open_conn d fs is_up)).
      - right. apply (f_equal snd) in H.
        by destruct (save_availability py f (open_conn d fs is_up)). }
    clearbody d'. destruct Hcases as [->| ->]; [by apply Hsame|].
    pose proof (save_availability_free_cases py f d is_up) as H.
    cbv zeta in H. destruct H as [->|(cols & m & Hm & ->)];
      [by apply Hsame|].
    destruct d as [fin av us st ti ma]. simpl. split_and!; try done.
    + eapply only_edits_weaken;
        [|apply sql_update_only_edits; by intros []].
      intros r Hr. cbv beta in Hr. unfold final_at in Hr.
      apply andb_true_iff in Hr as [Hc Hd]. split.
      * by apply text_is_true.
      * by apply (date_param_Some py _ m).
    + eapply only_edits_weaken;
        [|apply sql_update_only_edits; by intros []].
      intros r Hr. cbv beta in Hr. unfold domain_at in Hr.
      apply andb_true_iff in Hr as [Hc Hd]. split.
      * by apply text_is_true.
      * by apply (date_param_Some py _ m).
Qed.

Lemma availability_above_100_is_refused_witness :
  run (save_availability sample_python sample_availability_form) sample_db
    [] true
  = (Ok (reply false (lit "Values must be " ++ [8804%N] ++ lit " 100")),
     sample_db).
Proof.
  destruct (availability_above_100_is_refused sample_python
              sample_availability_form sample_db) as [Hrefused _].
  exact (Hrefused (inject_Z 120) (inject_Z 90) ltac:(by vm_compute)
           ltac:(by vm_compute) ltac:(by vm_compute) [] true).
Defined.

(** ** Configuration upsert, continued *)

Lemma sql_update_none {R : Type} (where_ : R -> bool) (set : R -> R)
  (t : list R) :
  existsb where_ t = false -> sql_update where_ set t = t.
Proof.
  unfold sql_update. induction t as [|r t IH]; simpl; [done|].
  intros H. apply orb_false_iff in H as [-> H]. f_equal. by apply IH.
Qed.

Local Opaque validate_notes_limits.

(** What [save_config] stores for a request that passes its checks. *)
Lemma save_config_run (py : python) (items : list (str * json)) (c : str)
  (m0 : date) (texts : list str) (full new_uid : str) (d : db) :
  passes_validation py items c m0 texts full new_uid ->
  exists t1 t2 t3 t4 t5 t6 t7 t8 : str,
    texts = [t1; t2; t3; t4; t5; t6; t7; t8]
    /\ run (save_config py (JObj items)) d [] true
       = (Ok config_saved,
          Db (sql_update (final_at (Some c) (Some m0))
                (set_csm (field_value items (lit "csm_primary"))
                   (field_value items (lit "csm_secondary")))
                (final_computed_table d))
             (availability_table d) (users_table d) (storage_table d)
             (tickets_computed_table d)
             (sql_update (mapping_at (Some c) (Some m0))
                (set_config (JStr full)
                   (field_value items (lit "csm_primary"))
                   (field_value items (lit "csm_secondary"))
                   (uid_array_of
                      (fetchone
                         (sql_select (mapping_at (Some c) (Some m0))
                            (customer_mapping_table d))) new_uid)
                   (field_value items (lit "no_of_envs"))
                   (field_value items (lit "no_of_months"))
                   (Some t1) (Some t2) (Some t3) (Some t4) (Some t5)
                   (Some t6) (Some t7) (Some t8)
                   (field_value items (lit "customer_note")))
                (customer_mapping_table d))).
Proof.
  intros (Hc & Hm & Hfields & Hnotes & Hfull & Huid).
  unfold config_json_fields in Hfields. simpl in Hfields.
  repeat (apply Forall2_cons_inv_l in Hfields as (? & ? & ? & Hfields & ->)).
  apply Forall2_nil_inv_l in Hfields as ->.
  cbn [drop] in Hnotes.
  repeat match goal with
  | H : Forall _ (_ :: _) |- _ => apply list.Forall_cons in H as [[? ?] H]
  end.
  eexists _, _, _, _, _, _, _, _. split; [done|].
  unfold save_config. run_handler. rewrite !body_get_field. simpl.
  rewrite Hm. simpl.
  repeat match goal with
  | H : safe_json _ _ = Ok _ |- _ => rewrite H; clear H
  end.
  simpl.
  repeat match goal with
  | H : validate_notes_limits _ _ = Ok _ |- _ => rewrite H; clear H
  end.
  simpl. unfold mbind, result_bind in Hfull, Huid.
  unfold body_get_default, mbind, result_bind in *. simpl in *.
  rewrite Hfull, Huid. simpl. rewrite Hc. unfold_db. simpl.
  unfold uid_array_of.
  destruct (fetchone _) as [r|]; simpl;
    [destruct (m_customer_uid r) as [[|u us]|]|];
    destruct new_uid; simpl; rewrite ?app_nil_r; reflexivity.
Qed.

Local Transparent validate_notes_limits.

(** X10. [save_config] updates, it never inserts. For a request
    that passes its checks and names a customer month that has neither a
    configuration row nor an aggregate record, a fault-free run answers
    success and leaves the database exactly as it was. *)
Theorem save_config_creates_no_record :
  forall (py : python) (items : list (str * json)) (c : str) (m0 : date)
         (texts : list str) (full new_uid : str) (d : db),
    passes_validation py items c m0 texts full new_uid ->
    existsb (mapping_at (Some c) (Some m0)) (customer_mapping_table d)
    = false ->
    existsb (final_at (Some c) (Some m0)) (final_computed_table d) = false ->
    run (save_config py (JObj items)) d [] true = (Ok config_saved, d).
Proof.
  intros py items c m0 texts full new_uid d Hvalid Hmapping Hfinal.
  destruct (save_config_run py items c m0 texts full new_uid d Hvalid)
    as (t1 & t2 & t3 & t4 & t5 & t6 & t7 & t8 & _ & ->).
  rewrite !sql_update_none by done. by destruct d.
Qed.

Ltac check_sample_body :=
  unfold passes_validation; split_and!;
  [ by vm_compute | by vm_compute
  | unfold config_json_fields; cbn [map replicate];
    repeat (constructor; [by vm_compute|]); constructor
  | cbn [drop replicate];
    repeat (constructor;
            [by exists (match validate_notes_limits sample_python
                                (Some (lit "{}")) with
                        | Ok (_, msg) => msg
                        | Raise _ => None
                        end)|]);
    constructor
  | by vm_compute | by vm_compute ].

Lemma save_config_creates_no_record_witness :
  run (save_config sample_python
         (JObj (sample_valid_body newco (lit "2025-05-01") (lit "U-7"))))
    sample_db [] true
  = (Ok config_saved, sample_db).
Proof.
  apply (save_config_creates_no_record sample_python _ newco may
           (replicate 8 (lit "{}")) [] (lit "U-7")).
  - check_sample_body.
  - by vm_compute.
  - by vm_compute.
Defined.

Lemma sql_update_elem {R : Type} (where_ : R -> bool) (set : R -> R)
  (t : list R) (r' : R) :
  (forall r, where_ (set r) = where_ r) ->
  r' ∈ sql_update where_ set t -> where_ r' = true ->
  exists r, r ∈ t /\ where_ r = true /\ r' = set r.
Proof.
  intros Hkey Hr' Hw. unfold sql_update in Hr'.
  apply list_elem_of_fmap in Hr' as (r & -> & Hr).
  exists r. destruct (where_ r) eqn:Hwr; [done|congruence].
Qed.

(** X11. [save_config] appends the new customer identifier. For a
    request that passes its checks, a fault-free run answers success,
    keeps the number of configuration rows, and every configuration row
    of the customer month then holds the identifiers the first such row
    held before, followed by the new identifier when one was given. *)
Theorem save_config_appends_identifier :
  forall (py : python) (items : list (str * json)) (c : str) (m0 : date)
         (texts : list str) (full new_uid : str) (d : db),
    passes_validation py items c m0 texts full new_uid ->
    exists d1 : db,
      run (save_config py (JObj items)) d [] true = (Ok config_saved, d1)
      /\ length (customer_mapping_table d1)
         = length (customer_mapping_table d)
      /\ forall r' : mapping_row,
           r' ∈ customer_mapping_table d1 ->
           m_customer_name r' = c -> m_month_year r' = m0 ->
           m_customer_uid r'
           = Some (default []
                     (fetchone
                        (sql_select (mapping_at (Some c) (Some m0))
                           (customer_mapping_table d))
                      ≫= m_customer_uid)
                   ++ match new_uid with [] => [] | _ => [new_uid] end).
Proof.
  intros py items c m0 texts full new_uid d Hvalid.
  destruct (save_config_run py items c m0 texts full new_uid d Hvalid)
    as (t1 & t2 & t3 & t4 & t5 & t6 & t7 & t8 & _ & ->).
  eexists. split; [done|]. simpl. split.
  - unfold sql_update. by rewrite length_map.
  - intros r' Hr' Hname Hmonth.
    apply sql_update_elem in Hr' as (r & _ & _ & ->); [done|done|].
    unfold mapping_at. rewrite text_is_Some, date_is_Some.
    by rewrite !bool_decide_true.
Qed.

Lemma save_config_appends_identifier_witness :
  exists d1 : db,
    run (save_config sample_python
           (JObj (sample_valid_body acme (lit "2025-03-01") (lit "U-7"))))
      sample_db [] true
    = (Ok config_saved, d1)
    /\ forall r' : mapping_row,
         r' ∈ customer_mapping_table d1 ->
         m_customer_name r' = acme -> m_month_year r' = mar ->
         m_customer_uid r' = Some [lit "U-7"].
Proof.
  destruct (save_config_appends_identifier sample_python
              (sample_valid_body acme (lit "2025-03-01") (lit "U-7"))
              acme mar (replicate 8 (lit "{}")) [] (lit "U-7") sample_db
              ltac:(check_sample_body))
    as (d1 & Hrun & _ & Huid).
  exists d1. split; [done|]. exact Huid.
Defined.

(** ** Sessions *)

Lemma session_keys_differ :
  lit "_flashes" <> lit "username"
  /\ lit "_permanent" <> lit "username"
  /\ lit "last_activity" <> lit "username"
  /\ lit "password" <> lit "username"
  /\ lit "_flashes" <> lit "last_activity"
  /\ lit "_permanent" <> lit "last_activity".
Proof. split_and!; by vm_compute. Qed.

Lemma check_session_endpoint_unchecked :
  bool_decide (Some (lit "check_session") ∈ unchecked_endpoints) = true.
Proof. by vm_compute. Qed.

(** X12. Polling [check_session] never extends a session. When
    Flask serves the endpoint, [before_request_handler] lets it through
    untouched, and the session afterwards is the session before, except
    when the stored last activity lies more than thirty minutes back:
    then the session is emptied and the answer is 401 with the reason
    [expired]. *)
Theorem session_poll_never_extends :
  forall (ck : clock) (now now' t : Z) (s s' : session) (p : page),
    serve ck (lit "check_session") now now' (check_session ck t) s
    = Ok (p, s') ->
    s' = s
    \/ (s' = ∅
        /\ p = Json 401 [(lit "valid", JBool false);
                         (lit "reason", JStr (lit "expired"))]
        /\ exists (x : str) (t0 : Z),
             s !! lit "last_activity" = Some (JStr x)
             /\ dt_fromisoformat ck x = Ok t0
             /\ thirty_minutes < t - t0).
Proof.
  intros ck now now' t s s' p. unfold serve, before_request_handler.
  rewrite check_session_endpoint_unchecked. unfold mbind, result_bind.
  unfold check_session.
  destruct (s !! lit "username"); [|intros [= <- <-]; by left].
  destruct (s !! lit "last_activity") as [v|] eqn:Hv; simpl;
    [|intros [= <- <-]; by left].
  destruct (truthy v) eqn:Htrue; [|intros [= <- <-]; by left].
  unfold mbind, result_bind.
  destruct (activity_time ck v) as [t0|e] eqn:Ht0; [|done].
  destruct (thirty_minutes <? t - t0) eqn:Hlate; intros [= <- <-];
    [|by left].
  right. split; [done|]. split; [done|].
  destruct v; try done. exists s0, t0. apply Z.ltb_lt in Hlate. done.
Qed.

Lemma session_poll_never_extends_witness :
  exists (x : str) (t0 : Z),
    sample_session !! lit "last_activity" = Some (JStr x)
    /\ dt_fromisoformat sample_clock x = Ok t0
    /\ thirty_minutes < 1000 + thirty_minutes + 1 - t0.
Proof.
  destruct (session_poll_never_extends sample_clock 0 0
              (1000 + thirty_minutes + 1) sample_session ∅
              (Json 401 [(lit "valid", JBool false);
                         (lit "reason", JStr (lit "expired"))])
              ltac:(by vm_compute))
    as [Hsame | (_ & _ & x & t0 & H)].
  - apply (f_equal (fun s : gmap (list N) json => s !! lit "username"))
      in Hsame.
    by vm_compute in Hsame.
  - by exists x, t0.
Defined.

Lemma flash_keeps (message0 category key : str) (s : session) :
  lit "_flashes" <> key -> flash message0 category s !! key = s !! key.
Proof. intros Hkey. unfold flash. cbv zeta. by rewrite lookup_insert_ne. Qed.

(** X13. A request that arrives more than thirty minutes after
    the last activity closes the session. For every endpoint but the
    three unchecked ones the view is not called, the answer is the
    redirect to the login page, and the session left holds no user: from
    then on [check_session] answers 401 and every view behind
    [login_required] redirects to the login page. *)
Theorem idle_session_is_closed :
  forall (ck : clock) (endpoint : str) (now now' t0 : Z) (x : str)
         (u : json) (s : session)
         (view : session -> result (page * session)),
    Some endpoint ∉ unchecked_endpoints ->
    s !! lit "username" = Some u ->
    s !! lit "last_activity" = Some (JStr x) ->
    x <> [] ->
    dt_fromisoformat ck x = Ok t0 ->
    thirty_minutes < now - t0 ->
    exists s' : session,
      serve ck endpoint now now' view s = Ok (Redirect (lit "login"), s')
      /\ s' !! lit "username" = None
      /\ (forall t : Z,
            check_session ck t s' = Ok (Json 401 [(lit "valid", JBool false)], s'))
      /\ (forall v : session -> result (page * session),
            exists s'' : session,
              login_required v s' = Ok (Redirect (lit "login"), s'')).
Proof.
  intros ck endpoint now now' t0 x u s view Hend Hu Hx Hne Ht0 Hlate.
  destruct session_keys_differ as (Hk1 & _).
  eexists. split; [|split; [|split]].
  - unfold serve, before_request_handler.
    rewrite bool_decide_false by done. rewrite Hu, Hx. simpl.
    destruct x; [done|]. simpl. unfold mbind, result_bind. rewrite Ht0.
    apply Z.ltb_lt in Hlate. rewrite Hlate. reflexivity.
  - rewrite flash_keeps by done. apply lookup_empty.
  - intros t. unfold check_session.
    by rewrite flash_keeps, lookup_empty.
  - intros v. unfold login_required.
    rewrite flash_keeps, lookup_empty by done. by eexists.
Qed.

Lemma idle_session_is_closed_witness :
  exists s' : gmap (list N) json,
    serve sample_clock (lit "metrics") (1000 + thirty_minutes + 1)
      (1000 + thirty_minutes + 2)
      (fun s => Ok (Render (lit "metrics.html"), s)) sample_session
    = Ok (Redirect (lit "login"), s')
    /\ s' !! lit "username" = None.
Proof.
  destruct (idle_session_is_closed sample_clock (lit "metrics")
              (1000 + thirty_minutes + 1) (1000 + thirty_minutes + 2) 1000
              (lit "1000") (JStr (lit "alice")) sample_session
              (fun s => Ok (Render (lit "metrics.html"), s))
              ltac:(apply (bool_decide_unpack _); by vm_compute)
              ltac:(by vm_compute) ltac:(by vm_compute)
              ltac:(by vm_compute) ltac:(by vm_compute)
              ltac:(by vm_compute))
    as (s' & Hserve & Hname & _).
  by exists s'.
Defined.

Lemma whole_seconds_bounds (span : Z) :
  0 <= span <= thirty_minutes -> 0 <= whole_seconds span <= 1800.
Proof.
  unfold whole_seconds, thirty_minutes. intros H.
  rewrite Z.quot_div_nonneg by lia.
  split; [apply Z.div_pos; lia|].
  apply Z.div_le_upper_bound; lia.
Qed.

Lemma fresh_session_runs_out (ck : clock) (t0 : Z) (u : json) (s : session) :
  s !! lit "username" = Some u ->
  s !! lit "last_activity" = Some (JStr (dt_isoformat ck t0)) ->
  dt_isoformat ck t0 <> [] ->
  dt_fromisoformat ck (dt_isoformat ck t0) = Ok t0 ->
  runs_out_after ck t0 s.
Proof.
  intros Hu Hlast Hne Hround. split.
  - intros t Ht remaining_seconds. split.
    + apply whole_seconds_bounds. lia.
    + unfold check_session. rewrite Hu, Hlast. simpl.
      destruct (dt_isoformat ck t0) eqn:Hiso; [done|]. simpl.
      unfold mbind, result_bind. rewrite Hround.
      by rewrite (proj2 (Z.ltb_ge _ _)) by lia.
  - intros t Ht. unfold check_session. rewrite Hu, Hlast. simpl.
    destruct (dt_isoformat ck t0) eqn:Hiso; [done|]. simpl.
    unfold mbind, result_bind. rewrite Hround.
    by rewrite (proj2 (Z.ltb_lt _ _)) by lia.
Qed.

(** X14. A session lasts thirty minutes from the last request.
    With a clock whose text form parses back to the time: after a request
    of a logged-in user that [before_request_handler] lets through, and
    after a successful [login], the session holds the user, and
    [check_session] reports it valid with at most 1800 remaining seconds
    up to thirty minutes later, and expired after that. *)
Theorem session_lasts_thirty_minutes :
  forall (ck : clock) (now' : Z) (s : session),
    dt_isoformat ck now' <> [] ->
    dt_fromisoformat ck (dt_isoformat ck now') = Ok now' ->
    (forall (endpoint : str) (now : Z) (u : json) (s1 : session),
       Some endpoint ∉ unchecked_endpoints ->
       s !! lit "username" = Some u ->
       before_request_handler ck (Some endpoint) now now' s = Ok (None, s1) ->
       s1 !! lit "username" = Some u /\ runs_out_after ck now' s1)
    /\ (forall (connect : json -> json -> result unit) (f : form)
               (s1 : session),
          login ck connect (Some f) now' s = Ok (Redirect (lit "metrics"), s1) ->
          s1 !! lit "username" = Some (obj (form_get f (lit "username")))
          /\ runs_out_after ck now' s1).
Proof.
  intros ck now' s Hne Hround.
  destruct session_keys_differ as (Hk1 & Hk2 & Hk3 & Hk4 & Hk5 & Hk6).
  split.
  - intros endpoint now u s1 Hend Hu. unfold before_request_handler.
    rewrite bool_decide_false, Hu by done. unfold mbind, result_bind.
    destruct (if truthy _ then _ else _) as [[|]|e]; [done| |done].
    intros [= <-].
    assert (Hu1 : <[lit "_permanent":=JBool true]>
                    (<[lit "last_activity":=JStr (dt_isoformat ck now')]> s)
                  !! lit "username" = Some u).
    { by rewrite !lookup_insert_ne. }
    split; [done|].
    apply (fresh_session_runs_out ck now' u); [exact Hu1| |done|done].
    rewrite lookup_insert_ne by done. apply lookup_insert_eq.
  - intros connect f s1. unfold login.
    destruct (connect _ _) as [[]|e]; [|done].
    intros [= <-].
    assert (Hu1 : flash (lit "Login successful!") (lit "success")
                    (<[lit "_permanent":=JBool true]>
                       (<[lit "last_activity":=JStr (dt_isoformat ck now')]>
                          (<[lit "password":=obj (form_get f (lit "password"))]>
                             (<[lit "username":=
                                  obj (form_get f (lit "username"))]> ∅))))
                  !! lit "username"
                  = Some (obj (form_get f (lit "username")))).
    { rewrite flash_keeps by done. rewrite !lookup_insert_ne by done.
      apply lookup_insert_eq. }
    split; [done|].
    eapply fresh_session_runs_out; [exact Hu1| |done|done].
    rewrite flash_keeps by done. rewrite lookup_insert_ne by done.
    apply lookup_insert_eq.
Qed.

Lemma session_lasts_thirty_minutes_witness :
  exists s1 : gmap (list N) json,
    login sample_clock (fun _ _ => Ok ()) (Some sample_login_form) 1000 ∅
    = Ok (Redirect (lit "metrics"), s1)
    /\ s1 !! lit "username" = Some (JStr (lit "alice"))
    /\ runs_out_after sample_clock 1000 s1.
Proof.
  eexists. split; [reflexivity|].
  exact (proj2 (session_lasts_thirty_minutes sample_clock 1000 ∅
                  ltac:(by vm_compute) ltac:(by vm_compute))
           (fun _ _ => Ok ()) sample_login_form _ eq_refl).
Defined.

(** X15. [logout] leaves a session that holds neither the user
    nor the password, whatever it held. On it [index] redirects to the
    login page, [check_session] answers 401, [before_request_handler]
    lets every request through without storing an activity time, and
    every view behind [login_required] redirects to the login page. *)
Theorem logout_closes_session :
  forall (ck : clock) (s : session),
    exists s' : session,
      logout s = Ok (Redirect (lit "login"), s')
      /\ s' !! lit "username" = None
      /\ s' !! lit "password" = None
      /\ index s' = Ok (Redirect (lit "login"), s')
      /\ (forall t : Z,
            check_session ck t s'
            = Ok (Json 401 [(lit "valid", JBool false)], s'))
      /\ (forall (endpoint : option str) (now now' : Z),
            before_request_handler ck endpoint now now' s' = Ok (None, s'))
      /\ (forall view : session -> result (page * session),
            exists s'' : session,
              login_required view s' = Ok (Redirect (lit "login"), s'')).
Proof.
  intros ck s. destruct session_keys_differ as (Hk1 & _).
  assert (Hk2 : lit "_flashes" <> lit "password") by by vm_compute.
  eexists. split; [reflexivity|].
  assert (Hname :
    flash (lit "Logged out successfully!") (lit "success") ∅
    !! lit "username" = None).
  { rewrite flash_keeps by done. apply lookup_empty. }
  split_and!.
  - exact Hname.
  - rewrite flash_keeps by done. apply lookup_empty.
  - unfold index. by rewrite Hname.
  - intros t. unfold check_session. by rewrite Hname.
  - intros endpoint now now'. unfold before_request_handler.
    rewrite Hname. by destruct (bool_decide _).
  - intros view. unfold login_required. rewrite Hname. by eexists.
Qed.

(** ** Fetching the report data *)

(** [read_sql] leaves the connection as it found it: nothing written, no
    transaction aborted; it returns the result of the query or raises a
    [DatabaseError]. *)
Lemma read_sql_clean {A : Type} (sql : string) (query : db -> A) (d : db)
  (c0 : conn) :
  committed c0 = d -> work c0 = d -> aborted c0 = false ->
  committed (read_sql sql query c0).2 = d
  /\ work (read_sql sql query c0).2 = d
  /\ aborted (read_sql sql query c0).2 = false
  /\ match (read_sql sql query c0).1 with
     | Ok a => a = query d
     | Raise e => is_class DatabaseError e = true
     end.
Proof.
  destruct c0 as [cd wd ab fs0 is_up k]. simpl. intros -> -> ->.
  unfold read_sql. run_handler. unfold_db. unfold raise. simpl.
  destruct fs0 as [|[msg|] fs0]; simpl; done.
Qed.

Local Opaque read_sql.

Ltac step_read d :=
  match goal with
  | |- context [read_sql ?sql ?q ?c0] =>
      let Hc := fresh "Hc" in
      let Hw := fresh "Hw" in
      let Ha := fresh "Ha" in
      let Hr := fresh "Hr" in
      let df := fresh "df" in
      let c1 := fresh "c" in
      pose proof (read_sql_clean sql q d c0 ltac:(done) ltac:(done)
                    ltac:(done)) as (Hc & Hw & Ha & Hr);
      destruct (read_sql sql q c0) as [[df|?] c1];
      cbn [fst snd] in Hc, Hw, Ha, Hr; [subst df|]
  end.

Ltac split_frame H :=
  match goal with
  | |- context [match ?x with [] => _ | _ :: _ => _ end] =>
      destruct x eqn:H; cbv beta; [done|]
  end.

(** X16. What [fetch_data] returns. Whenever it returns, under
    any faults, both frames are non-empty and nothing was written; the
    aggregate frame holds the rows of the customer whose month lies
    between [s] and [e], and the configuration frame the configuration
    rows of the customer in the same range, where [e] is the month asked
    for and [s] lies [n - 1] months before it, [n] being 6 or the window
    length stored in a configuration row of the customer for [e]. *)
Theorem fetch_data_returns_the_window :
  forall (py : python) (pd : pandas) (c m : option str) (d : db)
         (fs : list (option str)) (is_up : bool)
         (cfg : list config_row) (fin : list final_row) (c' : conn),
    fetch_data py pd c m (open_conn d fs is_up) = (Ok (cfg, fin), c') ->
    cfg <> [] /\ fin <> []
    /\ committed c' = d
    /\ exists (e s : date) (n : Z),
         strptime py (obj m) (lit "%Y-%m-%d") = Ok e
         /\ minus_months e (n - 1) = Ok s
         /\ fin = sql_select
                    (fun r =>
                       text_is c (customer_name r)
                       && between s e (month_year r))
                    (final_computed_table d)
         /\ cfg = map (read_config pd)
                    (sql_select
                       (fun r =>
                          text_is c (m_customer_name r)
                          && between s e (m_month_year r))
                       (customer_mapping_table d))
         /\ (n = 6
             \/ exists r : mapping_row,
                  r ∈ customer_mapping_table d
                  /\ mapping_at c (Some e) r = true
                  /\ window_length pd (no_of_months r) = Ok n).
Proof.
  intros py pd c m d fs is_up cfg fin c'.
  unfold fetch_data.
  unfold mbind, M_bind, bind, lift, mret, M_ret, ret, raise, try_except.
  destruct (strptime py (obj m) (lit "%Y-%m-%d")) as [e|err] eqn:He;
    [|done].
  step_read d.
  - (* the stored window length, if any *)
    destruct (sql_select (mapping_at c (Some e)) (customer_mapping_table d))
      as [|r0 rest] eqn:Hstored; simpl.
    + destruct (minus_months e (6 - 1)) as [s|?] eqn:Hs; [|done].
      step_read d; [step_read d; [|done]|done].
      split_frame Hcfg.
      split_frame Hfin.
      intros [= <- <- <-].
      split_and!; try done. exists e, s, 6. rewrite Hcfg, Hfin.
      split_and!; try done. by left.
    + destruct (window_length pd (no_of_months r0)) as [n|?] eqn:Hn; [|done].
      destruct (minus_months e (n - 1)) as [s|?] eqn:Hs; [|done].
      step_read d; [step_read d; [|done]|done].
      split_frame Hcfg.
      split_frame Hfin.
      intros [= <- <- <-].
      split_and!; try done. exists e, s, n. rewrite Hcfg, Hfin.
      split_and!; try done.
      right. exists r0.
      assert (Hin : In r0 (sql_select (mapping_at c (Some e))
                             (customer_mapping_table d))).
      { rewrite Hstored. by left. }
      unfold sql_select in Hin. apply filter_In in Hin as [Hin Hat].
      by rewrite list_elem_of_In.
  - (* the first query failed: six months *)
    rewrite Hr.
    destruct (minus_months e (6 - 1)) as [s|?] eqn:Hs; [|done].
    step_read d; [step_read d; [|done]|done].
    split_frame Hcfg.
    split_frame Hfin.
    intros [= <- <- <-].
    split_and!; try done. exists e, s, 6. rewrite Hcfg, Hfin.
    split_and!; try done. by left.
Qed.

Lemma fetch_data_returns_the_window_witness :
  exists (cfg : list config_row) (fin : list final_row) (c' : conn),
    fetch_data sample_python sample_pandas (Some acme)
      (Some (lit "2025-03-01")) (open_conn sample_db [] true)
    = (Ok (cfg, fin), c')
    /\ cfg <> [] /\ fin <> [] /\ committed c' = sample_db.
Proof.
  destruct (fetch_data sample_python sample_pandas (Some acme)
              (Some (lit "2025-03-01")) (open_conn sample_db [] true))
    as [[[cfg fin]|e] c'] eqn:Hrun; [|by vm_compute in Hrun].
  exists cfg, fin, c'. split; [done|].
  destruct (fetch_data_returns_the_window _ _ _ _ _ _ _ _ _ _ Hrun)
    as (Hcfg & Hfin & Hdb & _).
  done.
Defined.

Lemma fetch_data_frames (py : python) (pd : pandas) (c m : option str)
  (d : db) (fs : list (option str)) (is_up : bool)
  (cfg : list config_row) (fin : list final_row) (c' : conn) :
  fetch_data py pd c m (open_conn d fs is_up) = (Ok (cfg, fin), c') ->
  cfg <> [] /\ fin <> [].
Proof.
  unfold fetch_data.
  unfold mbind, M_bind, bind, lift, mret, M_ret, ret, raise, try_except.
  destruct (strptime py (obj m) (lit "%Y-%m-%d")) as [e|err]; [|done].
  step_read d.
  - destruct (sql_select (mapping_at c (Some e)) (customer_mapping_table d))
      as [|r0 rest]; simpl.
    + destruct (minus_months e (6 - 1)) as [s|?]; [|done].
      step_read d; [step_read d; [|done]|done].
      split_frame Hcfg. split_frame Hfin. by intros [= <- <- <-].
    + destruct (window_length pd (no_of_months r0)) as [n|?]; [|done].
      destruct (minus_months e (n - 1)) as [s|?]; [|done].
      step_read d; [step_read d; [|done]|done].
      split_frame Hcfg. split_frame Hfin. by intros [= <- <- <-].
  - rewrite Hr.
    destruct (minus_months e (6 - 1)) as [s|?]; [|done].
    step_read d; [step_read d; [|done]|done].
    split_frame Hcfg. split_frame Hfin. by intros [= <- <- <-].
Qed.

Lemma fetch_data_reads_only (py : python) (pd : pandas) (c m : option str)
  (d : db) (fs : list (option str)) (is_up : bool) :
  committed (fetch_data py pd c m (open_conn d fs is_up)).2 = d.
Proof.
  unfold fetch_data.
  unfold mbind, M_bind, bind, lift, mret, M_ret, ret, raise, try_except.
  destruct (strptime py (obj m) (lit "%Y-%m-%d")) as [e|err]; [|done].
  step_read d.
  - destruct (sql_select (mapping_at c (Some e)) (customer_mapping_table d))
      as [|r0 rest]; simpl.
    + destruct (minus_months e (6 - 1)) as [s|?]; [|done].
      step_read d; [step_read d; [|done]|done].
      repeat match goal with
      | |- context [match ?x with [] => _ | _ :: _ => _ end] =>
          destruct x; cbv beta
      end; done.
    + destruct (window_length pd (no_of_months r0)) as [n|?]; [|done].
      destruct (minus_months e (n - 1)) as [s|?]; [|done].
      step_read d; [step_read d; [|done]|done].
      repeat match goal with
      | |- context [match ?x with [] => _ | _ :: _ => _ end] =>
          destruct x; cbv beta
      end; done.
  - rewrite Hr.
    destruct (minus_months e (6 - 1)) as [s|?]; [|done].
    step_read d; [step_read d; [|done]|done].
    repeat match goal with
    | |- context [match ?x with [] => _ | _ :: _ => _ end] =>
        destruct x; cbv beta
    end; done.
Qed.

Local Transparent read_sql.

Lemma generate_ppt_reads_only (py : python) (pd : pandas)
  (render : data_dictionary -> str -> result unit) (f : form) (d : db)
  (fs : list (option str)) (is_up : bool) :
  exists out : download,
    (generate_ppt py pd render f (open_conn d fs is_up)).1 = Ok out
    /\ committed (generate_ppt py pd render f (open_conn d fs is_up)).2 = d.
Proof.
  unfold generate_ppt.
  unfold mbind, M_bind, bind, lift, mret, M_ret, ret, raise, try_except,
    get_db_connection.
  cbn [up open_conn negb].
  destruct is_up; cbn [negb]; [|by eexists].
  pose proof (fetch_data_reads_only py pd (form_get f (lit "customer"))
                (form_get f (lit "month")) d fs true) as Hread.
  destruct (fetch_data py pd _ _ (open_conn d fs true))
    as [[[cfg fin]|e] c1]; cbn [snd] in Hread; [|by eexists].
  destruct cfg as [|c0 cfg], fin as [|r0 fin]; try by eexists.
  destruct (match form_get f (lit "month") with Some _ => _ | None => _ end);
    [|by eexists].
  destruct (strptime py _ _); [|by eexists].
  destruct (render _ _); by eexists.
Qed.

(** X17. [generate_ppt] answers every request and writes
    nothing: in every run it returns a failure message or the deck, and
    the database is unchanged. Whenever [fetch_data] returns, the deck is
    assembled and rendered (the branch with the message [No data found
    for PPT generation] is never taken); when the window of a fault-free
    run holds no configuration row or no aggregate row, the answer is the
    message of [fetch_data] that names the customer and the two ends of
    the window. *)
Theorem generate_ppt_reports_missing_data :
  forall (py : python) (pd : pandas)
         (render : data_dictionary -> str -> result unit) (f : form) (d : db),
    let customer := form_get f (lit "customer") in
    let month0 := form_get f (lit "month") in
    (forall (fs : list (option str)) (is_up : bool),
       exists out : download,
         (generate_ppt py pd render f (open_conn d fs is_up)).1 = Ok out
         /\ committed (generate_ppt py pd render f (open_conn d fs is_up)).2
            = d)
    /\ (forall (fs : list (option str)) (cfg : list config_row)
               (fin : list final_row) (c1 : conn),
          fetch_data py pd customer month0 (open_conn d fs true)
          = (Ok (cfg, fin), c1) ->
          (generate_ppt py pd render f (open_conn d fs true)).1
          = Ok match
                 (month1 ← match month0 with
                           | Some month1 => Ok month1
                           | None =>
                               Raise (Exn TypeError
                                        (lit "strptime() argument 1 must be str, not None"))
                           end;
                  data_dict ← prepare_data_dictionary py cfg fin month1;
                  dt ← strptime py (obj month0) (lit "%Y-%m-%d");
                  let output_filename :=
                    text_or_None customer ++ lit "_"
                    ++ pad 4 (str_of_Z (year dt)) ++ lit "_"
                    ++ month_abbr (month dt) ++ lit ".pptx" in
                  render data_dict output_filename;;
                  Ok (Attachment output_filename data_dict))
               with
               | Ok a => a
               | Raise e => Failure (exn_text e)
               end)
    /\ (forall (e s : date) (n : Z),
          strptime py (obj month0) (lit "%Y-%m-%d") = Ok e ->
          match
            no_of_months
              <$> head (sql_select (mapping_at customer (Some e))
                          (customer_mapping_table d))
          with
          | None => Ok 6
          | Some v => window_length pd v
          end = Ok n ->
          minus_months e (n - 1) = Ok s ->
          sql_select
            (fun r =>
               text_is customer (m_customer_name r)
               && between s e (m_month_year r))
            (customer_mapping_table d) = []
          \/ sql_select
               (fun r =>
                  text_is customer (customer_name r)
                  && between s e (month_year r))
               (final_computed_table d) = [] ->
          run (generate_ppt py pd render f) d [] true
          = (Ok (Failure
                   (lit "No data found for customer '"
                    ++ text_or_None customer ++ lit "' between "
                    ++ isoformat s ++ lit " and " ++ isoformat e
                    ++ lit ".")), d)).
Proof.
  intros py pd render f d customer month0. split; [|split].
  - intros fs is_up. apply generate_ppt_reads_only.
  - intros fs cfg fin c1 Hfetch.
    destruct (fetch_data_frames _ _ _ _ _ _ _ _ _ _ Hfetch) as [Hcfg Hfin].
    unfold generate_ppt.
    unfold mbind at 1 2, M_bind, bind, lift, mret, M_ret, ret, raise,
      try_except, get_db_connection.
    cbn [up open_conn negb]. fold customer month0. rewrite Hfetch.
    destruct cfg as [|c0 cfg], fin as [|r0 fin]; try done.
    unfold mbind, result_bind.
    destruct month0 as [month1|]; [|done].
    destruct (prepare_data_dictionary py _ _ month1); [|done].
    destruct (strptime py _ _); [|done].
    destruct (render _ _); done.
  - intros e s n He Hn Hs Hempty.
    unfold generate_ppt, fetch_data, read_sql. run_handler. unfold_db.
    unfold raise. simpl. fold customer month0. rewrite He. simpl.
    destruct (sql_select (mapping_at customer (Some e))
                (customer_mapping_table d)) as [|r0 rest]; simpl in *.
    + injection Hn as <-. rewrite Hs.
      destruct Hempty as [-> | ->]; [done|].
      by destruct (sql_select _ (customer_mapping_table d)).
    + rewrite Hn, Hs.
      destruct Hempty as [-> | ->]; [done|].
      by destruct (sql_select _ (customer_mapping_table d)).
Qed.

Lemma generate_ppt_reports_missing_data_witness :
  run (generate_ppt sample_python sample_pandas (fun _ _ => Ok ())
         sample_nobody_form) sample_db [] true
  = (Ok (Failure
           (lit "No data found for customer 'nobody' between 2024-10-01 and 2025-03-01.")),
     sample_db).
Proof.
  destruct (generate_ppt_reports_missing_data sample_python sample_pandas
              (fun _ _ => Ok ()) sample_nobody_form sample_db)
    as (_ & _ & Hmissing).
  rewrite (Hmissing mar (Date 2024 10 1) 6 ltac:(by vm_compute)
             ltac:(by vm_compute) ltac:(by vm_compute)
             ltac:(left; by vm_compute)).
  by vm_compute.
Defined.

(** X18. Tick and cross marks of the licence and storage slides
    agree with the indicator. The colour key of the slide is [Color3]
    exactly when the loop over the shapes keeps the cross of Prod or the
    cross of Test off the removal list; of each pair of tick and cross
    it puts exactly one on the list; and it puts no shape of another
    name on it. *)
Theorem cross_marks_match_the_indicator (used_val used_test : float)
  (rules0 : rules) :
  let p := is_red used_val rules0 in
  let t := is_red used_test rules0 in
  (usage_color_key used_val used_test rules0 = Color3
   <-> to_remove p t (lit "Prod_Value_Cross") = false
       \/ to_remove p t (lit "Test_Value_Cross") = false)
  /\ to_remove p t (lit "Prod_Value")
     = negb (to_remove p t (lit "Prod_Value_Cross"))
  /\ to_remove p t (lit "Test_Value")
     = negb (to_remove p t (lit "Test_Value_Cross"))
  /\ (forall name : str,
        name <> lit "Prod_Value" -> name <> lit "Prod_Value_Cross" ->
        name <> lit "Test_Value" -> name <> lit "Test_Value_Cross" ->
        to_remove p t name = false).
Proof.
  intros p t.
  assert (usage_color_key used_val used_test rules0 = Color3
          <-> p || t = true) as ->.
  { unfold usage_color_key, p, t, is_red.
    destruct (float_ge used_val (rule_Color3 rules0) || _); [done|].
    split; [|done].
    by repeat match goal with
       | |- context [if ?b then _ else _] => destruct b
       end. }
  clearbody p t. split_and!.
  - destruct p, t; vm_compute; intuition congruence.
  - by destruct p, t; vm_compute.
  - by destruct p, t; vm_compute.
  - intros name H1 H2 H3 H4. unfold to_remove.
    destruct p, t; rewrite !bool_decide_false; done.
Qed.

Lemma cross_marks_match_the_indicator_witness :
  usage_color_key (Some 95%Q) (Some 20%Q) (Rules 50 75 90) = Color3
  /\ to_remove true false (lit "Prod_Value") = true
  /\ to_remove true false (lit "Dev_Value") = false.
Proof.
  destruct (cross_marks_match_the_indicator (Some 95%Q) (Some 20%Q)
              (Rules 50 75 90)) as (Hkey & Hprod & _ & Hother).
  split; [apply Hkey; left; by vm_compute|].
  split; [by vm_compute|].
  exact (Hother (lit "Dev_Value") ltac:(by vm_compute) ltac:(by vm_compute)
           ltac:(by vm_compute) ltac:(by vm_compute)).
Defined.

Lemma py_round_bounds (x : Q) (lo hi : Z) :
  (inject_Z lo <= x)%Q -> (x <= inject_Z hi)%Q -> lo <= py_round x <= hi.
Proof.
  intros Hlo Hhi. unfold py_round.
  pose proof (Qfloor_le x) as Hf.
  pose proof (Qlt_floor x) as Hf'.
  assert (lo <= Qfloor x) as Hl.
  { rewrite <- (Qfloor_Z lo). by apply Qfloor_resp_le. }
  assert (Qfloor x <= hi) as Hh.
  { rewrite <- (Qfloor_Z hi). by apply Qfloor_resp_le. }
  destruct (Z.eq_dec (Qfloor x) hi) as [Heq|Hne].
  - assert ((x - inject_Z (Qfloor x) ?= 1 # 2)%Q = Lt) as ->; [|lia].
    apply Qlt_alt. rewrite Heq.
    apply Qle_lt_trans with (inject_Z hi - inject_Z hi)%Q.
    + unfold Qminus. apply Qplus_le_compat; [done|apply Qle_refl].
    + unfold Qminus. by rewrite Qplus_opp_r.
  - destruct (x - inject_Z (Qfloor x) ?= 1 # 2)%Q; [destruct (Z.even _)| |];
      lia.
Qed.

Lemma binade_ge (x : Q) (j : Z) :
  0 < Qnum x -> 0 <= j -> j <= binade x -> 2 ^ j * Z.pos (Qden x) <= Qnum x.
Proof.
  intros Hn Hj. unfold binade. rewrite (Z.abs_eq (Qnum x)) by lia.
  set (n := Qnum x) in *. set (d := Z.pos (Qden x)).
  assert (Hd : 0 < d) by done.
  pose proof (Z.log2_spec n Hn) as [Ha _].
  pose proof (Z.log2_spec d Hd) as [_ Hb].
  pose proof (Z.log2_nonneg n) as Ha0. pose proof (Z.log2_nonneg d) as Hb0.
  set (a := Z.log2 n) in *. set (b := Z.log2 d) in *.
  destruct (d * 2 ^ Z.max (a - b) 0 <=? n * 2 ^ Z.max (- (a - b)) 0)
    eqn:Htest.
  - intros Hle. apply Z.leb_le in Htest.
    rewrite (Z.max_l (a - b) 0) in Htest by lia.
    rewrite (Z.max_r (- (a - b)) 0) in Htest by lia.
    rewrite Z.pow_0_r, Z.mul_1_r in Htest.
    assert (2 ^ j <= 2 ^ (a - b)) by (apply Z.pow_le_mono_r; lia).
    nia.
  - intros Hle.
    assert (Hsplit : 2 ^ a = 2 ^ (a - b - 1) * 2 ^ (b + 1)).
    { rewrite <- Z.pow_add_r by lia. f_equal. lia. }
    assert (2 ^ j <= 2 ^ (a - b - 1)) by (apply Z.pow_le_mono_r; lia).
    assert (0 < 2 ^ j) by (apply Z.pow_pos_nonneg; lia).
    nia.
Qed.

Lemma Qpower_2_neg (j : Z) :
  0 <= j -> (2 ^ (- j) == / inject_Z (2 ^ j))%Q.
Proof.
  intros Hj. rewrite Qpower_opp. apply Qinv_comp.
  by rewrite Zpower_Qpower.
Qed.

(** Rounding to a float keeps a number between zero and an integer
    below [2^53]. *)
Lemma float64_bounds (x : Q) (hi : Z) :
  (0 <= x)%Q -> (x <= inject_Z hi)%Q -> hi < 2 ^ 53 ->
  (0 <= float64 x)%Q /\ (float64 x <= inject_Z hi)%Q.
Proof.
  intros H0 Hhi Hsmall. unfold float64.
  destruct (Qeq_bool x 0) eqn:Hzero.
  { split; [apply Qle_refl|]. by apply Qle_trans with x. }
  apply Qeq_bool_neq in Hzero.
  assert (Hpos : (0 < x)%Q).
  { apply Qle_lt_or_eq in H0 as [H|H]; [done|]. by destruct Hzero. }
  assert (Hn : 0 < Qnum x).
  { unfold Qlt in Hpos. simpl in Hpos. lia. }
  remember (Z.max (binade x - 52) (-1074)) as k eqn:Hkdef.
  destruct (Z_le_gt_dec k 0) as [Hk|Hk].
  - remember (- k) as j eqn:Hjdef. assert (Hj : 0 <= j) by lia.
    assert (Hpow : (2 ^ k == / inject_Z (2 ^ j))%Q).
    { replace k with (- j) by lia. by apply Qpower_2_neg. }
    assert (HP : (0 < inject_Z (2 ^ j))%Q).
    { change 0%Q with (inject_Z 0). rewrite <- Zlt_Qlt.
      apply Z.pow_pos_nonneg; lia. }
    assert (Hy : (x / 2 ^ k == x * inject_Z (2 ^ j))%Q).
    { unfold Qdiv. rewrite Hpow. by rewrite Qinv_involutive. }
    destruct (py_round_bounds (x / 2 ^ k) 0 (hi * 2 ^ j)) as [Hm0 Hm1].
    + rewrite Hy. change (inject_Z 0) with 0%Q.
      apply Qmult_le_0_compat; [done|]. by apply Qlt_le_weak.
    + rewrite Hy, inject_Z_mult. apply Qmult_le_compat_r; [done|].
      by apply Qlt_le_weak.
    + remember (py_round (x / 2 ^ k)) as mant eqn:Hmant. clear Hmant.
      rewrite Hpow. split.
      * apply Qmult_le_0_compat.
        -- change 0%Q with (inject_Z 0). by rewrite <- Zle_Qle.
        -- apply Qlt_le_weak. by apply Qinv_lt_0_compat.
      * apply Qle_shift_div_r; [done|].
        rewrite <- inject_Z_mult, <- Zle_Qle. lia.
  - assert (Hb : 53 <= binade x) by lia.
    pose proof (binade_ge x 53 Hn ltac:(lia) Hb) as Hbig.
    exfalso. unfold Qle in Hhi. simpl in Hhi.
    assert (0 < Z.pos (Qden x)) by done. nia.
Qed.

(** X19. The used percentage of the licence table lies between
    0 and 100 whenever the used count is not negative and does not exceed
    the licence count (0 when there are no licences). *)
Theorem used_percent_bounds (used0 total : Z) :
  0 <= used0 <= total -> 0 <= used_percent used0 total <= 100.
Proof.
  intros [H0 H1]. unfold used_percent.
  destruct (total =? 0) eqn:Ht; [lia|].
  apply Z.eqb_neq in Ht.
  assert (0 < inject_Z total)%Q as Hpos.
  { change 0%Q with (inject_Z 0). rewrite <- Zlt_Qlt. lia. }
  destruct (float64_bounds (inject_Z (used0 * 100) / inject_Z total) 100)
    as [Hlo Hhi].
  - apply Qle_shift_div_l; [done|]. rewrite Qmult_0_l.
    change 0%Q with (inject_Z 0). rewrite <- Zle_Qle. lia.
  - apply Qle_shift_div_r; [done|]. rewrite <- inject_Z_mult, <- Zle_Qle. lia.
  - done.
  - by apply py_round_bounds.
Qed.

Lemma used_percent_bounds_witness : 0 <= used_percent 45 60 <= 100.
Proof. apply used_percent_bounds. lia. Defined.
